(** * aidbox/lib.py: the Aidbox client session, its search sets and its
      schema-checked resources

    A shallow embedding of [src/aidbox/lib.py].  Python objects live in a
    heap (one table per class, a location is an index into its table), so
    that the dictionary shared by chained search sets and the identity of
    resources are visible.  Methods are functions in a state-and-exception
    monad over that heap and over the log of the HTTP requests sent. *)

From Stdlib Require Import ZArith.
From stdpp Require Import base gmap sets list strings.

Open Scope Z_scope.
Set Warnings "-register-all,-clear-no-such-hyp".

(** ** Values *)

Abbreviation loc := nat.

(** The values that flow through the library: decoded JSON (numbers are
    modelled as integers) and pointers to the three kinds of instances. *)
Inductive value : Type :=
| VNone
| VBool (b : bool)
| VInt (n : Z)
| VStr (s : string)
| VList (l : list value)
| VDict (d : list (string * value))
| VSession (l : loc)
| VResource (l : loc)
| VReference (l : loc).

(** A Python [dict] with string keys: insertion-ordered, keys unique. *)
Abbreviation pydict := (list (string * value)).

Fixpoint dict_get (k : string) (d : pydict) : option value :=
  match d with
  | [] => None
  | (k', v) :: d' => if decide (k = k') then Some v else dict_get k d'
  end.

(** [d[k] = v]: an existing key keeps its position, a new one goes last. *)
Fixpoint dict_set (k : string) (v : value) (d : pydict) : pydict :=
  match d with
  | [] => [(k, v)]
  | (k', v') :: d' =>
      if decide (k = k') then (k, v) :: d' else (k', v') :: dict_set k v d'
  end.

Fixpoint dict_del (k : string) (d : pydict) : pydict :=
  match d with
  | [] => []
  | (k', v') :: d' =>
      if decide (k = k') then dict_del k d' else (k', v') :: dict_del k d'
  end.

Definition dict_keys (d : pydict) : list string := d.*1.

(** [d.update(kw)] *)
Definition dict_update (d kw : pydict) : pydict :=
  foldl (λ acc kv, dict_set kv.1 kv.2 acc) d kw.

(** [self.x] for a class attribute declared [x = None]. *)
Definition attr (k : string) (d : pydict) : value :=
  default VNone (dict_get k d).

(** Truth value of [if v]. *)
Definition truthy (v : value) : bool :=
  match v with
  | VNone => false
  | VBool b => b
  | VInt n => negb (n =? 0)
  | VStr s => negb (String.eqb s "")
  | VList l => match l with [] => false | _ => true end
  | VDict d => match d with [] => false | _ => true end
  | VSession _ | VResource _ | VReference _ => true
  end.

(** Hashable values as dictionary keys.  [True] and [1] are the same key;
    instances hash by identity. *)
Inductive hkey : Type :=
| KNone
| KInt (n : Z)
| KStr (s : string)
| KSession (l : loc)
| KResource (l : loc)
| KReference (l : loc).

Global Instance hkey_eq_dec : EqDecision hkey.
Proof. solve_decision. Defined.

Definition hkey_enc (k : hkey) : unit + Z + string + nat + nat + nat :=
  match k with
  | KNone => inl (inl (inl (inl (inl ()))))
  | KInt n => inl (inl (inl (inl (inr n))))
  | KStr s => inl (inl (inl (inr s)))
  | KSession l => inl (inl (inr l))
  | KResource l => inl (inr l)
  | KReference l => inr l
  end.

Definition hkey_dec (x : unit + Z + string + nat + nat + nat) : hkey :=
  match x with
  | inl (inl (inl (inl (inl _)))) => KNone
  | inl (inl (inl (inl (inr n)))) => KInt n
  | inl (inl (inl (inr s))) => KStr s
  | inl (inl (inr l)) => KSession l
  | inl (inr l) => KResource l
  | inr l => KReference l
  end.

Global Instance hkey_countable : Countable hkey.
Proof. apply (inj_countable' hkey_enc hkey_dec). by intros []. Defined.

(** [None] for a list or a dict: unhashable. *)
Definition to_key (v : value) : option hkey :=
  match v with
  | VNone => Some KNone
  | VBool b => Some (KInt (Z.b2z b))
  | VInt n => Some (KInt n)
  | VStr s => Some (KStr s)
  | VList _ | VDict _ => None
  | VSession l => Some (KSession l)
  | VResource l => Some (KResource l)
  | VReference l => Some (KReference l)
  end.

(** ** Exceptions and results *)

(** The three exceptions of [aidbox/exceptions.py], the built-in ones the
    code can run into, and [Unmodelled], which is not a Python exception:
    it marks the few places where the embedding stops (a dangling
    location, an attribute read that would yield a method object). *)
Inductive exn : Type :=
| AidboxResourceFieldDoesNotExist (key : string) (resource_type : value)
| AidboxResourceNotFound
| AidboxAuthorizationError
| KeyError
| TypeError
| AttributeError
| IndexError
| ValueError
| RecursionError
| TransportError
| Unmodelled.

Inductive result (A : Type) : Type :=
| Ok (a : A)
| Raise (e : exn).
Arguments Ok {A} a.
Arguments Raise {A} e.

Global Instance result_ret : MRet result := λ A a, Ok a.
Global Instance result_bind : MBind result := λ A B f r,
  match r with
  | Ok a => f a
  | Raise e => Raise e
  end.
Global Instance result_fmap : FMap result := λ A B f r,
  match r with
  | Ok a => Ok (f a)
  | Raise e => Raise e
  end.

Definition of_option {A} (o : option A) (e : exn) : result A :=
  match o with
  | Some a => Ok a
  | None => Raise e
  end.

(** [v[k]] for a string [k]. *)
Definition subscript (v : value) (k : string) : result value :=
  match v with
  | VDict d => of_option (dict_get k d) KeyError
  | _ => Raise TypeError
  end.

(** [v[0]] *)
Definition index0 (v : value) : result value :=
  match v with
  | VList l => of_option (head l) IndexError
  | VStr s =>
      match s with
      | EmptyString => Raise IndexError
      | String c _ => Ok (VStr (String c EmptyString))
      end
  | VDict _ => Raise KeyError
  | _ => Raise TypeError
  end.

(** [for x in v]: a list yields its items, a dict its keys, a string its
    characters. *)
Definition py_iter (v : value) : result (list value) :=
  match v with
  | VList l => Ok l
  | VDict d => Ok (VStr <$> dict_keys d)
  | VStr s => Ok ((λ c, VStr (String c EmptyString)) <$> String.list_ascii_of_string s)
  | _ => Raise TypeError
  end.

(** [sep.join(l)]: every item must be a string. *)
Fixpoint str_join (sep : string) (l : list value) : result string :=
  match l with
  | [] => Ok ""
  | [VStr s] => Ok s
  | VStr s :: l' => r ← str_join sep l'; Ok (s +:+ sep +:+ r)
  | _ => Raise TypeError
  end.

(** ** The network *)

Record request : Type := Request {
  req_url : string;
  req_params : option (list (string * value));
  req_authorization : string;
}.

(** [status_code] and the decoding of [r.text] by [json.loads]; [None] is
    a body that is not JSON. *)
Record response : Type := Response {
  status_code : Z;
  body : option value;
}.

(** What lies outside [lib.py]: [inflection.underscore], the helper
    [convert_to_underscore] of [aidbox/utils.py], and the server, which
    answers a request knowing the requests sent before it ([None]: the
    transport fails). *)
Record environment : Type := Environment {
  underscore : string → string;
  convert_to_underscore : value → value;
  requests_get : list request → request → option response;
}.

(** ** The heap *)

Record Aidbox_obj : Type := AidboxObj {
  host : string;
  token : string;
  schema : gmap hkey (gset string);
}.

Record SearchSet_obj : Type := SearchSetObj {
  ss_aidbox : loc;
  ss_resource_type : string;
  ss_params : loc;
}.

Record Reference_obj : Type := ReferenceObj {
  ref_aidbox : value;
  ref_resource_type : value;
  ref_id : value;
}.

(** [sent] is the log of requests, oldest first.  [dicts] holds the
    parameter dictionaries of the search sets, [resources] the instance
    [__dict__] of every [AidboxResource]. *)
Record world : Type := World {
  sent : list request;
  sessions : list Aidbox_obj;
  dicts : list (list (string * value));
  searchsets : list SearchSet_obj;
  resources : list (list (string * value));
  references : list Reference_obj;
}.

Definition set_sent (f : list request → list request) (w : world) : world :=
  World (f (sent w)) (sessions w) (dicts w) (searchsets w) (resources w)
        (references w).
Definition set_sessions (f : list Aidbox_obj → list Aidbox_obj) (w : world)
  : world :=
  World (sent w) (f (sessions w)) (dicts w) (searchsets w) (resources w)
        (references w).
Definition set_dicts (f : list pydict → list pydict) (w : world) : world :=
  World (sent w) (sessions w) (f (dicts w)) (searchsets w) (resources w)
        (references w).
Definition set_searchsets (f : list SearchSet_obj → list SearchSet_obj)
  (w : world) : world :=
  World (sent w) (sessions w) (dicts w) (f (searchsets w)) (resources w)
        (references w).
Definition set_resources (f : list pydict → list pydict) (w : world) : world :=
  World (sent w) (sessions w) (dicts w) (searchsets w) (f (resources w))
        (references w).
Definition set_references (f : list Reference_obj → list Reference_obj)
  (w : world) : world :=
  World (sent w) (sessions w) (dicts w) (searchsets w) (resources w)
        (f (references w)).

Definition empty_world : world := World [] [] [] [] [] [].

(** ** The monad: state passing, with exceptions that keep the state *)

Definition M (A : Type) : Type := world → result A * world.

Global Instance M_ret : MRet M := λ A a w, (Ok a, w).
Global Instance M_bind : MBind M := λ A B f m w,
  match m w with
  | (Ok a, w') => f a w'
  | (Raise e, w') => (Raise e, w')
  end.

Definition raise {A} (e : exn) : M A := λ w, (Raise e, w).
Definition lift {A} (r : result A) : M A := λ w, (r, w).
Definition gets {A} (f : world → A) : M A := λ w, (Ok (f w), w).
Definition modify (f : world → world) : M () := λ w, (Ok (), f w).

(** [try: m  except ...: h]: the handler [h] tells which exceptions it
    catches and what runs then; the others pass through. *)
Definition catch {A} (m : M A) (h : exn → option (M A)) : M A := λ w,
  match m w with
  | (Ok a, w') => (Ok a, w')
  | (Raise e, w') =>
      match h e with
      | Some handler => handler w'
      | None => (Raise e, w')
      end
  end.

(** [for x in l: f x] *)
Fixpoint for_each {A} (f : A → M ()) (l : list A) : M () :=
  match l with
  | [] => mret ()
  | x :: l' => f x;; for_each f l'
  end.

Definition deref {A} (heap : world → list A) (l : loc) : M A := λ w,
  (of_option (heap w !! l) Unmodelled, w).

(** Allocation: the new instance takes the next free location. *)
Definition alloc_session (a : Aidbox_obj) : M loc := λ w,
  (Ok (length (sessions w)), set_sessions (λ h, h ++ [a]) w).
Definition alloc_dict (d : pydict) : M loc := λ w,
  (Ok (length (dicts w)), set_dicts (λ h, h ++ [d]) w).
Definition alloc_searchset (s : SearchSet_obj) : M loc := λ w,
  (Ok (length (searchsets w)), set_searchsets (λ h, h ++ [s]) w).
Definition alloc_resource (d : pydict) : M loc := λ w,
  (Ok (length (resources w)), set_resources (λ h, h ++ [d]) w).
Definition alloc_reference (r : Reference_obj) : M loc := λ w,
  (Ok (length (references w)), set_references (λ h, h ++ [r]) w).

(** [requests.get]: the request is logged and the server answers it. *)
Definition send (get : list request → request → option response)
    (r : request) : M response := λ w,
  (of_option (get (sent w) r) TransportError, set_sent (λ s, s ++ [r]) w).

(** ** class Aidbox *)

Module Aidbox.
Section Methods.
Context (env : environment).

(** [__init__] with a token given: [self.schema = {}].  (The credential
    exchange that obtains a token otherwise is not modelled.) *)
Definition __init__ (host token : string) : M loc :=
  alloc_session (AidboxObj host token ∅).

Definition _fetch_resource (self : loc) (path : string)
    (params : option (list (string * value))) : M value :=
  a ← deref sessions self;
  let r := Request (host a +:+ "/" +:+ path) params
                   ("Bearer " +:+ token a) in
  resp ← send (requests_get env) r;
  if status_code resp =? 404 then raise AidboxResourceNotFound
  else if status_code resp =? 200 then
    result ← lift (of_option (body resp) ValueError);
    mret (convert_to_underscore env result)
  else raise AidboxAuthorizationError.

(** [{inflection.underscore(attr['path'][0]) for attr in attrs} | {'id'}]
    with [attrs = [res['resource'] for res in attrs_data['entry']]] *)
Definition schema_of (attrs_data : value) : result (gset string) :=
  entry ← subscript attrs_data "entry";
  entries ← py_iter entry;
  attrs ← mapM (λ res, subscript res "resource") entries;
  names ← mapM (λ attr,
             path ← subscript attr "path";
             first ← index0 path;
             match first with
             | VStr s => Ok (underscore env s)
             | _ => Raise TypeError
             end) attrs;
  Ok (list_to_set names ∪ {["id"]}).

Definition _fetch_schema (self : loc) (resource_type : value)
    : M (gset string) :=
  a ← deref sessions self;
  k ← lift (of_option (to_key resource_type) TypeError);
  let miss : M (gset string) :=
    attrs_data ← _fetch_resource self "Attribute"
                    (Some [("entity", resource_type)]);
    s ← lift (schema_of attrs_data);
    modify (set_sessions (alter
      (λ a, AidboxObj (host a) (token a) (<[k := s]> (schema a))) self));;
    mret s in
  match schema a !! k with
  | Some s => if decide (s = ∅) then miss else mret s
  | None => miss
  end.
End Methods.
End Aidbox.

(** ** class AidboxReference *)

Module AidboxReference.
Definition __init__ (aidbox resource_type id : value) : M loc :=
  alloc_reference (ReferenceObj aidbox resource_type id).
End AidboxReference.

(** The keyword arguments of a call [f(explicit..., **v)]: [v] must be a
    mapping and may not repeat an explicit keyword. *)
Definition star_kwargs (explicit : pydict) (v : value) : result pydict :=
  match v with
  | VDict d =>
      if decide (Exists (λ k, k ∈ dict_keys d) (dict_keys explicit))
      then Raise TypeError
      else Ok (explicit ++ d)
  | _ => Raise TypeError
  end.

(** ** class AidboxResource *)

Module AidboxResource.
(** The class attributes declared [= None]. *)
Definition class_attributes : list string :=
  ["aidbox"; "resource_type"; "data"; "meta"].

(** Names whose class-level definition is a data descriptor: they are
    never looked up in the instance [__dict__]. *)
Definition descriptors : list string :=
  ["root_attrs"; "__class__"; "__dict__"; "__weakref__"].

(** What [dir] lists for any instance: the attributes of the class and
    those every object inherits (CPython 3.6 to 3.10). *)
Definition class_names : list string :=
  class_attributes ++
  ["root_attrs"; "__init__"; "__setattr__"; "__getattr__"; "save";
   "delete"; "reference"; "__str__"; "__repr__"] ++
  ["__class__"; "__delattr__"; "__dict__"; "__dir__"; "__doc__"; "__eq__";
   "__format__"; "__ge__"; "__getattribute__"; "__gt__"; "__hash__";
   "__init_subclass__"; "__le__"; "__lt__"; "__module__"; "__ne__";
   "__new__"; "__reduce__"; "__reduce_ex__"; "__sizeof__";
   "__subclasshook__"; "__weakref__"].

Section Methods.
Context (env : environment).

(** [dir(self)] *)
Definition dir (self : loc) : M (list string) :=
  d ← deref resources self;
  mret (class_names ++ dict_keys d).

(** The property [root_attrs]: [self.aidbox.schema[self.resource_type]].
    When [self.aidbox] has no [schema] the getter raises AttributeError,
    Python falls back on [__getattr__('root_attrs')], which evaluates
    [self.root_attrs] again, without end. *)
Definition root_attrs (self : loc) : M (gset string) :=
  d ← deref resources self;
  match attr "aidbox" d with
  | VSession s =>
      a ← deref sessions s;
      k ← lift (of_option (to_key (attr "resource_type" d)) TypeError);
      lift (of_option (schema a !! k) KeyError)
  | VResource _ => raise Unmodelled
  | _ => raise RecursionError
  end.

Definition __getattr__ (self : loc) (key : string) : M value :=
  attrs ← root_attrs self;
  d ← deref resources self;
  if decide (key ∈ attrs) then
    match attr "data" d with
    | VDict data => mret (default VNone (dict_get key data))
    | VResource _ => raise Unmodelled
    | _ => raise AttributeError
    end
  else raise (AidboxResourceFieldDoesNotExist key (attr "resource_type" d)).

(** The attribute read [self.key]: the instance [__dict__], then the
    class, then [__getattr__]. *)
Definition getattr (self : loc) (key : string) : M value :=
  d ← deref resources self;
  if decide (key ∈ descriptors) then raise Unmodelled
  else match dict_get key d with
       | Some v => mret v
       | None =>
           if decide (key ∈ class_attributes) then mret VNone
           else if decide (key ∈ class_names) then raise Unmodelled
           else __getattr__ self key
       end.

Definition reference (self : loc) : M loc :=
  d ← deref resources self;
  id ← getattr self "id";
  AidboxReference.__init__ (attr "aidbox" d) (attr "resource_type" d) id.

(** [super().__setattr__(key, value)] for a name that [dir] lists. *)
Definition object_setattr (self : loc) (key : string) (v : value) : M () :=
  if decide (key = "root_attrs") then raise AttributeError
  else if decide (key = "__class__") then raise TypeError
  else if decide (key = "__weakref__") then raise AttributeError
  else if decide (key = "__dict__") then
    match v with
    | VDict d => modify (set_resources (<[self := d]>))
    | _ => raise TypeError
    end
  else modify (set_resources (alter (dict_set key v) self)).

Definition __setattr__ (self : loc) (key : string) (v : value) : M () :=
  names ← dir self;
  if decide (key ∈ names) then object_setattr self key v
  else
    attrs ← root_attrs self;
    if decide (key ∈ attrs) then
      stored ← match v with
               | VResource e =>
                   (* [value.reference()]: an instance attribute of
                      that name hides the method and is not callable *)
                   de ← deref resources e;
                   match dict_get "reference" de with
                   | Some _ => raise TypeError
                   | None => r ← reference e; mret (VReference r)
                   end
               | _ => mret v
               end;
      d ← deref resources self;
      match attr "data" d with
      | VDict data =>
          modify (set_resources
            (<[self := dict_set "data" (VDict (dict_set key stored data)) d]>))
      | _ => raise TypeError
      end
    else
      d ← deref resources self;
      raise (AidboxResourceFieldDoesNotExist key (attr "resource_type" d)).

(** The body of [__init__], on a newly allocated instance. *)
Definition __init__ (aidbox : loc) (skip_validation : bool)
    (kwargs : pydict) : M loc :=
  self ← alloc_resource [];
  __setattr__ self "data" (VDict []);;
  __setattr__ self "aidbox" (VSession aidbox);;
  __setattr__ self "resource_type" (attr "resource_type" kwargs);;
  Aidbox._fetch_schema env aidbox (attr "resource_type" kwargs);;
  let meta := default (VDict []) (dict_get "meta" kwargs) in
  let kwargs := dict_del "meta" kwargs in
  __setattr__ self "meta" meta;;
  for_each (λ kv : string * value,
              catch (__setattr__ self kv.1 kv.2) (λ e,
                match e with
                | AidboxResourceFieldDoesNotExist _ _ =>
                    Some (if skip_validation then mret () else raise e)
                | _ => None
                end)) kwargs;;
  mret self.

(** The call [AidboxResource(aidbox, **kw)]: [skip_validation] is taken
    out of the keywords, which may not name [self] or [aidbox]. *)
Definition new (aidbox : loc) (kw : pydict) : M loc :=
  if decide ("self" ∈ dict_keys kw ∨ "aidbox" ∈ dict_keys kw)
  then raise TypeError
  else __init__ aidbox
         (truthy (default (VBool false) (dict_get "skip_validation" kw)))
         (dict_del "skip_validation" kw).

(** [Aidbox.resource], defined here because it instantiates this
    class. *)
Definition Aidbox_resource (self : loc) (resource_type : value)
    (kwargs : pydict) : M loc :=
  new self (dict_set "resource_type" resource_type kwargs).

(** The call of [aidbox.resource] with the keywords [kw]: [resource_type]
    is required. *)
Definition call_Aidbox_resource (self : loc) (kw : pydict) : M loc :=
  if decide ("self" ∈ dict_keys kw) then raise TypeError
  else match dict_get "resource_type" kw with
       | Some resource_type =>
           Aidbox_resource self resource_type (dict_del "resource_type" kw)
       | None => raise TypeError
       end.
End Methods.
End AidboxResource.

(** ** class AidboxSearchSet *)

Module AidboxSearchSet.
Section Methods.
Context (env : environment).

(** [self.params = params if params else {}]: a dictionary that is
    empty is not kept, a new one is made. *)
Definition __init__ (aidbox : loc) (resource_type : string)
    (params : option loc) : M loc :=
  p ← match params with
      | Some p =>
          d ← deref dicts p;
          match d with
          | [] => alloc_dict []
          | _ => mret p
          end
      | None => alloc_dict []
      end;
  alloc_searchset (SearchSetObj aidbox resource_type p).

(** [Aidbox.resources], defined here because it instantiates this
    class. *)
Definition Aidbox_resources (self : loc) (resource_type : string) : M loc :=
  __init__ self resource_type None.

Definition get (self : loc) (id : string) : M loc :=
  ss ← deref searchsets self;
  res_data ← Aidbox._fetch_resource env (ss_aidbox ss)
                (ss_resource_type ss +:+ "/" +:+ id) None;
  kw ← lift (star_kwargs [("skip_validation", VBool true)] res_data);
  AidboxResource.call_Aidbox_resource env (ss_aidbox ss) kw.

Definition all (self : loc) : M (list loc) :=
  ss ← deref searchsets self;
  params ← deref dicts (ss_params ss);
  res_data ← Aidbox._fetch_resource env (ss_aidbox ss)
                (ss_resource_type ss) (Some params);
  entry ← lift (subscript res_data "entry");
  entries ← lift (py_iter entry);
  resource_data ← lift (mapM (λ res, subscript res "resource") entries);
  mapM (λ data,
          kw ← lift (star_kwargs [("skip_validation", VBool true)] data);
          AidboxResource.new env (ss_aidbox ss) kw) resource_data.

(** The four chain methods write into the dictionary of [self] before
    they hand it to the new search set. *)
Definition search (self : loc) (kwargs : pydict) : M loc :=
  ss ← deref searchsets self;
  modify (set_dicts (alter (λ d, dict_update d kwargs) (ss_params ss)));;
  __init__ (ss_aidbox ss) (ss_resource_type ss) (Some (ss_params ss)).

Definition limit (self : loc) (limit : value) : M loc :=
  ss ← deref searchsets self;
  modify (set_dicts (alter (dict_set "_count" limit) (ss_params ss)));;
  __init__ (ss_aidbox ss) (ss_resource_type ss) (Some (ss_params ss)).

Definition page (self : loc) (page : value) : M loc :=
  ss ← deref searchsets self;
  modify (set_dicts (alter (dict_set "_page" page) (ss_params ss)));;
  __init__ (ss_aidbox ss) (ss_resource_type ss) (Some (ss_params ss)).

Definition sort (self : loc) (keys : value) : M loc :=
  ss ← deref searchsets self;
  sort_keys ← lift (match keys with
                    | VList l => s ← str_join "," l; Ok (VStr s)
                    | _ => Ok keys
                    end);
  modify (set_dicts (alter (dict_set "_sort" sort_keys) (ss_params ss)));;
  __init__ (ss_aidbox ss) (ss_resource_type ss) (Some (ss_params ss)).

Definition first (self : loc) : M (option loc) :=
  limited ← limit self (VInt 1);
  result ← all limited;
  mret (head result).

Definition count (self : loc) : M value :=
  ss ← deref searchsets self;
  r ← Aidbox._fetch_resource env (ss_aidbox ss) (ss_resource_type ss)
        (Some [("_count", VInt 1); ("_totalMethod", VStr "count")]);
  lift (subscript r "total").

(** [__iter__]: [iter(self.all())] *)
Definition __iter__ (self : loc) : M (list loc) := all self.
End Methods.
End AidboxSearchSet.

(** * Vocabulary of the specification *)

(** The request [_fetch_resource] sends for a session, and what it makes
    of the answer. *)
Definition fetch_request (a : Aidbox_obj) (path : string)
    (params : option pydict) : request :=
  Request (host a +:+ "/" +:+ path) params ("Bearer " +:+ token a).

Definition fetch_result (env : environment) (answer : option response)
    : result value :=
  resp ← of_option answer TransportError;
  if status_code resp =? 404 then Raise AidboxResourceNotFound
  else if status_code resp =? 200 then
    convert_to_underscore env <$> of_option (body resp) ValueError
  else Raise AidboxAuthorizationError.

(** The request that asks for the attribute definitions of a type. *)
Definition schema_request (a : Aidbox_obj) (resource_type : value) : request :=
  fetch_request a "Attribute" (Some [("entity", resource_type)]).

(** A computation respects a relation on worlds when the world it leaves,
    whether it returns or raises, is related to the one it started in. *)
Definition respects (R : relation world) {A} (m : M A) : Prop :=
  ∀ w, R w (m w).2.

(** Every attribute set in a schema cache contains ["id"]. *)
Definition schema_inv (w : world) : Prop :=
  ∀ s a k attrs,
    sessions w !! s = Some a → schema a !! k = Some attrs → "id" ∈ attrs.

(** Sessions stay, and so does every non-empty entry of their caches. *)
Definition cache_le (w w' : world) : Prop :=
  ∀ s a, sessions w !! s = Some a →
    ∃ a', sessions w' !! s = Some a' ∧ host a' = host a ∧
          token a' = token a ∧
          ∀ k attrs, schema a !! k = Some attrs → attrs ≠ ∅ →
                     schema a' !! k = Some attrs.

(** Only the log of requests and the sessions may differ. *)
Definition same_objects (w w' : world) : Prop :=
  dicts w' = dicts w ∧ searchsets w' = searchsets w ∧
  resources w' = resources w ∧ references w' = references w.

(** What no call undoes: the caches only grow, and keep [schema_inv]. *)
Definition cache_step (w w' : world) : Prop :=
  cache_le w w' ∧ (schema_inv w → schema_inv w').

(** *** The methods of a resource as functions of its [__dict__]

    Reading and writing attributes only consults the sessions; as long as
    the value written is not itself a resource (no reference has to be
    made) the effect of [__setattr__] is a function of the instance
    dictionary.  [setattr_eq], [getattr_eq] and [init_loop_eq] below show
    that these functions are what the methods compute. *)

Definition root_attrs_of (ss : list Aidbox_obj) (d : pydict)
    : result (gset string) :=
  match attr "aidbox" d with
  | VSession s =>
      a ← of_option (ss !! s) Unmodelled;
      k ← of_option (to_key (attr "resource_type" d)) TypeError;
      of_option (schema a !! k) KeyError
  | VResource _ => Raise Unmodelled
  | _ => Raise RecursionError
  end.

Definition getattr_hook_of (ss : list Aidbox_obj) (key : string) (d : pydict)
    : result value :=
  attrs ← root_attrs_of ss d;
  if decide (key ∈ attrs) then
    match attr "data" d with
    | VDict data => Ok (default VNone (dict_get key data))
    | VResource _ => Raise Unmodelled
    | _ => Raise AttributeError
    end
  else Raise (AidboxResourceFieldDoesNotExist key (attr "resource_type" d)).

Definition getattr_of (ss : list Aidbox_obj) (key : string) (d : pydict)
    : result value :=
  if decide (key ∈ AidboxResource.descriptors) then Raise Unmodelled
  else match dict_get key d with
       | Some v => Ok v
       | None =>
           if decide (key ∈ AidboxResource.class_attributes) then Ok VNone
           else if decide (key ∈ AidboxResource.class_names)
                then Raise Unmodelled
                else getattr_hook_of ss key d
       end.

Definition object_setattr_of (key : string) (v : value) (d : pydict)
    : result pydict :=
  if decide (key = "root_attrs") then Raise AttributeError
  else if decide (key = "__class__") then Raise TypeError
  else if decide (key = "__weakref__") then Raise AttributeError
  else if decide (key = "__dict__") then
    match v with
    | VDict d' => Ok d'
    | _ => Raise TypeError
    end
  else Ok (dict_set key v d).

Definition setattr_of (ss : list Aidbox_obj) (key : string) (v : value)
    (d : pydict) : result pydict :=
  if decide (key ∈ AidboxResource.class_names ++ dict_keys d)
  then object_setattr_of key v d
  else
    attrs ← root_attrs_of ss d;
    if decide (key ∈ attrs) then
      match attr "data" d with
      | VDict data => Ok (dict_set "data" (VDict (dict_set key v data)) d)
      | _ => Raise TypeError
      end
    else Raise (AidboxResourceFieldDoesNotExist key (attr "resource_type" d)).

(** The loop of [__init__]: the outcome and the dictionary it leaves. *)
Fixpoint init_loop_of (ss : list Aidbox_obj) (skip_validation : bool)
    (d : pydict) (kwargs : pydict) : result () * pydict :=
  match kwargs with
  | [] => (Ok (), d)
  | (key, v) :: kwargs' =>
      match setattr_of ss key v d with
      | Ok d' => init_loop_of ss skip_validation d' kwargs'
      | Raise (AidboxResourceFieldDoesNotExist k t) =>
          if skip_validation
          then init_loop_of ss skip_validation d kwargs'
          else (Raise (AidboxResourceFieldDoesNotExist k t), d)
      | Raise e => (Raise e, d)
      end
  end.

Definition is_resource (v : value) : bool :=
  match v with
  | VResource _ => true
  | _ => false
  end.

(** [AidboxResource(aidbox, skip_validation=True, **payload)]: the way
    [all] wraps each record of a collection. *)
Definition from_payload (env : environment) (aidbox : loc) (payload : value)
    : M loc :=
  kw ← lift (star_kwargs [("skip_validation", VBool true)] payload);
  AidboxResource.new env aidbox kw.

(** C3 as it is worded, in its two halves: a resource wrapped around a
    payload (a dictionary of JSON values) reads back every field the
    schema knows, and reads a field the schema does not know as absent. *)
Definition known_fields_read_back : Prop :=
  ∀ env s p w e w' attrs,
    NoDup (dict_keys p) → Forall (λ kv, is_resource kv.2 = false) p →
    from_payload env s (VDict p) w = (Ok e, w') →
    AidboxResource.root_attrs e w' = (Ok attrs, w') →
    ∀ k v, dict_get k p = Some v → k ∈ attrs →
           (AidboxResource.getattr e k w').1 = Ok v.

Definition unknown_fields_read_absent : Prop :=
  ∀ env s p w e w' attrs,
    NoDup (dict_keys p) → Forall (λ kv, is_resource kv.2 = false) p →
    from_payload env s (VDict p) w = (Ok e, w') →
    AidboxResource.root_attrs e w' = (Ok attrs, w') →
    ∀ k, k ∈ dict_keys p → k ∉ attrs →
         (AidboxResource.getattr e k w').1 = Ok VNone.

(** The exceptions of indexing and iterating. *)
Definition lookup_error (e : exn) : Prop :=
  e = KeyError ∨ e = TypeError ∨ e = IndexError.

(** The records of a collection: [[res['resource'] for res in
    res_data['entry']]]. *)
Definition records_of (res_data : value) : result (list value) :=
  entry ← subscript res_data "entry";
  entries ← py_iter entry;
  mapM (λ res, subscript res "resource") entries.

(** Whatever is sent is an attribute query of the schema resolver. *)
Definition is_schema_request (r : request) : Prop :=
  ∃ a t, r = schema_request a t.

Definition only_schema_requests (w w' : world) : Prop :=
  ∃ rest, sent w' = sent w ++ rest ∧ Forall is_schema_request rest.

(** The chain of C5 on a new search set, and the parameters it is to
    send. *)
Definition jane_query (aidbox : loc) (resource_type : string) : M loc :=
  b0 ← AidboxSearchSet.Aidbox_resources aidbox resource_type;
  b1 ← AidboxSearchSet.search b0 [("name", VStr "Jane")];
  b2 ← AidboxSearchSet.limit b1 (VInt 5);
  AidboxSearchSet.sort b2 (VList [VStr "-birth_date"; VStr "name"]).

Definition jane_params : pydict :=
  [("name", VStr "Jane"); ("_count", VInt 5);
   ("_sort", VStr "-birth_date,name")].

(** The parameter mapping a search set holds in a world. *)
Definition params_of (b : loc) (w : world) : option pydict :=
  ss ← searchsets w !! b; dicts w !! ss_params ss.

(** A record whose fields are JSON values: none is a resource. *)
Definition json_record (v : value) : Prop :=
  ∀ p, v = VDict p → Forall (λ kv, is_resource kv.2 = false) p.

(** A record that [all] can wrap without asking the server: a
    dictionary of JSON values whose keys leave the machinery of the
    instance and of the call alone, of a type whose schema the session
    [a] has in its cache. *)
Definition warm_record (a : Aidbox_obj) (v : value) : Prop :=
  ∃ p k attrs,
    v = VDict p ∧ NoDup (dict_keys p) ∧
    Forall (λ kv, is_resource kv.2 = false) p ∧
    (∀ key, key ∈ dict_keys p →
       (key ∉ AidboxResource.descriptors) ∧
       (key ∉ ["data"; "aidbox"; "self"; "skip_validation"])) ∧
    to_key (attr "resource_type" p) = Some k ∧
    schema a !! k = Some attrs ∧ attrs ≠ ∅.

(** The exceptions [_fetch_resource] raises by itself. *)
Definition fetch_error (e : exn) : Prop :=
  e = AidboxResourceNotFound ∨ e = AidboxAuthorizationError ∨
  e = ValueError ∨ e = TransportError.

(** Every exception a computation can raise satisfies [P]. *)
Definition raises_only (P : exn → Prop) {A} (m : M A) : Prop :=
  ∀ w e w', m w = (Raise e, w') → P e.

(** C6 as it is worded: [get] raises the not-found error exactly when the
    server reports 404 for the record, and otherwise returns a resource
    whose id is the one asked for. *)
Definition get_not_found_or_returns : Prop :=
  ∀ env w b ss a id resp r w',
    searchsets w !! b = Some ss → sessions w !! ss_aidbox ss = Some a →
    requests_get env (sent w)
      (fetch_request a (ss_resource_type ss +:+ "/" +:+ id) None)
      = Some resp →
    AidboxSearchSet.get env b id w = (r, w') →
    (r = Raise AidboxResourceNotFound ↔ status_code resp = 404) ∧
    (status_code resp ≠ 404 →
     ∃ e, r = Ok e ∧
          AidboxResource.getattr e "id" w' = (Ok (VStr id), w')).

(** The calls a program can make on the library. *)
Inductive call : Type :=
| CallAidbox (host token : string)
| CallFetchSchema (self : loc) (resource_type : value)
| CallResource (self : loc) (resource_type : value) (kwargs : pydict)
| CallResources (self : loc) (resource_type : string)
| CallGet (self : loc) (id : string)
| CallAll (self : loc)
| CallFirst (self : loc)
| CallSearch (self : loc) (kwargs : pydict)
| CallLimit (self : loc) (limit : value)
| CallPage (self : loc) (page : value)
| CallSort (self : loc) (keys : value)
| CallCount (self : loc)
| CallSetattr (self : loc) (key : string) (v : value)
| CallGetattr (self : loc) (key : string)
| CallReference (self : loc).

(** The world a call leaves behind, whether it returns or raises. *)
Definition exec (env : environment) (c : call) (w : world) : world :=
  match c with
  | CallAidbox host token => (Aidbox.__init__ host token w).2
  | CallFetchSchema self t => (Aidbox._fetch_schema env self t w).2
  | CallResource self t kw => (AidboxResource.Aidbox_resource env self t kw w).2
  | CallResources self t => (AidboxSearchSet.Aidbox_resources self t w).2
  | CallGet self id => (AidboxSearchSet.get env self id w).2
  | CallAll self => (AidboxSearchSet.all env self w).2
  | CallFirst self => (AidboxSearchSet.first env self w).2
  | CallSearch self kw => (AidboxSearchSet.search self kw w).2
  | CallLimit self v => (AidboxSearchSet.limit self v w).2
  | CallPage self v => (AidboxSearchSet.page self v w).2
  | CallSort self v => (AidboxSearchSet.sort self v w).2
  | CallCount self => (AidboxSearchSet.count env self w).2
  | CallSetattr self key v => (AidboxResource.__setattr__ self key v w).2
  | CallGetattr self key => (AidboxResource.getattr self key w).2
  | CallReference self => (AidboxResource.reference self w).2
  end.

Definition step (env : environment) (w w' : world) : Prop :=
  ∃ c, w' = exec env c w.

(** The worlds a program can reach from the start. *)
Definition reachable (env : environment) (w : world) : Prop :=
  rtc (step env) empty_world w.

(** * A sample server

    One environment to run the library in.  Its [underscore] agrees with
    [inflection.underscore] on the names the server uses, its payloads
    already have snake-case keys, so that [convert_to_underscore] changes
    nothing. *)

Definition sample_underscore (s : string) : string :=
  if String.eqb s "birthDate" then "birth_date"
  else if String.eqb s "contentType" then "content_type"
  else s.

Definition attribute (name : string) : value :=
  VDict [("resource", VDict [("path", VList [VStr name])])].

Definition bundle (total : Z) (records : list value) : value :=
  VDict [("total", VInt total);
         ("entry", VList ((λ r, VDict [("resource", r)]) <$> records))].

Definition jane : value :=
  VDict [("resource_type", VStr "Patient"); ("id", VStr "1");
         ("name", VStr "Jane"); ("unknown_field", VStr "x")].

Definition john : value :=
  VDict [("resource_type", VStr "Patient"); ("id", VStr "4");
         ("name", VStr "John")].

Definition binary : value :=
  VDict [("resource_type", VStr "Binary"); ("id", VStr "9");
         ("content_type", VStr "text/plain"); ("data", VStr "aGk=")].

Definition sample_get (past : list request) (r : request) : option response :=
  if String.eqb (req_url r) "http://h/Attribute" then
    match req_params r with
    | Some [(_, VStr "Patient")] =>
        Some (Response 200
              (Some (bundle 2 [VDict [("path", VList [VStr "name"])];
                               VDict [("path", VList [VStr "birthDate"])]])))
    | Some [(_, VStr "Binary")] =>
        Some (Response 200
              (Some (bundle 2 [VDict [("path", VList [VStr "data"])];
                               VDict [("path", VList [VStr "contentType"])]])))
    | Some [(_, VStr "Basic")] => Some (Response 200 (Some (bundle 0 [])))
    | _ => Some (Response 404 None)
    end
  else if String.eqb (req_url r) "http://h/Patient/1" then
    Some (Response 200 (Some jane))
  else if String.eqb (req_url r) "http://h/Patient/3" then
    Some (Response 500 None)
  else if String.eqb (req_url r) "http://h/Patient" then
    Some (Response 200 (Some (bundle 7 [jane; john])))
  else Some (Response 404 None).

Definition sample_env : environment :=
  Environment sample_underscore id sample_get.

(** The world after [aidbox = Aidbox('http://h', token='tok')]; the
    session is at location 0. *)
Definition sample_world : world :=
  exec sample_env (CallAidbox "http://h" "tok") empty_world.

(** A computation keeps a component of the world when the world it
    leaves, whether it returns or raises, has that component as it
    was. *)
Definition kept {X} (f : world → X) : relation world :=
  λ w w', f w' = f w.

(** * Properties *)

(** ** Running the monad *)

Lemma bind_ok {A B} (m : M A) (f : A → M B) w a w' :
  m w = (Ok a, w') → (m ≫= f) w = f a w'.
Proof. intros H. unfold mbind, M_bind. by rewrite H. Qed.

Lemma bind_raise {A B} (m : M A) (f : A → M B) w e w' :
  m w = (Raise e, w') → (m ≫= f) w = (Raise e, w').
Proof. intros H. unfold mbind, M_bind. by rewrite H. Qed.

Lemma deref_some {A} (heap : world → list A) l w x :
  heap w !! l = Some x → deref heap l w = (Ok x, w).
Proof. intros H. unfold deref. by rewrite H. Qed.

Lemma deref_none {A} (heap : world → list A) l w :
  heap w !! l = None → deref heap l w = (Raise Unmodelled, w).
Proof. intros H. unfold deref. by rewrite H. Qed.

Section Respects.
Context (R : relation world) `{!PreOrder R}.

Lemma respects_ret {A} (a : A) : respects R (mret a).
Proof. intros w. simpl. reflexivity. Qed.

Lemma respects_raise {A} e : respects R (@raise A e).
Proof. intros w. simpl. reflexivity. Qed.

Lemma respects_lift {A} (r : result A) : respects R (lift r).
Proof. intros w. simpl. reflexivity. Qed.

Lemma respects_deref {A} (heap : world → list A) l :
  respects R (deref heap l).
Proof. intros w. simpl. reflexivity. Qed.

Lemma respects_bind {A B} (m : M A) (f : A → M B) :
  respects R m → (∀ a, respects R (f a)) → respects R (m ≫= f).
Proof.
  intros Hm Hf w. unfold mbind, M_bind.
  specialize (Hm w). destruct (m w) as [[a|e] w']; simpl in *; [|done].
  etrans; [exact Hm|apply Hf].
Qed.

Lemma respects_catch {A} (m : M A) h :
  respects R m → (∀ e handler, h e = Some handler → respects R handler) →
  respects R (catch m h).
Proof.
  intros Hm Hh w. unfold catch.
  specialize (Hm w). destruct (m w) as [[a|e] w']; simpl in *; [done|].
  destruct (h e) as [handler|] eqn:E; [|done].
  etrans; [exact Hm|by eapply Hh].
Qed.

Lemma respects_modify (f : world → world) :
  (∀ w, R w (f w)) → respects R (modify f).
Proof. intros H w. apply H. Qed.

Lemma respects_for_each {A} (f : A → M ()) l :
  (∀ x, respects R (f x)) → respects R (for_each f l).
Proof.
  intros Hf. induction l as [|x l IH]; simpl.
  - apply respects_ret.
  - apply respects_bind; auto.
Qed.

Lemma respects_mapM {A B} (f : A → M B) l :
  (∀ x, respects R (f x)) → respects R (mapM f l).
Proof.
  intros Hf. induction l as [|x l IH]; simpl.
  - apply respects_ret.
  - apply respects_bind; [auto|]. intros y.
    apply respects_bind; [auto|]. intros k. apply respects_ret.
Qed.
End Respects.

(** ** The session: fetching and the schema cache *)

Lemma fetch_resource_eq env self path params w a :
  sessions w !! self = Some a →
  Aidbox._fetch_resource env self path params w =
    (fetch_result env
       (requests_get env (sent w) (fetch_request a path params)),
     set_sent (λ s, s ++ [fetch_request a path params]) w).
Proof.
  intros Ha. unfold Aidbox._fetch_resource.
  rewrite (bind_ok _ _ _ _ _ (deref_some sessions _ _ _ Ha)).
  unfold mbind at 1, M_bind, send, fetch_result, fetch_request. simpl.
  destruct (requests_get env _ _) as [resp|]; simpl; [|done].
  destruct (status_code resp =? 404); [done|].
  destruct (status_code resp =? 200); [|done].
  by destruct (body resp).
Qed.

Lemma schema_of_has_id env v attrs :
  Aidbox.schema_of env v = Ok attrs → "id" ∈ attrs.
Proof.
  unfold Aidbox.schema_of. intros H.
  repeat match type of H with
  | mbind _ ?r = _ => destruct r; simpl in H; [|done]
  end.
  injection H as <-. set_solver.
Qed.

(** A hit returns the cached set and leaves the world as it is: nothing
    is sent. *)
Lemma fetch_schema_hit env self t w a k attrs :
  sessions w !! self = Some a → to_key t = Some k →
  schema a !! k = Some attrs → attrs ≠ ∅ →
  Aidbox._fetch_schema env self t w = (Ok attrs, w).
Proof.
  intros Ha Hk Hs Hne. unfold Aidbox._fetch_schema.
  rewrite (bind_ok _ _ _ _ _ (deref_some sessions _ _ _ Ha)).
  rewrite Hk. simpl. unfold mbind at 1, M_bind, lift. simpl.
  rewrite Hs. by destruct (decide (attrs = ∅)).
Qed.

(** A miss sends the attribute request; when the answer yields a set, the
    set is stored under the type. *)
Lemma fetch_schema_miss env self t w a k :
  sessions w !! self = Some a → to_key t = Some k →
  (schema a !! k = None ∨ schema a !! k = Some ∅) →
  Aidbox._fetch_schema env self t w =
    match fetch_result env (requests_get env (sent w) (schema_request a t))
          ≫= Aidbox.schema_of env with
    | Ok attrs =>
        (Ok attrs,
         set_sessions (alter (λ a, AidboxObj (host a) (token a)
                                      (<[k := attrs]> (schema a))) self)
           (set_sent (λ s, s ++ [schema_request a t]) w))
    | Raise e => (Raise e, set_sent (λ s, s ++ [schema_request a t]) w)
    end.
Proof.
  intros Ha Hk Hs. unfold Aidbox._fetch_schema.
  rewrite (bind_ok _ _ _ _ _ (deref_some sessions _ _ _ Ha)).
  rewrite Hk. simpl. unfold mbind at 1, M_bind, lift. simpl.
  assert (∀ X : M (gset string),
    match schema a !! k with
    | Some s => if decide (s = ∅) then X else mret s
    | None => X
    end = X) as ->.
  { intros X. destruct Hs as [-> | ->]; [done|]. by destruct (decide _). }
  unfold mbind at 1, M_bind.
  rewrite (fetch_resource_eq _ _ _ _ _ _ Ha). fold (schema_request a t).
  destruct (fetch_result _ _) as [v|e]; simpl; [|done].
  unfold mbind, M_bind, lift, modify, mret, M_ret. simpl.
  by destruct (Aidbox.schema_of env v).
Qed.

Global Instance cache_step_preorder : PreOrder cache_step.
Proof.
  split.
  - intros w. split; [|done]. intros s a Ha. exists a. eauto.
  - intros w1 w2 w3 [H12 I12] [H23 I23]. split; [|auto].
    intros s a Ha. destruct (H12 s a Ha) as (a2 & Ha2 & Hh2 & Ht2 & Hs2).
    destruct (H23 s a2 Ha2) as (a3 & Ha3 & Hh3 & Ht3 & Hs3).
    exists a3. repeat split; [done|congruence|congruence|auto].
Qed.

Lemma cache_step_same w w' : sessions w' = sessions w → cache_step w w'.
Proof.
  intros E. split.
  - intros s a Ha. exists a. rewrite E. eauto.
  - unfold schema_inv. by rewrite E.
Qed.

Lemma cache_step_alloc a w :
  schema a = ∅ → cache_step w (set_sessions (λ h, h ++ [a]) w).
Proof.
  intros Hempty. split.
  - intros s b Hb. exists b. simpl. rewrite lookup_app_l; [eauto|].
    by eapply lookup_lt_Some.
  - intros Hinv s b k attrs Hb Hk. simpl in Hb.
    apply lookup_app_Some in Hb as [Hb|[_ Hb]]; [by eapply Hinv|].
    apply list_lookup_singleton_Some in Hb as [_ <-].
    by rewrite Hempty in Hk.
Qed.

Lemma cache_step_store w self k attrs :
  "id" ∈ attrs →
  (∀ a, sessions w !! self = Some a →
        schema a !! k = None ∨ schema a !! k = Some ∅) →
  cache_step w
    (set_sessions (alter (λ a, AidboxObj (host a) (token a)
                                 (<[k := attrs]> (schema a))) self) w).
Proof.
  intros Hid Hmiss. split.
  - intros s a Ha. simpl. destruct (decide (s = self)) as [->|Hne].
    + eexists. rewrite list_lookup_alter_eq, Ha. simpl.
      repeat split; try done. intros k' attrs' Hk' Hne'. simpl.
      destruct (decide (k = k')) as [<-|?].
      * destruct (Hmiss a Ha) as [E|E]; rewrite E in Hk'; congruence.
      * by rewrite lookup_insert_ne.
    + exists a. rewrite list_lookup_alter_ne by done. eauto.
  - intros Hinv s a k' attrs' Ha Hk'. simpl in Ha.
    destruct (decide (s = self)) as [->|Hne].
    + rewrite list_lookup_alter_eq in Ha.
      destruct (sessions w !! self) as [b|] eqn:Hb; [|done].
      injection Ha as <-. simpl in Hk'.
      destruct (decide (k = k')) as [<-|?].
      * rewrite lookup_insert_eq in Hk'. congruence.
      * rewrite lookup_insert_ne in Hk' by done. by eapply Hinv.
    + rewrite list_lookup_alter_ne in Ha by done. by eapply Hinv.
Qed.

Lemma fetch_schema_cache_step env self t :
  respects cache_step (Aidbox._fetch_schema env self t).
Proof.
  intros w. destruct (sessions w !! self) as [a|] eqn:Ha; cycle 1.
  { unfold Aidbox._fetch_schema.
    rewrite (bind_raise _ _ _ _ _ (deref_none sessions _ _ Ha)).
    reflexivity. }
  destruct (to_key t) as [k|] eqn:Hk; cycle 1.
  { unfold Aidbox._fetch_schema.
    rewrite (bind_ok _ _ _ _ _ (deref_some sessions _ _ _ Ha)).
    rewrite Hk. simpl. reflexivity. }
  destruct (schema a !! k) as [attrs|] eqn:Hs;
    [destruct (decide (attrs = ∅)) as [->|Hne]|].
  2:{ rewrite (fetch_schema_hit _ _ _ _ _ _ _ Ha Hk Hs Hne). reflexivity. }
  all: rewrite (fetch_schema_miss _ _ _ _ _ _ Ha Hk) by auto.
  all: destruct (fetch_result _ _ ≫= _) as [attrs|e] eqn:E; simpl;
    [|by apply cache_step_same].
  all: etrans;
    [apply (cache_step_same w
              (set_sent (λ s, s ++ [schema_request a t]) w)); reflexivity|].
  all: apply cache_step_store;
    [|simpl; intros b Hb; assert (b = a) as -> by congruence; auto].
  all: destruct (fetch_result _ _) as [v|]; simpl in E; [|done].
  all: by eapply schema_of_has_id.
Qed.

(** ** Calls that leave the log and the sessions alone

    Reading and writing attributes, making references and chaining
    search sets send nothing and touch no session: they respect every
    preorder that relates worlds with the same log and sessions.  A
    construction does so too, up to the schema resolver it calls. *)

Create HintDb respects discriminated.

Ltac respects_step leaf :=
  first
    [ solve [auto with respects]
    | leaf
    | apply respects_bind; [typeclasses eauto| |intros ?]
    | apply respects_for_each; [typeclasses eauto|intros ?]
    | apply respects_mapM; [typeclasses eauto|intros ?]
    | apply respects_catch;
        [typeclasses eauto| |intros [] ? [= <-]]
    | match goal with
      | |- respects _ (match ?x with _ => _ end) => destruct x
      | |- respects _ (if ?x then _ else _) => destruct x
      end ].

Section Respected.
Context (R : relation world) `{!PreOrder R}.
Hypothesis R_same :
  ∀ w w', sent w' = sent w → sessions w' = sessions w → R w w'.

Ltac same_leaf :=
  let w := fresh "w" in intros w; apply R_same; reflexivity.

Lemma root_attrs_respects self :
  respects R (AidboxResource.root_attrs self).
Proof.
  unfold AidboxResource.root_attrs. repeat respects_step same_leaf.
Qed.
Hint Resolve root_attrs_respects : respects.

Lemma getattr_hook_respects self key :
  respects R (AidboxResource.__getattr__ self key).
Proof.
  unfold AidboxResource.__getattr__. repeat respects_step same_leaf.
Qed.
Hint Resolve getattr_hook_respects : respects.

Lemma getattr_respects self key :
  respects R (AidboxResource.getattr self key).
Proof. unfold AidboxResource.getattr. repeat respects_step same_leaf. Qed.
Hint Resolve getattr_respects : respects.

Lemma reference_respects self :
  respects R (AidboxResource.reference self).
Proof.
  unfold AidboxResource.reference, AidboxReference.__init__.
  repeat respects_step same_leaf.
Qed.
Hint Resolve reference_respects : respects.

Lemma setattr_respects self key v :
  respects R (AidboxResource.__setattr__ self key v).
Proof.
  unfold AidboxResource.__setattr__, AidboxResource.object_setattr,
    AidboxResource.dir.
  repeat respects_step same_leaf.
Qed.
Hint Resolve setattr_respects : respects.

Lemma searchset_init_respects aidbox t params :
  respects R (AidboxSearchSet.__init__ aidbox t params).
Proof. unfold AidboxSearchSet.__init__. repeat respects_step same_leaf. Qed.
Hint Resolve searchset_init_respects : respects.

Lemma search_respects self kwargs :
  respects R (AidboxSearchSet.search self kwargs).
Proof. unfold AidboxSearchSet.search. repeat respects_step same_leaf. Qed.

Lemma limit_respects self v : respects R (AidboxSearchSet.limit self v).
Proof. unfold AidboxSearchSet.limit. repeat respects_step same_leaf. Qed.

Lemma page_respects self v : respects R (AidboxSearchSet.page self v).
Proof. unfold AidboxSearchSet.page. repeat respects_step same_leaf. Qed.

Lemma sort_respects self v : respects R (AidboxSearchSet.sort self v).
Proof. unfold AidboxSearchSet.sort. repeat respects_step same_leaf. Qed.

Context (env : environment).
Hypothesis R_schema : ∀ s t, respects R (Aidbox._fetch_schema env s t).
Hint Resolve R_schema : respects.

Lemma resource_init_respects aidbox skip kwargs :
  respects R (AidboxResource.__init__ env aidbox skip kwargs).
Proof. unfold AidboxResource.__init__. repeat respects_step same_leaf. Qed.
Hint Resolve resource_init_respects : respects.

Lemma resource_new_respects aidbox kw :
  respects R (AidboxResource.new env aidbox kw).
Proof. unfold AidboxResource.new. repeat respects_step same_leaf. Qed.
Hint Resolve resource_new_respects : respects.

Lemma Aidbox_resource_respects self t kwargs :
  respects R (AidboxResource.Aidbox_resource env self t kwargs).
Proof.
  unfold AidboxResource.Aidbox_resource. repeat respects_step same_leaf.
Qed.
Hint Resolve Aidbox_resource_respects : respects.

Lemma call_Aidbox_resource_respects self kw :
  respects R (AidboxResource.call_Aidbox_resource env self kw).
Proof.
  unfold AidboxResource.call_Aidbox_resource. repeat respects_step same_leaf.
Qed.

Lemma from_payload_respects aidbox payload :
  respects R (from_payload env aidbox payload).
Proof. unfold from_payload. repeat respects_step same_leaf. Qed.
End Respected.

(** ** No call shrinks a cache *)

Lemma cache_step_unchanged w w' :
  sent w' = sent w → sessions w' = sessions w → cache_step w w'.
Proof. intros _. apply cache_step_same. Qed.

Ltac cache_leaf :=
  let w := fresh "w" in intros w; apply cache_step_same; reflexivity.

Lemma Aidbox_init_cache_step host token :
  respects cache_step (Aidbox.__init__ host token).
Proof. intros w. by apply cache_step_alloc. Qed.

Lemma fetch_resource_cache_step env self path params :
  respects cache_step (Aidbox._fetch_resource env self path params).
Proof.
  unfold Aidbox._fetch_resource. repeat respects_step cache_leaf.
Qed.

Lemma from_payload_cache_step env aidbox payload :
  respects cache_step (from_payload env aidbox payload).
Proof.
  apply from_payload_respects;
    [typeclasses eauto|apply cache_step_unchanged|].
  apply fetch_schema_cache_step.
Qed.

Lemma resource_new_cache_step env aidbox kw :
  respects cache_step (AidboxResource.new env aidbox kw).
Proof.
  apply resource_new_respects;
    [typeclasses eauto|apply cache_step_unchanged|].
  apply fetch_schema_cache_step.
Qed.

Lemma call_Aidbox_resource_cache_step env self kw :
  respects cache_step (AidboxResource.call_Aidbox_resource env self kw).
Proof.
  apply call_Aidbox_resource_respects;
    [typeclasses eauto|apply cache_step_unchanged|].
  apply fetch_schema_cache_step.
Qed.

Lemma limit_cache_step self v :
  respects cache_step (AidboxSearchSet.limit self v).
Proof.
  apply limit_respects; [typeclasses eauto|apply cache_step_unchanged].
Qed.

#[export] Hint Resolve Aidbox_init_cache_step fetch_resource_cache_step
  fetch_schema_cache_step from_payload_cache_step resource_new_cache_step
  call_Aidbox_resource_cache_step limit_cache_step : respects.

Lemma all_cache_step env self :
  respects cache_step (AidboxSearchSet.all env self).
Proof.
  unfold AidboxSearchSet.all. repeat respects_step cache_leaf.
Qed.
#[export] Hint Resolve all_cache_step : respects.

(** Every call of the library respects [cache_step]. *)
Lemma exec_cache_step env c w : cache_step w (exec env c w).
Proof.
  revert w. destruct c; cbn [exec];
    match goal with
    | |- ∀ w, cache_step w (?m w).2 => change (respects cache_step m)
    end.
  all: try solve [auto with respects].
  all: try (first [ apply Aidbox_resource_respects
                  | apply search_respects | apply page_respects
                  | apply sort_respects | apply setattr_respects
                  | apply getattr_respects | apply reference_respects ];
            solve [ typeclasses eauto | apply cache_step_unchanged
                  | apply fetch_schema_cache_step ]).
  all: unfold AidboxSearchSet.Aidbox_resources, AidboxSearchSet.get,
         AidboxSearchSet.first, AidboxSearchSet.count.
  all: repeat respects_step cache_leaf.
Qed.

Lemma steps_cache_step env w w' : rtc (step env) w w' → cache_step w w'.
Proof.
  induction 1 as [|w1 w2 w3 [c ->] _ IH]; [reflexivity|].
  etrans; [apply exec_cache_step|exact IH].
Qed.

Lemma schema_inv_empty : schema_inv empty_world.
Proof. intros s a k attrs Ha. by destruct s. Qed.

Lemma reachable_schema_inv env w : reachable env w → schema_inv w.
Proof.
  intros H. apply (steps_cache_step _ _ _ H). apply schema_inv_empty.
Qed.

(** ** The schema resolver *)

(** C10. Every attribute set stored in a schema cache contains ["id"] and
    is therefore not empty; hence the resolver, which takes an absent or
    empty entry for a miss, answers from the cache, sending nothing, for
    every type that has an entry.  A type whose attribute list is empty
    on the server gets the entry [{"id"}]. *)
Theorem schema_cache_entries_contain_id env w :
  reachable env w →
  (∀ s a k attrs, sessions w !! s = Some a → schema a !! k = Some attrs →
     "id" ∈ attrs ∧ attrs ≠ ∅) ∧
  (∀ self a t k attrs,
     sessions w !! self = Some a → to_key t = Some k →
     schema a !! k = Some attrs →
     Aidbox._fetch_schema env self t w = (Ok attrs, w)) ∧
  Aidbox.schema_of env (VDict [("entry", VList [])]) = Ok {["id"]}.
Proof.
  intros Hw. pose proof (reachable_schema_inv _ _ Hw) as Hinv.
  assert (∀ s a k attrs, sessions w !! s = Some a →
            schema a !! k = Some attrs → "id" ∈ attrs ∧ attrs ≠ ∅) as Hid.
  { intros s a k attrs Ha Hk. pose proof (Hinv s a k attrs Ha Hk).
    split; [done|set_solver]. }
  split; [exact Hid|]. split.
  - intros self a t k attrs Ha Hk Hs.
    eapply fetch_schema_hit; eauto. by eapply Hid.
  - unfold Aidbox.schema_of. simpl. by rewrite (left_id_L ∅ (∪)).
Qed.

(** The sample session after the schema of a type without attributes
    has been resolved. *)
Lemma schema_cache_entries_contain_id_witness :
  let w := exec sample_env (CallFetchSchema 0 (VStr "Basic")) sample_world in
  reachable sample_env w ∧
  Aidbox._fetch_schema sample_env 0 (VStr "Basic") w = (Ok {["id"]}, w).
Proof.
  intros w.
  assert (reachable sample_env w) as Hw.
  { apply (rtc_l _ _ sample_world);
      [exists (CallAidbox "http://h" "tok"); reflexivity|].
    apply rtc_once. exists (CallFetchSchema 0 (VStr "Basic")). reflexivity. }
  split; [exact Hw|].
  destruct (schema_cache_entries_contain_id sample_env w Hw) as (_ & Hhit & _).
  eapply (Hhit 0%nat); [reflexivity|reflexivity|]. vm_compute. reflexivity.
Defined.

(** C4. On the first use of a type in a session a successful call of the
    resolver sends exactly one request, the attribute query; whatever
    calls follow, a later call of the resolver returns the identical set
    and leaves the world, the log of requests included, as it is. *)
Theorem schema_resolver_fetches_once env w self t a k attrs w1 :
  sessions w !! self = Some a → to_key t = Some k →
  schema a !! k = None →
  Aidbox._fetch_schema env self t w = (Ok attrs, w1) →
  sent w1 = sent w ++ [schema_request a t] ∧
  ∀ w2, rtc (step env) w1 w2 →
    Aidbox._fetch_schema env self t w2 = (Ok attrs, w2).
Proof.
  intros Ha Hk Hs Hcall.
  rewrite (fetch_schema_miss _ _ _ _ _ _ Ha Hk) in Hcall by auto.
  destruct (fetch_result _ _ ≫= _) as [attrs'|e] eqn:E; [|done].
  injection Hcall as -> <-. split; [done|].
  assert ("id" ∈ attrs) as Hid.
  { destruct (fetch_result _ _) as [v|]; simpl in E; [|done].
    by eapply schema_of_has_id. }
  intros w2 Hsteps. apply steps_cache_step in Hsteps as [Hle _].
  edestruct (Hle self) as (a2 & Ha2 & _ & _ & Hs2).
  { simpl. by rewrite list_lookup_alter_eq, Ha. }
  eapply fetch_schema_hit; [exact Ha2|exact Hk| |set_solver].
  apply Hs2; [|set_solver]. simpl. apply lookup_insert_eq.
Qed.

Lemma schema_resolver_fetches_once_witness :
  let w1 := exec sample_env (CallFetchSchema 0 (VStr "Patient")) sample_world in
  sent w1 = [schema_request (AidboxObj "http://h" "tok" ∅) (VStr "Patient")] ∧
  Aidbox._fetch_schema sample_env 0 (VStr "Patient") w1 =
    (Ok ({["name"; "birth_date"]} ∪ {["id"]}), w1).
Proof.
  intros w1.
  destruct (schema_resolver_fetches_once sample_env sample_world 0%nat
              (VStr "Patient") (AidboxObj "http://h" "tok" ∅) (KStr "Patient")
              ({["name"; "birth_date"]} ∪ {["id"]}) w1)
    as [Hsent Hlater].
  - reflexivity.
  - reflexivity.
  - reflexivity.
  - vm_compute. reflexivity.
  - split; [exact Hsent|]. apply Hlater. apply rtc_refl.
Defined.

(** ** Resources: the methods and their functions on the [__dict__] *)

Lemma descriptors_class_names k :
  k ∈ AidboxResource.descriptors → k ∈ AidboxResource.class_names.
Proof.
  unfold AidboxResource.descriptors, AidboxResource.class_names,
    AidboxResource.class_attributes.
  set_solver.
Qed.

Lemma class_attributes_class_names k :
  k ∈ AidboxResource.class_attributes → k ∈ AidboxResource.class_names.
Proof.
  unfold AidboxResource.class_names, AidboxResource.class_attributes.
  set_solver.
Qed.

Lemma root_attrs_eq self w d :
  resources w !! self = Some d →
  AidboxResource.root_attrs self w = (root_attrs_of (sessions w) d, w).
Proof.
  intros Hd. unfold AidboxResource.root_attrs, root_attrs_of.
  rewrite (bind_ok _ _ _ _ _ (deref_some resources _ _ _ Hd)).
  destruct (attr "aidbox" d); try done.
  unfold mbind at 1, M_bind, deref.
  destruct (sessions w !! l) as [a|]; simpl; [|done].
  unfold mbind, M_bind, lift.
  by destruct (to_key _).
Qed.

Lemma getattr_hook_eq self key w d :
  resources w !! self = Some d →
  AidboxResource.__getattr__ self key w = (getattr_hook_of (sessions w) key d, w).
Proof.
  intros Hd. unfold AidboxResource.__getattr__, getattr_hook_of.
  unfold mbind at 1, M_bind. rewrite (root_attrs_eq _ _ _ Hd).
  destruct (root_attrs_of _ _) as [attrs|e]; simpl; [|done].
  rewrite (bind_ok _ _ _ _ _ (deref_some resources _ _ _ Hd)).
  destruct (decide _); [|done]. by destruct (attr "data" d).
Qed.

Lemma getattr_eq self key w d :
  resources w !! self = Some d →
  AidboxResource.getattr self key w = (getattr_of (sessions w) key d, w).
Proof.
  intros Hd. unfold AidboxResource.getattr, getattr_of.
  rewrite (bind_ok _ _ _ _ _ (deref_some resources _ _ _ Hd)).
  destruct (decide _); [done|]. destruct (dict_get key d); [done|].
  destruct (decide _); [done|]. destruct (decide _); [done|].
  by apply getattr_hook_eq.
Qed.

Lemma alter_insert {A} (f : A → A) (l : list A) i x :
  l !! i = Some x → alter f i l = <[i := f x]> l.
Proof.
  intros H. apply list_eq. intros j. destruct (decide (i = j)) as [<-|Hne].
  - rewrite list_lookup_alter_eq, H, list_lookup_insert_eq; [done|].
    by eapply lookup_lt_Some.
  - by rewrite list_lookup_alter_ne, list_lookup_insert_ne.
Qed.

Lemma object_setattr_eq self key v w d :
  resources w !! self = Some d →
  AidboxResource.object_setattr self key v w =
    match object_setattr_of key v d with
    | Ok d' => (Ok (), set_resources (<[self := d']>) w)
    | Raise e => (Raise e, w)
    end.
Proof.
  intros Hd. unfold AidboxResource.object_setattr, object_setattr_of.
  repeat (destruct (decide _); [done|]).
  destruct (decide _).
  - by destruct v.
  - unfold modify, set_resources. by rewrite (alter_insert _ _ _ _ Hd).
Qed.

Lemma setattr_eq self key v w d :
  resources w !! self = Some d →
  is_resource v = false ∨ key ∈ AidboxResource.class_attributes →
  AidboxResource.__setattr__ self key v w =
    match setattr_of (sessions w) key v d with
    | Ok d' => (Ok (), set_resources (<[self := d']>) w)
    | Raise e => (Raise e, w)
    end.
Proof.
  intros Hd Hv. unfold AidboxResource.__setattr__, setattr_of.
  unfold AidboxResource.dir.
  rewrite (bind_ok _ _ w (AidboxResource.class_names ++ dict_keys d) w).
  2:{ by rewrite (bind_ok _ _ _ _ _ (deref_some resources _ _ _ Hd)). }
  destruct (decide _) as [|Hdir]; [by apply object_setattr_eq|].
  destruct Hv as [Hv|Hown].
  2:{ destruct Hdir. apply elem_of_app. left.
      by apply class_attributes_class_names. }
  unfold mbind at 1, M_bind. rewrite (root_attrs_eq _ _ _ Hd).
  destruct (root_attrs_of _ _) as [attrs|e]; simpl; [|done].
  destruct (decide _).
  - rewrite (bind_ok _ _ w v w) by (by destruct v).
    rewrite (bind_ok _ _ _ _ _ (deref_some resources _ _ _ Hd)).
    by destruct (attr "data" d).
  - by rewrite (bind_ok _ _ _ _ _ (deref_some resources _ _ _ Hd)).
Qed.

Lemma set_resources_id w self d :
  resources w !! self = Some d → set_resources (<[self := d]>) w = w.
Proof.
  intros Hd. destruct w. unfold set_resources. simpl in *.
  by rewrite list_insert_id.
Qed.

Lemma set_resources_twice w self d d' :
  set_resources (<[self := d']>) (set_resources (<[self := d]>) w) =
  set_resources (<[self := d']>) w.
Proof. unfold set_resources. simpl. by rewrite list_insert_insert_eq. Qed.

Lemma lookup_set_resources w self d d' :
  resources w !! self = Some d →
  resources (set_resources (<[self := d']>) w) !! self = Some d'.
Proof.
  intros Hd. simpl. apply list_lookup_insert_eq. by eapply lookup_lt_Some.
Qed.

Lemma init_loop_eq self (skip : bool) kwargs : ∀ w d,
  resources w !! self = Some d →
  Forall (λ kv, is_resource kv.2 = false) kwargs →
  for_each (λ kv : string * value,
              catch (AidboxResource.__setattr__ self kv.1 kv.2) (λ e,
                match e with
                | AidboxResourceFieldDoesNotExist _ _ =>
                    Some (if skip then mret () else raise e)
                | _ => None
                end)) kwargs w =
    ((init_loop_of (sessions w) skip d kwargs).1,
     set_resources
       (<[self := (init_loop_of (sessions w) skip d kwargs).2]>) w).
Proof.
  induction kwargs as [|[key v] kwargs IH]; intros w d Hd Hall.
  { simpl. by rewrite set_resources_id. }
  apply Forall_cons in Hall as [Hv Hall]. simpl in Hv.
  cbn [for_each init_loop_of]. unfold mbind at 1, M_bind, catch. cbn [fst snd].
  rewrite (setattr_eq _ _ _ _ _ Hd (or_introl Hv)).
  destruct (setattr_of (sessions w) key v d) as [d'|e].
  - rewrite (IH _ d') by eauto using lookup_set_resources.
    by rewrite set_resources_twice.
  - destruct e; try (by rewrite set_resources_id).
    destruct skip; [|by rewrite set_resources_id].
    simpl. by apply IH.
Qed.

Global Instance same_objects_preorder : PreOrder same_objects.
Proof.
  split.
  - by intros w.
  - intros w1 w2 w3 (?&?&?&?) (?&?&?&?). repeat split; congruence.
Qed.

Ltac same_objects_leaf :=
  let w := fresh "w" in intros w; by repeat split.

Lemma fetch_schema_same_objects env self t :
  respects same_objects (Aidbox._fetch_schema env self t).
Proof.
  unfold Aidbox._fetch_schema, Aidbox._fetch_resource.
  repeat respects_step same_objects_leaf.
Qed.

Lemma insert_app_last {A} (l : list A) x y :
  <[length l := x]> (l ++ [y]) = l ++ [x].
Proof.
  rewrite insert_app_r_alt by lia. by rewrite Nat.sub_diag.
Qed.

Lemma Forall_dict_del (P : string * value → Prop) k d :
  Forall P d → Forall P (dict_del k d).
Proof.
  induction 1 as [|[k' v] d Hx Hd IH]; simpl; [done|].
  destruct (decide _); auto.
Qed.

Lemma dict_get_not_resource k d v :
  Forall (λ kv : string * value, is_resource kv.2 = false) d →
  dict_get k d = Some v → is_resource v = false.
Proof.
  induction 1 as [|[k' v'] d Hx Hd IH]; simpl; [done|].
  destruct (decide _); [|done]. by intros [= <-].
Qed.

Lemma attr_not_resource k d :
  Forall (λ kv : string * value, is_resource kv.2 = false) d →
  is_resource (attr k d) = false.
Proof.
  intros Hd. unfold attr.
  destruct (dict_get k d) eqn:E; [by eapply dict_get_not_resource|done].
Qed.

(** [__init__] up to its loop: the instance is allocated with its three
    own attributes, the schema is resolved and [meta] is set. *)
Lemma resource_init_prefix env s skip kwargs w :
  let self := length (resources w) in
  let t := attr "resource_type" kwargs in
  let d0 := [("data", VDict []); ("aidbox", VSession s);
             ("resource_type", t)] in
  let meta := default (VDict []) (dict_get "meta" kwargs) in
  AidboxResource.__init__ env s skip kwargs w =
    match Aidbox._fetch_schema env s t (set_resources (λ h, h ++ [d0]) w) with
    | (Ok _, w1) =>
        (for_each (λ kv : string * value,
                     catch (AidboxResource.__setattr__ self kv.1 kv.2) (λ e,
                       match e with
                       | AidboxResourceFieldDoesNotExist _ _ =>
                           Some (if skip then mret () else raise e)
                       | _ => None
                       end)) (dict_del "meta" kwargs) ≫= λ _, mret self)
          (set_resources (<[self := d0 ++ [("meta", meta)]]>) w1)
    | (Raise e, w1) => (Raise e, w1)
    end ∧
  resources (Aidbox._fetch_schema env s t
               (set_resources (λ h, h ++ [d0]) w)).2 !! self = Some d0.
Proof.
  intros self t d0 meta.
  pose proof (fetch_schema_same_objects env s t
                (set_resources (λ h, h ++ [d0]) w)) as (_ & _ & Hres & _).
  assert (resources (Aidbox._fetch_schema env s t
            (set_resources (λ h, h ++ [d0]) w)).2 !! self = Some d0) as H1.
  { rewrite Hres. simpl. by rewrite lookup_app_r, Nat.sub_diag. }
  split; [|done]. unfold AidboxResource.__init__.
  assert (∀ X, (alloc_resource [] ≫= X) w =
               X self (set_resources (λ h, h ++ [[]]) w)) as -> by done.
  set (w0 := set_resources (λ h, h ++ [[]]) w).
  assert (resources w0 !! self = Some []) as H0.
  { simpl. by rewrite lookup_app_r, Nat.sub_diag. }
  assert (∀ k (v : value), k ∈ ["data"; "aidbox"; "resource_type"; "meta"] →
            is_resource v = false ∨ k ∈ AidboxResource.class_attributes)
    as Hown
    by (intros k v Hk; right; unfold AidboxResource.class_attributes;
        set_solver).
  erewrite bind_ok;
    [|by erewrite setattr_eq; [|exact H0|apply Hown; set_solver]].
  erewrite bind_ok.
  2:{ erewrite setattr_eq;
        [|by eauto using lookup_set_resources|apply Hown; set_solver].
      reflexivity. }
  erewrite bind_ok.
  2:{ erewrite setattr_eq;
        [|by eauto using lookup_set_resources|apply Hown; set_solver].
      reflexivity. }
  rewrite !set_resources_twice.
  assert (set_resources
            <[self := dict_set "resource_type" (attr "resource_type" kwargs)
                        (dict_set "aidbox" (VSession s)
                           (dict_set "data" (VDict []) []))]> w0
          = set_resources (λ h, h ++ [d0]) w) as ->.
  { unfold w0, set_resources, self. simpl. by rewrite insert_app_last. }
  unfold mbind at 1, M_bind. fold t.
  destruct (Aidbox._fetch_schema _ _ _ _) as [[attrs|e] w1]; [|done].
  simpl in H1.
  erewrite bind_ok.
  2:{ erewrite setattr_eq; [|exact H1|apply Hown; set_solver]. reflexivity. }
  done.
Qed.

(** [__init__] in one equation, when no keyword carries a resource. *)
Lemma resource_init_eq env s skip kwargs w :
  Forall (λ kv, is_resource kv.2 = false) kwargs →
  let self := length (resources w) in
  let t := attr "resource_type" kwargs in
  let d0 := [("data", VDict []); ("aidbox", VSession s);
             ("resource_type", t)] in
  let meta := default (VDict []) (dict_get "meta" kwargs) in
  AidboxResource.__init__ env s skip kwargs w =
    match Aidbox._fetch_schema env s t (set_resources (λ h, h ++ [d0]) w) with
    | (Ok _, w1) =>
        let r := init_loop_of (sessions w1) skip (d0 ++ [("meta", meta)])
                   (dict_del "meta" kwargs) in
        (match r.1 with
         | Ok _ => Ok self
         | Raise e => Raise e
         end, set_resources (<[self := r.2]>) w1)
    | (Raise e, w1) => (Raise e, w1)
    end.
Proof.
  intros Hall self t d0 meta.
  destruct (resource_init_prefix env s skip kwargs w) as [-> H1].
  fold t d0 in H1 |- *.
  destruct (Aidbox._fetch_schema _ _ _ _) as [[attrs|e] w1]; [|done].
  simpl in H1. unfold mbind, M_bind.
  erewrite init_loop_eq;
    [|by eapply lookup_set_resources|by apply Forall_dict_del].
  rewrite set_resources_twice. simpl sessions.
  by destruct (init_loop_of _ _ _ _) as [[[]|e] d'].
Qed.

(** ** Dictionaries *)

Lemma dict_get_set_eq k v d : dict_get k (dict_set k v d) = Some v.
Proof.
  induction d as [|[k' v'] d IH]; simpl.
  - by rewrite decide_True.
  - destruct (decide (k = k')) as [->|Hne]; simpl.
    + by rewrite decide_True.
    + by rewrite decide_False.
Qed.

Lemma dict_get_set_ne k k' v d :
  k ≠ k' → dict_get k (dict_set k' v d) = dict_get k d.
Proof.
  intros Hne. induction d as [|[k0 v0] d IH]; simpl.
  - by rewrite decide_False.
  - destruct (decide (k' = k0)) as [->|]; simpl.
    + by rewrite !decide_False.
    + by rewrite IH.
Qed.

Lemma dict_get_None k d : dict_get k d = None ↔ k ∉ dict_keys d.
Proof.
  unfold dict_keys. induction d as [|[k' v] d IH]; simpl.
  - split; [intros _; apply not_elem_of_nil|done].
  - rewrite not_elem_of_cons. destruct (decide (k = k')); naive_solver.
Qed.

Lemma dict_get_Some_keys k d v : dict_get k d = Some v → k ∈ dict_keys d.
Proof.
  intros H. destruct (decide (k ∈ dict_keys d)) as [|Hn]; [done|].
  apply dict_get_None in Hn. congruence.
Qed.

Lemma dict_keys_set k v d k0 :
  k0 ∈ dict_keys (dict_set k v d) ↔ k0 = k ∨ k0 ∈ dict_keys d.
Proof.
  unfold dict_keys. induction d as [|[k' v'] d IH]; simpl.
  - rewrite list_elem_of_singleton, elem_of_nil. naive_solver.
  - destruct (decide (k = k')) as [->|]; simpl;
      rewrite !elem_of_cons; naive_solver.
Qed.

Lemma dict_keys_del k d k0 :
  k0 ∈ dict_keys (dict_del k d) ↔ k0 ≠ k ∧ k0 ∈ dict_keys d.
Proof.
  unfold dict_keys. induction d as [|[k' v'] d IH]; simpl.
  - rewrite elem_of_nil. naive_solver.
  - destruct (decide (k = k')) as [->|]; simpl;
      rewrite ?elem_of_cons; naive_solver.
Qed.

Lemma dict_get_del_ne k k' d :
  k ≠ k' → dict_get k (dict_del k' d) = dict_get k d.
Proof.
  intros Hne. induction d as [|[k0 v0] d IH]; simpl; [done|].
  destruct (decide (k' = k0)) as [->|]; simpl.
  - by rewrite decide_False.
  - by rewrite IH.
Qed.

Lemma dict_del_NoDup k d : NoDup (dict_keys d) → NoDup (dict_keys (dict_del k d)).
Proof.
  unfold dict_keys. induction d as [|[k' v'] d IH]; simpl; [done|].
  rewrite NoDup_cons. intros [Hn Hd].
  destruct (decide (k = k')); [auto|]. simpl. apply NoDup_cons. split; [|auto].
  intros Hin. apply Hn. by apply (dict_keys_del k d k').
Qed.

Lemma attr_set_eq k v d : attr k (dict_set k v d) = v.
Proof. unfold attr. by rewrite dict_get_set_eq. Qed.

Lemma attr_set_ne k k' v d : k ≠ k' → attr k (dict_set k' v d) = attr k d.
Proof. intros. unfold attr. by rewrite dict_get_set_ne. Qed.

(** ** One assignment, seen on the instance dictionary *)

Lemma root_attrs_of_ext ss d d' :
  attr "aidbox" d' = attr "aidbox" d →
  attr "resource_type" d' = attr "resource_type" d →
  root_attrs_of ss d' = root_attrs_of ss d.
Proof. intros H1 H2. unfold root_attrs_of. by rewrite H1, H2. Qed.

Lemma getattr_hook_of_ext ss k d d' :
  attr "aidbox" d' = attr "aidbox" d →
  attr "resource_type" d' = attr "resource_type" d →
  attr "data" d' = attr "data" d →
  getattr_hook_of ss k d' = getattr_hook_of ss k d.
Proof.
  intros H1 H2 H3. unfold getattr_hook_of.
  by rewrite (root_attrs_of_ext _ _ _ H1 H2), H2, H3.
Qed.

(** What a successful assignment to a name other than [data], [__dict__]
    and [aidbox] does: the name reads back as the value assigned, every
    other name but [data] reads as before, and a key enters the [data]
    mapping only if it is the assigned name and the schema has it. *)
Lemma setattr_of_ok ss key v d d' :
  key ≠ "data" → key ≠ "__dict__" → key ≠ "aidbox" →
  (key = "resource_type" → v = attr "resource_type" d) →
  setattr_of ss key v d = Ok d' →
  attr "aidbox" d' = attr "aidbox" d ∧
  attr "resource_type" d' = attr "resource_type" d ∧
  getattr_of ss key d' = Ok v ∧
  (∀ k, k ≠ key → k ≠ "data" → getattr_of ss k d' = getattr_of ss k d) ∧
  (∀ k, k ∈ dict_keys d' ↔
        k ∈ dict_keys d ∨ (k = key ∧ k ∈ AidboxResource.class_names)) ∧
  (∀ data, attr "data" d = VDict data →
     ∃ data', attr "data" d' = VDict data' ∧
       ∀ k, k ∈ dict_keys data' →
         k ∈ dict_keys data ∨
         (k = key ∧ ∃ attrs, root_attrs_of ss d = Ok attrs ∧ k ∈ attrs)).
Proof.
  intros Hdata Hdict Haidbox Htype. unfold setattr_of.
  destruct (decide (key ∈ _ ++ _)) as [Hdir|Hdir].
  - unfold object_setattr_of.
    repeat (destruct (decide _) as [|?]; [done|]). intros [= <-].
    assert (attr "resource_type" (dict_set key v d) = attr "resource_type" d)
      as Ht.
    { destruct (decide (key = "resource_type")) as [->|].
      - rewrite attr_set_eq. auto.
      - by rewrite attr_set_ne. }
    assert (key ∉ AidboxResource.descriptors) as Hdesc.
    { unfold AidboxResource.descriptors. set_solver. }
    split; [by rewrite attr_set_ne|]. split; [done|].
    split; [|split; [|split]].
    + unfold getattr_of. rewrite decide_False by done.
      by rewrite dict_get_set_eq.
    + intros k Hk Hk'. unfold getattr_of.
      rewrite dict_get_set_ne by done.
      rewrite (getattr_hook_of_ext ss k d (dict_set key v d));
        [done|by rewrite attr_set_ne|done|by rewrite attr_set_ne].
    + intros k. rewrite dict_keys_set. apply elem_of_app in Hdir.
      naive_solver.
    + intros data Hd. exists data. rewrite attr_set_ne by done. eauto.
  - destruct (root_attrs_of ss d) as [attrs|] eqn:Hroot; simpl; [|done].
    destruct (decide (key ∈ attrs)) as [Hin|]; [|done].
    destruct (attr "data" d) as [| | | |?|data| | |] eqn:Hd; try done.
    intros [= <-].
    apply not_elem_of_app in Hdir as [Hcls Hkeys].
    assert ("data" ∈ dict_keys d) as Hdk.
    { unfold attr in Hd. destruct (dict_get "data" d) eqn:E; [|done].
      by eapply dict_get_Some_keys. }
    assert (root_attrs_of ss
              (dict_set "data" (VDict (dict_set key v data)) d) = Ok attrs)
      as Hroot'.
    { rewrite <- Hroot. by apply root_attrs_of_ext; rewrite attr_set_ne. }
    split; [by rewrite attr_set_ne|]. split; [by rewrite attr_set_ne|].
    split; [|split; [|split]].
    + unfold getattr_of.
      rewrite decide_False by (intros ?; by apply Hcls, descriptors_class_names).
      rewrite dict_get_set_ne by done.
      apply dict_get_None in Hkeys as ->.
      rewrite decide_False
        by (intros ?; by apply Hcls, class_attributes_class_names).
      rewrite decide_False by done.
      unfold getattr_hook_of. rewrite Hroot'. simpl.
      rewrite decide_True by done. rewrite attr_set_eq.
      by rewrite dict_get_set_eq.
    + intros k Hk Hk'. unfold getattr_of.
      rewrite dict_get_set_ne by done.
      unfold getattr_hook_of. rewrite Hroot, Hroot'. simpl.
      rewrite (attr_set_ne "resource_type") by done. rewrite attr_set_eq, Hd.
      by rewrite dict_get_set_ne.
    + intros k. rewrite dict_keys_set. naive_solver.
    + intros data0 [= <-]. rewrite attr_set_eq. eexists. split; [done|].
      intros k. rewrite dict_keys_set. naive_solver.
Qed.

Lemma setattr_of_unknown ss key v d k t :
  setattr_of ss key v d = Raise (AidboxResourceFieldDoesNotExist k t) →
  k = key ∧ t = attr "resource_type" d ∧
  (key ∉ AidboxResource.class_names ++ dict_keys d) ∧
  (∃ attrs, root_attrs_of ss d = Ok attrs ∧ key ∉ attrs).
Proof.
  unfold setattr_of. destruct (decide (key ∈ _ ++ _)) as [Hdir|Hdir].
  - unfold object_setattr_of.
    repeat (destruct (decide _) as [|?]; [done|]).
    destruct (decide _); [by destruct v|done].
  - destruct (root_attrs_of ss d) as [attrs|e] eqn:Hroot; simpl.
    + destruct (decide (key ∈ attrs)); [by destruct (attr "data" d)|].
      intros [= <- <-]. repeat split; eauto.
    + unfold root_attrs_of in Hroot.
      destruct (attr "aidbox" d); try by injection Hroot as <-.
      destruct (_ !! _); simpl in Hroot; [|by injection Hroot as <-].
      destruct (to_key _); simpl in Hroot; [|by injection Hroot as <-].
      destruct (_ !! _); simpl in Hroot; [done|by injection Hroot as <-].
Qed.

(** The loop of [__init__], when it comes to its end, over keywords that
    do not name [data], [__dict__] or [aidbox]. *)
Lemma init_loop_of_ok ss skip l : ∀ d d',
  NoDup (dict_keys l) →
  "data" ∉ dict_keys l → "__dict__" ∉ dict_keys l → "aidbox" ∉ dict_keys l →
  (∀ v, dict_get "resource_type" l = Some v → v = attr "resource_type" d) →
  init_loop_of ss skip d l = (Ok (), d') →
  attr "aidbox" d' = attr "aidbox" d ∧
  attr "resource_type" d' = attr "resource_type" d ∧
  (∀ k v attrs, dict_get k l = Some v → root_attrs_of ss d = Ok attrs →
                k ∈ attrs → getattr_of ss k d' = Ok v) ∧
  (∀ k, k ∉ dict_keys l → k ≠ "data" →
        getattr_of ss k d' = getattr_of ss k d) ∧
  (∀ k, k ∈ dict_keys d' →
        k ∈ dict_keys d ∨ k ∈ AidboxResource.class_names) ∧
  (∀ data, attr "data" d = VDict data →
     ∃ data', attr "data" d' = VDict data' ∧
       ∀ k, k ∈ dict_keys data' →
         k ∈ dict_keys data ∨
         (k ∈ dict_keys l ∧ ∃ attrs, root_attrs_of ss d = Ok attrs ∧ k ∈ attrs)).
Proof.
  induction l as [|[key v] l IH]; intros d d' Hnd Hdata Hdict Haid Htype.
  { intros [= <-]. split; [done|]. split; [done|].
    split; [done|]. split; [done|]. split; [by left|].
    intros data Hd. exists data. split; [done|]. by left. }
  unfold dict_keys in *. simpl in Hnd, Hdata, Hdict, Haid.
  apply NoDup_cons in Hnd as [Hkey Hnd].
  apply not_elem_of_cons in Hdata as [Hdata1 Hdata].
  apply not_elem_of_cons in Hdict as [Hdict1 Hdict].
  apply not_elem_of_cons in Haid as [Haid1 Haid].
  cbn [init_loop_of].
  destruct (setattr_of ss key v d) as [d1|e] eqn:Hset.
  - intros Hloop.
    destruct (setattr_of_ok ss key v d d1) as (Ha & Ht & Hget & Hfr & Hk & Hd);
      [done..| |done|].
    { intros ->. apply Htype. simpl. by rewrite ?decide_True. }
    destruct (IH d1 d' Hnd Hdata Hdict Haid) as (Ha' & Ht' & Hget' & Hfr' & Hk' & Hd');
      [|done|].
    { intros v' Hv'. rewrite Ht. apply Htype. simpl.
      destruct (decide ("resource_type" = key)) as [<-|]; [|done].
      apply dict_get_Some_keys in Hv'. done. }
    split; [congruence|]. split; [congruence|].
    split; [|split; [|split]].
    + intros k v0 attrs. simpl. destruct (decide (k = key)) as [->|Hne].
      * intros [= <-] _ _. rewrite Hfr' by done. done.
      * intros Hv0 Hroot Hin. eapply Hget'; [done| |done].
        rewrite <- Hroot. by apply root_attrs_of_ext.
    + intros k Hk0 Hk1. simpl in Hk0.
      apply not_elem_of_cons in Hk0 as [Hne Hk0].
      rewrite Hfr' by done. by apply Hfr.
    + intros k Hin. apply Hk' in Hin as [Hin|]; [|by right].
      apply Hk in Hin. naive_solver.
    + intros data Hdata0. destruct (Hd _ Hdata0) as (data1 & Hdata1' & Hin0).
      destruct (Hd' _ Hdata1') as (data' & Hdata' & Hin1).
      exists data'. split; [done|]. intros k Hin.
      rewrite (root_attrs_of_ext ss d d1) in Hin1 by done.
      destruct (Hin1 k Hin) as [Hin'|[Hin' ?]].
      * destruct (Hin0 k Hin') as [|[-> ?]]; [by left|right].
        split; [apply elem_of_cons; by left|done].
      * right. split; [apply elem_of_cons; by right|done].
  - destruct e; try done. destruct skip; [|done]. intros Hloop.
    apply setattr_of_unknown in Hset as (-> & -> & Hndir & attrs0 & Hroot0 & Hnin).
    destruct (IH d d' Hnd Hdata Hdict Haid) as (Ha' & Ht' & Hget' & Hfr' & Hk' & Hd');
      [|done|].
    { intros v' Hv'. apply Htype. simpl.
      destruct (decide ("resource_type" = key)) as [<-|]; [|done].
      apply dict_get_Some_keys in Hv'. done. }
    split; [done|]. split; [done|]. split; [|split; [|split]].
    + intros k v0 attrs. simpl. destruct (decide (k = key)) as [->|Hne].
      * intros _ Hroot Hin. congruence.
      * eauto.
    + intros k Hk0 Hk1. simpl in Hk0.
      apply not_elem_of_cons in Hk0 as [Hne Hk0]. by apply Hfr'.
    + done.
    + intros data Hdata0. destruct (Hd' _ Hdata0) as (data' & Hdata' & Hin0).
      exists data'. split; [done|]. intros k Hin.
      destruct (Hin0 k Hin) as [|[? ?]]; [by left|right].
      split; [apply elem_of_cons; by right|done].
Qed.

(** ** What the resolver returns and raises *)

Lemma mapM_result_raise {A B} (P : exn → Prop) (f : A → result B) l e :
  (∀ x e, f x = Raise e → P e) → mapM f l = Raise e → P e.
Proof.
  intros Hf. induction l as [|x l IH]; simpl; [done|].
  destruct (f x) as [y|e'] eqn:E; simpl; [|intros [= <-]; eauto].
  destruct (mapM f l); simpl; [done|]. intros [= <-]. auto.
Qed.

Lemma subscript_raise v k e : subscript v k = Raise e → lookup_error e.
Proof.
  unfold lookup_error. destruct v; simpl; try (intros [= <-]; auto).
  destruct (dict_get k d); simpl; [done|]. intros [= <-]; auto.
Qed.

Lemma schema_of_raise env v e :
  Aidbox.schema_of env v = Raise e → lookup_error e.
Proof.
  unfold Aidbox.schema_of.
  destruct (subscript v "entry") as [entry|e1] eqn:E1; simpl;
    [|intros [= <-]; by eapply subscript_raise].
  destruct (py_iter entry) as [entries|e2] eqn:E2; simpl.
  2:{ intros [= <-]. unfold lookup_error.
      destruct entry; simpl in E2; try done; injection E2 as <-; auto. }
  destruct (mapM _ entries) as [attrs|e3] eqn:E3; simpl.
  2:{ intros [= <-]. eapply mapM_result_raise; [|exact E3].
      intros x e'. apply subscript_raise. }
  destruct (mapM _ attrs) as [names|e4] eqn:E4; simpl; [done|].
  intros [= <-]. eapply mapM_result_raise; [|exact E4].
  intros x e'. simpl.
  destruct (subscript x "path") as [path|] eqn:E5; simpl;
    [|intros [= <-]; by eapply subscript_raise].
  unfold lookup_error.
  destruct (index0 path) as [first|] eqn:E6; simpl.
  - destruct first; try done; intros [= <-]; auto.
  - intros [= <-]. destruct path; simpl in E6; try (injection E6 as <-; auto).
    + destruct s; [injection E6 as <-; auto|done].
    + destruct (head l); [done|injection E6 as <-; auto].
Qed.

Lemma fetch_result_raise env answer e :
  fetch_result env answer = Raise e →
  e = TransportError ∧ answer = None ∨
  (∃ resp, answer = Some resp ∧
     (e = AidboxResourceNotFound ∧ status_code resp = 404 ∨
      e = ValueError ∧ status_code resp = 200 ∧ body resp = None ∨
      e = AidboxAuthorizationError ∧ status_code resp ≠ 404 ∧
        status_code resp ≠ 200)).
Proof.
  unfold fetch_result. destruct answer as [resp|]; simpl;
    [|intros [= <-]; by left].
  intros H. right. exists resp. split; [done|].
  destruct (Z.eqb_spec (status_code resp) 404) as [E1|E1];
    [injection H as <-; auto|].
  destruct (Z.eqb_spec (status_code resp) 200) as [E2|E2];
    [|injection H as <-; auto].
  destruct (body resp); simpl in H; [done|]. injection H as <-. auto.
Qed.

(** Whatever the resolver returns is, from then on, the entry of the type
    in the cache of the session. *)
Lemma fetch_schema_ok env self t w attrs w1 :
  Aidbox._fetch_schema env self t w = (Ok attrs, w1) →
  ∃ a1 k, sessions w1 !! self = Some a1 ∧ to_key t = Some k ∧
          schema a1 !! k = Some attrs ∧ attrs ≠ ∅.
Proof.
  intros Hcall.
  destruct (sessions w !! self) as [a|] eqn:Ha; cycle 1.
  { unfold Aidbox._fetch_schema in Hcall.
    by rewrite (bind_raise _ _ _ _ _ (deref_none sessions _ _ Ha)) in Hcall. }
  destruct (to_key t) as [k|] eqn:Hk; cycle 1.
  { unfold Aidbox._fetch_schema in Hcall.
    rewrite (bind_ok _ _ _ _ _ (deref_some sessions _ _ _ Ha)) in Hcall.
    by rewrite Hk in Hcall. }
  destruct (schema a !! k) as [attrs'|] eqn:Hs;
    [destruct (decide (attrs' = ∅)) as [->|Hne]|].
  2:{ rewrite (fetch_schema_hit _ _ _ _ _ _ _ Ha Hk Hs Hne) in Hcall.
      injection Hcall as <- <-. eauto 10. }
  all: rewrite (fetch_schema_miss _ _ _ _ _ _ Ha Hk) in Hcall by auto.
  all: destruct (fetch_result _ _ ≫= _) as [attrs1|e] eqn:E; [|done].
  all: injection Hcall as <- <-.
  all: eexists _, k; simpl; rewrite list_lookup_alter_eq, Ha; simpl.
  all: split; [done|]; split; [done|];
    split; [simpl; by rewrite lookup_insert_eq|].
  all: destruct (fetch_result _ _) as [v|]; simpl in E; [|done].
  all: apply schema_of_has_id in E; set_solver.
Qed.

(** The exceptions the resolver can raise. *)
Lemma fetch_schema_raise env self t w e w1 :
  Aidbox._fetch_schema env self t w = (Raise e, w1) →
  e = Unmodelled ∨ lookup_error e ∨
  ∃ a, sessions w !! self = Some a ∧
       ∃ e', fetch_result env
               (requests_get env (sent w) (schema_request a t)) = Raise e' ∧
             e = e'.
Proof.
  intros Hcall.
  destruct (sessions w !! self) as [a|] eqn:Ha; cycle 1.
  { unfold Aidbox._fetch_schema in Hcall.
    rewrite (bind_raise _ _ _ _ _ (deref_none sessions _ _ Ha)) in Hcall.
    injection Hcall as <- <-. by left. }
  destruct (to_key t) as [k|] eqn:Hk; cycle 1.
  { unfold Aidbox._fetch_schema in Hcall.
    rewrite (bind_ok _ _ _ _ _ (deref_some sessions _ _ _ Ha)) in Hcall.
    rewrite Hk in Hcall. injection Hcall as <- <-.
    right. left. unfold lookup_error. auto. }
  destruct (schema a !! k) as [attrs'|] eqn:Hs;
    [destruct (decide (attrs' = ∅)) as [->|Hne]|].
  2:{ by rewrite (fetch_schema_hit _ _ _ _ _ _ _ Ha Hk Hs Hne) in Hcall. }
  all: rewrite (fetch_schema_miss _ _ _ _ _ _ Ha Hk) in Hcall by auto.
  all: destruct (fetch_result _ _) as [v|e'] eqn:E; simpl in Hcall.
  2,4: injection Hcall as <- <-; right; right; eauto.
  all: destruct (Aidbox.schema_of env v) eqn:E'; [done|].
  all: injection Hcall as <- <-; right; left; by eapply schema_of_raise.
Qed.

(** ** Wrapping a payload *)

Lemma dict_del_notin k d : k ∉ dict_keys d → dict_del k d = d.
Proof.
  unfold dict_keys. induction d as [|[k' v] d IH]; simpl; [done|].
  rewrite not_elem_of_cons. intros [Hne Hd].
  rewrite decide_False by done. by rewrite IH.
Qed.

Lemma from_payload_eq env s payload w :
  from_payload env s payload w =
    match payload with
    | VDict p =>
        if decide ("skip_validation" ∈ dict_keys p ∨ "self" ∈ dict_keys p ∨
                   "aidbox" ∈ dict_keys p)
        then (Raise TypeError, w)
        else AidboxResource.__init__ env s true p w
    | _ => (Raise TypeError, w)
    end.
Proof.
  unfold from_payload, star_kwargs. destruct payload as [| | | | |p| | |]; try done.
  destruct (decide (Exists _ _)) as [Hex|Hex].
  { rewrite decide_True; [done|]. left.
    apply Exists_cons in Hex as [Hex|Hex]; [done|by apply Exists_nil in Hex]. }
  assert ("skip_validation" ∉ dict_keys p) as Hskip.
  { intros Hin. apply Hex. by apply Exists_cons_hd. }
  unfold mbind, M_bind, lift. simpl. unfold AidboxResource.new.
  assert (∀ k, k ≠ "skip_validation" →
            k ∈ dict_keys (("skip_validation", VBool true) :: p) ↔
            k ∈ dict_keys p) as Hkeys.
  { intros k Hk. unfold dict_keys. simpl. rewrite elem_of_cons. naive_solver. }
  destruct (decide (_ ∨ _ ∨ _)) as [Hbad|Hok].
  - rewrite decide_True; [done|]. rewrite !Hkeys by done. naive_solver.
  - rewrite decide_False by (rewrite !Hkeys by done; naive_solver).
    simpl. by rewrite dict_del_notin.
Qed.

(** In skip-validation mode the loop of [__init__] lets no unknown-field
    error out. *)
Lemma skip_loop_never_unknown self l : ∀ w k t,
  (for_each (λ kv : string * value,
               catch (AidboxResource.__setattr__ self kv.1 kv.2) (λ e,
                 match e with
                 | AidboxResourceFieldDoesNotExist _ _ =>
                     Some (if true then mret () else raise e)
                 | _ => None
                 end)) l w).1 ≠ Raise (AidboxResourceFieldDoesNotExist k t).
Proof.
  induction l as [|[key v] l IH]; intros w k t; [done|].
  cbn [for_each]. unfold mbind at 1, M_bind, catch. cbn [fst snd].
  destruct (AidboxResource.__setattr__ self key v w) as [[[]|e] w1].
  - apply IH.
  - destruct e; try done. simpl. apply IH.
Qed.

(** ** A constructed resource *)

(** What [__init__] returns when no keyword carries a resource or names
    [data], [__dict__] or [aidbox]: a new instance, last in the heap, on
    which every keyword the schema knows reads back, on which a name the
    schema does not know cannot be read, and whose [data] mapping has
    only keys of the schema. *)
Lemma resource_init_ok env s skip p w e w' :
  NoDup (dict_keys p) →
  Forall (λ kv, is_resource kv.2 = false) p →
  "data" ∉ dict_keys p → "__dict__" ∉ dict_keys p → "aidbox" ∉ dict_keys p →
  AidboxResource.__init__ env s skip p w = (Ok e, w') →
  e = length (resources w) ∧
  ∃ d' attrs,
    resources w' = resources w ++ [d'] ∧
    same_objects (set_resources (λ h, h ++ [d']) w) w' ∧
    root_attrs_of (sessions w') d' = Ok attrs ∧ attrs ≠ ∅ ∧
    attr "aidbox" d' = VSession s ∧
    attr "resource_type" d' = attr "resource_type" p ∧
    (∀ k v, dict_get k p = Some v → k ∈ attrs →
            getattr_of (sessions w') k d' = Ok v) ∧
    (∀ k, k ∉ attrs → k ∉ AidboxResource.class_names →
          getattr_of (sessions w') k d' =
            Raise (AidboxResourceFieldDoesNotExist k
                     (attr "resource_type" p))) ∧
    (∃ data, attr "data" d' = VDict data ∧
             ∀ k, k ∈ dict_keys data → k ∈ dict_keys p ∧ k ∈ attrs) ∧
    (Aidbox._fetch_schema env s (attr "resource_type" p)
       (set_resources
          (λ h, h ++ [[("data", VDict []); ("aidbox", VSession s);
                       ("resource_type", attr "resource_type" p)]]) w)).1
      = Ok attrs.
Proof.
  intros Hnd Hjson Hdata Hdict Haid.
  rewrite (resource_init_eq env s skip p w Hjson).
  set (d0 := [("data", VDict []); ("aidbox", VSession s);
              ("resource_type", attr "resource_type" p)]).
  set (meta := default (VDict []) (dict_get "meta" p)).
  pose proof (fetch_schema_same_objects env s (attr "resource_type" p)
                (set_resources (λ h, h ++ [d0]) w)) as Hsame.
  destruct (Aidbox._fetch_schema _ _ _ _) as [[attrs|e0] w1] eqn:Hfetch;
    [|done].
  apply fetch_schema_ok in Hfetch as (a1 & k0 & Ha1 & Hk0 & Hs1 & Hne).
  simpl in Hsame. destruct Hsame as (Hd1 & Hss1 & Hres1 & Hrf1).
  cbv zeta.
  destruct (init_loop_of _ _ _ _) as [[[]|e0] d'] eqn:Hloop; [|done].
  simpl. intros [= <- <-]. split; [done|].
  assert (root_attrs_of (sessions w1) (d0 ++ [("meta", meta)]) = Ok attrs)
    as Hroot.
  { unfold root_attrs_of.
    change (attr "aidbox" (d0 ++ [("meta", meta)])) with (VSession s).
    change (attr "resource_type" (d0 ++ [("meta", meta)]))
      with (attr "resource_type" p).
    simpl. rewrite Ha1. simpl. rewrite Hk0. simpl. by rewrite Hs1. }
  destruct (init_loop_of_ok (sessions w1) skip (dict_del "meta" p)
              (d0 ++ [("meta", meta)]) d')
    as (Ha' & Ht' & Hget' & Hfr' & Hk' & Hd');
    [by apply dict_del_NoDup|rewrite dict_keys_del; naive_solver..| |done|].
  { intros v Hv. rewrite dict_get_del_ne in Hv by done.
    change (attr "resource_type" (d0 ++ [("meta", meta)]))
      with (attr "resource_type" p).
    unfold attr. by rewrite Hv. }
  assert (root_attrs_of (sessions w1) d' = Ok attrs) as Hroot'.
  { rewrite <- Hroot. by apply root_attrs_of_ext. }
  exists d', attrs. simpl.
  split; [by rewrite Hres1; simpl; rewrite insert_app_last|].
  split; [repeat split; simpl; try done;
          by rewrite Hres1; simpl; rewrite insert_app_last|].
  split; [done|]. split; [done|]. split; [done|]. split; [done|].
  split; [|split; [|split; [|done]]].
  - intros k v Hv Hin. destruct (decide (k = "meta")) as [->|Hmeta].
    + rewrite Hfr'; [|rewrite dict_keys_del; naive_solver|done].
      unfold getattr_of. simpl. unfold meta. by rewrite Hv.
    + eapply Hget'; [|done..]. by rewrite dict_get_del_ne.
  - intros k Hattrs Hcls. unfold getattr_of.
    rewrite decide_False by (intros ?; by apply Hcls, descriptors_class_names).
    assert (dict_get k d' = None) as ->.
    { apply dict_get_None. intros Hin. apply Hk' in Hin as [Hin|Hin]; [|done].
      apply Hcls. revert Hin. unfold dict_keys. simpl.
      unfold AidboxResource.class_names, AidboxResource.class_attributes.
      set_solver. }
    rewrite decide_False
      by (intros ?; by apply Hcls, class_attributes_class_names).
    rewrite decide_False by done.
    unfold getattr_hook_of. rewrite Hroot'. simpl.
    rewrite decide_False by done. by rewrite Ht'.
  - destruct (Hd' [] eq_refl) as (data' & Hdata' & Hin0).
    exists data'. split; [done|]. intros k Hin.
    destruct (Hin0 k Hin) as [Hin'|[Hin' (attrs' & Hroot2 & Hin2)]].
    + by apply elem_of_nil in Hin'.
    + apply dict_keys_del in Hin' as [_ Hin']. split; [done|]. congruence.
Qed.

Ltac closed_name :=
  first [ by (apply (bool_decide_unpack _); vm_compute)
        | by (apply (bool_decide_eq_false_1 _); vm_compute) ].

(** C3, as the code has it. Wrapping a payload in skip-validation mode
    never raises the unknown-field error.  When the payload is a
    dictionary of JSON values without a field [data] or [__dict__], the
    resource reads back every payload field the schema knows; a field
    the schema does not know (and that is not an attribute of the
    instance) was dropped, and reading it raises the unknown-field
    error. *)
Theorem skip_validation_reads_back env s payload w r w' :
  from_payload env s payload w = (r, w') →
  (∀ k t, r ≠ Raise (AidboxResourceFieldDoesNotExist k t)) ∧
  ∀ p e, payload = VDict p → r = Ok e →
    NoDup (dict_keys p) → Forall (λ kv, is_resource kv.2 = false) p →
    "data" ∉ dict_keys p → "__dict__" ∉ dict_keys p →
    ∃ attrs,
      AidboxResource.root_attrs e w' = (Ok attrs, w') ∧
      (∀ k v, dict_get k p = Some v → k ∈ attrs →
              AidboxResource.getattr e k w' = (Ok v, w')) ∧
      (∀ k, k ∉ attrs → k ∉ AidboxResource.class_names →
            AidboxResource.getattr e k w' =
              (Raise (AidboxResourceFieldDoesNotExist k
                        (attr "resource_type" p)), w')).
Proof.
  rewrite from_payload_eq. intros Hcall. split.
  - intros k t ->.
    destruct payload as [| | | | |p| | |]; try done.
    destruct (decide _); [done|].
    destruct (resource_init_prefix env s true p w) as [Heq _].
    rewrite Heq in Hcall. clear Heq.
    destruct (Aidbox._fetch_schema _ _ _ _) as [[attrs|e] w1] eqn:Hfetch.
    + unfold mbind, M_bind in Hcall.
      pose proof (skip_loop_never_unknown (length (resources w))
                    (dict_del "meta" p)
                    (set_resources
                       <[length (resources w) :=
                           [("data", VDict []); ("aidbox", VSession s);
                            ("resource_type", attr "resource_type" p)] ++
                           [("meta", default (VDict []) (dict_get "meta" p))]]>
                       w1) k t) as Hloop.
      destruct (for_each _ _ _) as [[[]|e] w2]; [done|].
      injection Hcall as -> _. done.
    + injection Hcall as -> _.
      apply fetch_schema_raise in Hfetch as [|[Hl|(a & _ & e' & He' & ?)]];
        [done|destruct Hl as [|[|]]; done|].
      subst e'. apply fetch_result_raise in He'. naive_solver.
  - intros p e -> -> Hnd Hjson Hdata Hdict.
    destruct (decide _) as [|Hkeys]; [done|].
    apply resource_init_ok in Hcall
      as (-> & d' & attrs & Hres & _ & Hroot & _ & _ & _ & Hget & Hunk & _);
      [|done..|naive_solver].
    assert (resources w' !! length (resources w) = Some d') as Hd'.
    { rewrite Hres. by rewrite lookup_app_r, Nat.sub_diag. }
    exists attrs. split; [|split].
    + by rewrite (root_attrs_eq _ _ _ Hd'), Hroot.
    + intros k v Hv Hin. rewrite (getattr_eq _ _ _ _ Hd'). by erewrite Hget.
    + intros k Hk Hcls. rewrite (getattr_eq _ _ _ _ Hd'). by rewrite Hunk.
Qed.

Lemma skip_validation_reads_back_witness :
  let w' := (from_payload sample_env 0 jane sample_world).2 in
  AidboxResource.getattr 0 "name" w' = (Ok (VStr "Jane"), w') ∧
  AidboxResource.getattr 0 "unknown_field" w' =
    (Raise (AidboxResourceFieldDoesNotExist "unknown_field" (VStr "Patient")),
     w').
Proof.
  intros w'.
  destruct (skip_validation_reads_back sample_env 0%nat jane sample_world
              (Ok 0%nat) w') as [_ H]; [by vm_compute|].
  destruct (H _ 0%nat eq_refl eq_refl) as (attrs & Hroot & Hget & Hunk).
  - closed_name.
  - repeat constructor.
  - closed_name.
  - closed_name.
  - assert (attrs = {["name"; "birth_date"]} ∪ {["id"]}) as ->.
    { assert (AidboxResource.root_attrs 0 w' =
                (Ok ({["name"; "birth_date"]} ∪ {["id"]}), w')) as E
        by (by vm_compute).
      congruence. }
    split.
    + apply Hget; [reflexivity|closed_name].
    + apply Hunk; closed_name.
Defined.

(** The two halves of C3 as it is worded both fail.  In the sample
    session, the record of Jane carries [unknown_field], which the schema
    of [Patient] does not know: reading it raises.  The schema of
    [Binary] knows [data]: the payload value replaces the mapping that
    holds the fields, and reading [id] raises. *)
Lemma payload_fields_do_not_read_as_worded :
  ¬ known_fields_read_back ∧ ¬ unknown_fields_read_absent.
Proof.
  split.
  - intros H.
    specialize (H sample_env 0%nat
                  [("resource_type", VStr "Binary"); ("id", VStr "9");
                   ("content_type", VStr "text/plain"); ("data", VStr "aGk=")]
                  sample_world 0%nat
                  (from_payload sample_env 0 binary sample_world).2
                  ({["data"; "content_type"]} ∪ {["id"]})).
    discriminate H with (k := "id") (v := VStr "9").
    + closed_name.
    + repeat constructor.
    + by vm_compute.
    + by vm_compute.
    + reflexivity.
    + closed_name.
  - intros H.
    specialize (H sample_env 0%nat
                  [("resource_type", VStr "Patient"); ("id", VStr "1");
                   ("name", VStr "Jane"); ("unknown_field", VStr "x")]
                  sample_world 0%nat
                  (from_payload sample_env 0 jane sample_world).2
                  ({["name"; "birth_date"]} ∪ {["id"]})).
    discriminate H with (k := "unknown_field").
    + closed_name.
    + repeat constructor.
    + by vm_compute.
    + by vm_compute.
    + closed_name.
    + closed_name.
Qed.

(** ** The three ways an assignment can go *)

Lemma setattr_of_own ss key v d :
  key ∈ AidboxResource.class_names ++ dict_keys d →
  key ∉ AidboxResource.descriptors →
  setattr_of ss key v d = Ok (dict_set key v d).
Proof.
  intros Hdir Hdesc. unfold setattr_of, object_setattr_of.
  rewrite decide_True by done.
  unfold AidboxResource.descriptors in Hdesc.
  repeat (rewrite decide_False; [|intros ->; set_solver]). done.
Qed.

Lemma setattr_of_store ss key v d attrs data :
  key ∉ AidboxResource.class_names ++ dict_keys d →
  root_attrs_of ss d = Ok attrs → key ∈ attrs →
  attr "data" d = VDict data →
  setattr_of ss key v d =
    Ok (dict_set "data" (VDict (dict_set key v data)) d).
Proof.
  intros Hdir Hroot Hin Hdata. unfold setattr_of.
  rewrite decide_False by done. rewrite Hroot. simpl.
  rewrite decide_True by done. by rewrite Hdata.
Qed.

Lemma setattr_of_reject ss key v d attrs :
  key ∉ AidboxResource.class_names ++ dict_keys d →
  root_attrs_of ss d = Ok attrs → key ∉ attrs →
  setattr_of ss key v d =
    Raise (AidboxResourceFieldDoesNotExist key (attr "resource_type" d)).
Proof.
  intros Hdir Hroot Hin. unfold setattr_of.
  rewrite decide_False by done. rewrite Hroot. simpl.
  by rewrite decide_False.
Qed.

(** In skip-validation mode the loop comes to its end, whatever the
    schema, when no keyword names a descriptor, [data] or [aidbox]. *)
Lemma init_loop_of_skip_total ss l : ∀ d attrs data,
  root_attrs_of ss d = Ok attrs → attr "data" d = VDict data →
  (∀ k, k ∈ dict_keys l →
        (k ∉ AidboxResource.descriptors) ∧ k ≠ "data" ∧ k ≠ "aidbox") →
  (∀ v, ("resource_type", v) ∈ l → v = attr "resource_type" d) →
  ∃ d', init_loop_of ss true d l = (Ok (), d').
Proof.
  induction l as [|[key v] l IH]; intros d attrs data Hroot Hdata Hkeys Htype.
  { by eexists. }
  destruct (Hkeys key) as (Hdesc & Hnd & Hna); [by left|].
  assert (∀ k, k ∈ dict_keys l →
            (k ∉ AidboxResource.descriptors) ∧ k ≠ "data" ∧ k ≠ "aidbox")
    as Hkeys' by (intros k Hk; apply Hkeys; by right).
  assert (∀ d1, attr "resource_type" d1 = attr "resource_type" d →
            ∀ v0, ("resource_type", v0) ∈ l →
                  v0 = attr "resource_type" d1) as Htype'.
  { intros d1 -> v0 Hv0. apply Htype. by right. }
  cbn [init_loop_of].
  destruct (decide (key ∈ AidboxResource.class_names ++ dict_keys d))
    as [Hdir|Hdir].
  - rewrite setattr_of_own by done.
    assert (attr "resource_type" (dict_set key v d) = attr "resource_type" d)
      as Ht.
    { destruct (decide (key = "resource_type")) as [->|].
      - rewrite attr_set_eq. apply Htype. by left.
      - by rewrite attr_set_ne. }
    eapply (IH _ attrs data); [|by rewrite attr_set_ne|done|by apply Htype'].
    rewrite <- Hroot. apply root_attrs_of_ext; [by rewrite attr_set_ne|done].
  - destruct (decide (key ∈ attrs)) as [Hin|Hin].
    + erewrite setattr_of_store by done.
      eapply (IH _ attrs); [|by rewrite attr_set_eq|done|].
      * rewrite <- Hroot. by apply root_attrs_of_ext; rewrite attr_set_ne.
      * apply Htype'. by rewrite attr_set_ne.
    + erewrite setattr_of_reject by done. eauto.
Qed.

(** Wrapping a payload returns a resource as soon as the schema of its
    type resolves. *)
Lemma from_payload_returns env s p w attrs w1 :
  NoDup (dict_keys p) →
  Forall (λ kv, is_resource kv.2 = false) p →
  (∀ k, k ∈ dict_keys p →
        (k ∉ AidboxResource.descriptors) ∧
        (k ∉ ["data"; "aidbox"; "self"; "skip_validation"])) →
  Aidbox._fetch_schema env s (attr "resource_type" p)
    (set_resources
       (λ h, h ++ [[("data", VDict []); ("aidbox", VSession s);
                    ("resource_type", attr "resource_type" p)]]) w)
    = (Ok attrs, w1) →
  ∃ w', from_payload env s (VDict p) w = (Ok (length (resources w)), w').
Proof.
  intros Hnd Hjson Hkeys Hfetch. rewrite from_payload_eq.
  rewrite decide_False.
  2:{ intros [H|[H|H]]; apply Hkeys in H as [_ H]; set_solver. }
  rewrite (resource_init_eq env s true p w Hjson). rewrite Hfetch.
  apply fetch_schema_ok in Hfetch as (a1 & k0 & Ha1 & Hk0 & Hs1 & _).
  cbv zeta.
  edestruct (init_loop_of_skip_total (sessions w1) (dict_del "meta" p))
    as [d' ->]; [| | | |by eexists].
  - unfold root_attrs_of.
    change (attr "aidbox" _) with (VSession s).
    change (attr "resource_type" (_ ++ _)) with (attr "resource_type" p).
    simpl. rewrite Ha1. simpl. rewrite Hk0. simpl. by rewrite Hs1.
  - reflexivity.
  - intros k Hk. apply dict_keys_del in Hk as [_ Hk].
    apply Hkeys in Hk as [? ?]. set_solver.
  - intros v Hv.
    change (attr "resource_type" (_ ++ _)) with (attr "resource_type" p).
    assert (dict_get "resource_type" p = Some v) as E; [|unfold attr; by rewrite E].
    clear -Hv Hnd. unfold dict_keys in Hnd.
    induction p as [|[k' v'] p IH]; simpl in *; [by apply elem_of_nil in Hv|].
    apply NoDup_cons in Hnd as [Hk' Hnd].
    destruct (decide ("meta" = k')) as [<-|Hm].
    + rewrite decide_False by done. auto.
    + apply elem_of_cons in Hv as [[= <- <-]|Hv].
      * by rewrite decide_True.
      * destruct (decide ("resource_type" = k')) as [<-|]; [|auto].
        destruct Hk'. clear -Hv.
        induction p as [|[k0 v0] p IH]; simpl in *;
          [by apply elem_of_nil in Hv|].
        destruct (decide ("meta" = k0)); [set_solver|].
        apply elem_of_cons in Hv as [[= <- <-]|Hv]; set_solver.
Qed.

(** ** The Patient scenario *)

(** C9. In a session whose schema of [Patient] is
    [{"id", "name", "birth_date"}], constructing
    [Patient(name="Jane", unknown_field="x")] raises the unknown-field
    error, which names [unknown_field]; with [skip_validation=True] the
    construction returns a resource on which reading [unknown_field]
    raises the same error and reading [name] returns ["Jane"]. *)
Theorem patient_scenario env w s a :
  sessions w !! s = Some a →
  schema a !! KStr "Patient" = Some {["id"; "name"; "birth_date"]} →
  let kwargs := [("name", VStr "Jane"); ("unknown_field", VStr "x")] in
  let unknown :=
    AidboxResourceFieldDoesNotExist "unknown_field" (VStr "Patient") in
  (AidboxResource.Aidbox_resource env s (VStr "Patient") kwargs w).1 =
    Raise unknown ∧
  ∃ e w',
    AidboxResource.Aidbox_resource env s (VStr "Patient")
      (("skip_validation", VBool true) :: kwargs) w = (Ok e, w') ∧
    AidboxResource.getattr e "unknown_field" w' = (Raise unknown, w') ∧
    AidboxResource.getattr e "name" w' = (Ok (VStr "Jane"), w').
Proof.
  intros Ha Hs kwargs unknown.
  set (p := [("name", VStr "Jane"); ("unknown_field", VStr "x");
             ("resource_type", VStr "Patient")]).
  set (d0 := [("data", VDict []); ("aidbox", VSession s);
              ("resource_type", attr "resource_type" p)]).
  assert (Forall (λ kv : string * value, is_resource kv.2 = false) p)
    as Hjson by repeat constructor.
  assert (Aidbox._fetch_schema env s (attr "resource_type" p)
            (set_resources (λ h, h ++ [d0]) w) =
          (Ok {["id"; "name"; "birth_date"]},
           set_resources (λ h, h ++ [d0]) w)) as Hfetch.
  { eapply fetch_schema_hit; [exact Ha|reflexivity|exact Hs|set_solver]. }
  assert (root_attrs_of (sessions w)
            (d0 ++ [("meta", VDict [])]) = Ok {["id"; "name"; "birth_date"]})
    as Hroot.
  { unfold root_attrs_of. change (attr "aidbox" _) with (VSession s).
    simpl. rewrite Ha. simpl.
    change (attr "resource_type" _) with (VStr "Patient"). simpl.
    by rewrite Hs. }
  split.
  - change (AidboxResource.Aidbox_resource env s (VStr "Patient") kwargs w)
      with (AidboxResource.__init__ env s false p w).
    rewrite (resource_init_eq env s false p w Hjson).
    fold d0. rewrite Hfetch. cbv zeta.
    change (dict_del "meta" p) with p.
    change (default (VDict []) (dict_get "meta" p)) with (VDict []).
    simpl sessions. unfold p. cbn [init_loop_of].
    erewrite setattr_of_store;
      [|closed_name|exact Hroot|set_solver|reflexivity].
    rewrite (setattr_of_reject _ _ _ _ {["id"; "name"; "birth_date"]});
      [done|closed_name| |set_solver].
    rewrite <- Hroot. by apply root_attrs_of_ext.
  - change (AidboxResource.Aidbox_resource env s (VStr "Patient")
              (("skip_validation", VBool true) :: kwargs) w)
      with (AidboxResource.__init__ env s true p w).
    destruct (AidboxResource.__init__ env s true p w) as [r w'] eqn:Hinit.
    assert (∃ e, r = Ok e) as [e ->].
    { rewrite (resource_init_eq env s true p w Hjson) in Hinit.
      fold d0 in Hinit. rewrite Hfetch in Hinit. cbv zeta in Hinit.
      edestruct (init_loop_of_skip_total (sessions w) (dict_del "meta" p))
        as [d' Hd']; [exact Hroot|reflexivity| | |].
      - intros k Hk.
        change (dict_keys (dict_del "meta" p))
          with ["name"; "unknown_field"; "resource_type"] in Hk.
        repeat (apply elem_of_cons in Hk as [->|Hk]);
          [| | |by apply elem_of_nil in Hk];
          (split; [|split]); closed_name.
      - intros v Hv. change (attr "resource_type" _) with (VStr "Patient").
        revert Hv. unfold p. simpl. set_solver.
      - simpl sessions in Hinit.
        change (default (VDict []) (dict_get "meta" p)) with (VDict [])
          in Hinit.
        rewrite Hd' in Hinit. simpl in Hinit. injection Hinit as <- _.
        by eexists. }
    exists e, w'. split; [done|].
    apply resource_init_ok in Hinit
      as (-> & d' & attrs & Hres & _ & Hroot' & _ & _ & _ & Hget & Hunk & _
          & Hattrs);
      [|closed_name|done|closed_name..].
    assert (resources w' !! length (resources w) = Some d') as Hd'.
    { rewrite Hres. by rewrite lookup_app_r, Nat.sub_diag. }
    assert (attrs = {["id"; "name"; "birth_date"]}) as ->.
    { fold d0 in Hattrs. rewrite Hfetch in Hattrs. by injection Hattrs. }
    rewrite !(getattr_eq _ _ _ _ Hd'). split.
    + rewrite Hunk; [done|set_solver|closed_name].
    + erewrite Hget; [done|reflexivity|set_solver].
Qed.

Lemma patient_scenario_witness :
  let w := exec sample_env (CallFetchSchema 0 (VStr "Patient")) sample_world in
  let kwargs := [("name", VStr "Jane"); ("unknown_field", VStr "x")] in
  let unknown :=
    AidboxResourceFieldDoesNotExist "unknown_field" (VStr "Patient") in
  (AidboxResource.Aidbox_resource sample_env 0 (VStr "Patient") kwargs w).1 =
    Raise unknown ∧
  ∃ e w',
    AidboxResource.Aidbox_resource sample_env 0 (VStr "Patient")
      (("skip_validation", VBool true) :: kwargs) w = (Ok e, w') ∧
    AidboxResource.getattr e "unknown_field" w' = (Raise unknown, w') ∧
    AidboxResource.getattr e "name" w' = (Ok (VStr "Jane"), w').
Proof.
  intros w.
  eapply (patient_scenario sample_env w 0%nat).
  - reflexivity.
  - vm_compute. reflexivity.
Defined.

(** ** Search sets *)

Lemma dict_set_nonempty k v d : dict_set k v d ≠ [].
Proof. destruct d as [|[k' v'] d]; simpl; [done|]. by destruct (decide _). Qed.

(** A search set made from a dictionary that is not empty shares it. *)
Lemma searchset_init_shared aidbox t p w d :
  dicts w !! p = Some d → d ≠ [] →
  AidboxSearchSet.__init__ aidbox t (Some p) w =
    (Ok (length (searchsets w)),
     set_searchsets (λ h, h ++ [SearchSetObj aidbox t p]) w).
Proof.
  intros Hd Hne. unfold AidboxSearchSet.__init__.
  erewrite bind_ok; [done|].
  rewrite (bind_ok _ _ _ _ _ (deref_some dicts _ _ _ Hd)).
  by destruct d.
Qed.

(** The four chain methods in one lemma: the dictionary of [self] is
    updated in place and, not being empty, handed to the new search
    set. *)
Lemma chain_eq (f : pydict → pydict) self w ss d :
  searchsets w !! self = Some ss → dicts w !! ss_params ss = Some d →
  f d ≠ [] →
  (ss' ← deref searchsets self;
   modify (set_dicts (alter f (ss_params ss')));;
   AidboxSearchSet.__init__ (ss_aidbox ss') (ss_resource_type ss')
     (Some (ss_params ss'))) w =
    (Ok (length (searchsets w)),
     set_searchsets (λ h, h ++ [ss])
       (set_dicts (<[ss_params ss := f d]>) w)).
Proof.
  intros Hss Hd Hne.
  rewrite (bind_ok _ _ _ _ _ (deref_some searchsets _ _ _ Hss)).
  erewrite bind_ok; [|reflexivity].
  erewrite searchset_init_shared; [|simpl|exact Hne].
  - unfold set_searchsets, set_dicts.
    cbn [sent sessions dicts searchsets resources references].
    rewrite (alter_insert _ _ _ _ Hd). by destruct ss.
  - by rewrite list_lookup_alter_eq, Hd.
Qed.

Lemma limit_eq self v w ss d :
  searchsets w !! self = Some ss → dicts w !! ss_params ss = Some d →
  AidboxSearchSet.limit self v w =
    (Ok (length (searchsets w)),
     set_searchsets (λ h, h ++ [ss])
       (set_dicts (<[ss_params ss := dict_set "_count" v d]>) w)).
Proof.
  intros Hss Hd. apply (chain_eq (dict_set "_count" v)); auto.
  apply dict_set_nonempty.
Qed.

Lemma page_eq self v w ss d :
  searchsets w !! self = Some ss → dicts w !! ss_params ss = Some d →
  AidboxSearchSet.page self v w =
    (Ok (length (searchsets w)),
     set_searchsets (λ h, h ++ [ss])
       (set_dicts (<[ss_params ss := dict_set "_page" v d]>) w)).
Proof.
  intros Hss Hd. apply (chain_eq (dict_set "_page" v)); auto.
  apply dict_set_nonempty.
Qed.

Lemma search_eq self kwargs w ss d :
  searchsets w !! self = Some ss → dicts w !! ss_params ss = Some d →
  dict_update d kwargs ≠ [] →
  AidboxSearchSet.search self kwargs w =
    (Ok (length (searchsets w)),
     set_searchsets (λ h, h ++ [ss])
       (set_dicts (<[ss_params ss := dict_update d kwargs]>) w)).
Proof.
  intros Hss Hd Hne. by apply (chain_eq (λ d, dict_update d kwargs)).
Qed.

Lemma sort_eq self keys sort_keys w ss d :
  searchsets w !! self = Some ss → dicts w !! ss_params ss = Some d →
  match keys with
  | VList l => s ← str_join "," l; Ok (VStr s)
  | _ => Ok keys
  end = Ok sort_keys →
  AidboxSearchSet.sort self keys w =
    (Ok (length (searchsets w)),
     set_searchsets (λ h, h ++ [ss])
       (set_dicts (<[ss_params ss := dict_set "_sort" sort_keys d]>) w)).
Proof.
  intros Hss Hd Hk. unfold AidboxSearchSet.sort.
  rewrite (bind_ok _ _ _ _ _ (deref_some searchsets _ _ _ Hss)).
  rewrite Hk. unfold mbind at 1, M_bind, lift.
  pose proof (chain_eq (dict_set "_sort" sort_keys) self w ss d Hss Hd
                (dict_set_nonempty _ _ _)) as Hchain.
  rewrite (bind_ok _ _ _ _ _ (deref_some searchsets _ _ _ Hss)) in Hchain.
  exact Hchain.
Qed.

(** [all] sends the collection request with the parameters of [self] as
    they are at the call, then wraps the records in their order. *)
Lemma all_eq env self w ss params a :
  searchsets w !! self = Some ss → dicts w !! ss_params ss = Some params →
  sessions w !! ss_aidbox ss = Some a →
  let q := fetch_request a (ss_resource_type ss) (Some params) in
  AidboxSearchSet.all env self w =
    match fetch_result env (requests_get env (sent w) q) ≫= records_of with
    | Ok records =>
        mapM (from_payload env (ss_aidbox ss)) records
          (set_sent (λ s, s ++ [q]) w)
    | Raise e => (Raise e, set_sent (λ s, s ++ [q]) w)
    end.
Proof.
  intros Hss Hd Ha q. unfold AidboxSearchSet.all.
  rewrite (bind_ok _ _ _ _ _ (deref_some searchsets _ _ _ Hss)).
  rewrite (bind_ok _ _ _ _ _ (deref_some dicts _ _ _ Hd)).
  unfold mbind at 1, M_bind. rewrite (fetch_resource_eq _ _ _ _ _ _ Ha).
  fold q. destruct (fetch_result _ _) as [res_data|e]; simpl; [|done].
  unfold records_of, mbind at 1 2 3, M_bind, lift. simpl.
  destruct (subscript res_data "entry") as [entry|]; simpl; [|done].
  destruct (py_iter entry) as [entries|]; simpl; [|done].
  by destruct (mapM _ entries).
Qed.

Lemma count_eq env self w ss a :
  searchsets w !! self = Some ss → sessions w !! ss_aidbox ss = Some a →
  let q := fetch_request a (ss_resource_type ss)
             (Some [("_count", VInt 1); ("_totalMethod", VStr "count")]) in
  AidboxSearchSet.count env self w =
    (r ← fetch_result env (requests_get env (sent w) q); subscript r "total",
     set_sent (λ s, s ++ [q]) w).
Proof.
  intros Hss Ha q. unfold AidboxSearchSet.count.
  rewrite (bind_ok _ _ _ _ _ (deref_some searchsets _ _ _ Hss)).
  unfold mbind at 1, M_bind. rewrite (fetch_resource_eq _ _ _ _ _ _ Ha).
  fold q. by destruct (fetch_result _ _).
Qed.

(** What a chain method leaves behind. *)
Lemma chain_post w ss d d' :
  dicts w !! ss_params ss = Some d →
  let w' := set_searchsets (λ h, h ++ [ss])
              (set_dicts (<[ss_params ss := d']>) w) in
  searchsets w' !! length (searchsets w) = Some ss ∧
  dicts w' !! ss_params ss = Some d' ∧
  params_of (length (searchsets w)) w' = Some d'.
Proof.
  intros Hd w'.
  assert (searchsets w' !! length (searchsets w) = Some ss) as Hss.
  { simpl. by rewrite lookup_app_r, Nat.sub_diag. }
  assert (dicts w' !! ss_params ss = Some d') as Hd'.
  { simpl. apply list_lookup_insert_eq. by eapply lookup_lt_Some. }
  split; [done|]. split; [done|]. unfold params_of. by rewrite Hss.
Qed.

Global Instance only_schema_requests_preorder : PreOrder only_schema_requests.
Proof.
  split.
  - intros w. exists []. by rewrite app_nil_r.
  - intros w1 w2 w3 (r1 & E1 & H1) (r2 & E2 & H2). exists (r1 ++ r2).
    split; [by rewrite E2, E1, app_assoc|by apply Forall_app].
Qed.

Lemma only_schema_requests_unchanged w w' :
  sent w' = sent w → sessions w' = sessions w → only_schema_requests w w'.
Proof. intros E _. exists []. by rewrite app_nil_r. Qed.

Lemma fetch_schema_only_schema_requests env s t :
  respects only_schema_requests (Aidbox._fetch_schema env s t).
Proof.
  intros w. destruct (sessions w !! s) as [a|] eqn:Ha; cycle 1.
  { unfold Aidbox._fetch_schema.
    rewrite (bind_raise _ _ _ _ _ (deref_none sessions _ _ Ha)).
    reflexivity. }
  destruct (to_key t) as [k|] eqn:Hk; cycle 1.
  { unfold Aidbox._fetch_schema.
    rewrite (bind_ok _ _ _ _ _ (deref_some sessions _ _ _ Ha)).
    rewrite Hk. simpl. reflexivity. }
  assert (only_schema_requests w
            (set_sent (λ s0, s0 ++ [schema_request a t]) w)) as Hsent.
  { exists [schema_request a t]. split; [done|].
    apply Forall_singleton. by exists a, t. }
  destruct (schema a !! k) as [attrs|] eqn:Hs;
    [destruct (decide (attrs = ∅)) as [->|Hne]|].
  2:{ rewrite (fetch_schema_hit _ _ _ _ _ _ _ Ha Hk Hs Hne). reflexivity. }
  all: rewrite (fetch_schema_miss _ _ _ _ _ _ Ha Hk) by auto.
  all: by destruct (fetch_result _ _ ≫= _).
Qed.

Lemma from_payload_only_schema_requests env s payload :
  respects only_schema_requests (from_payload env s payload).
Proof.
  apply from_payload_respects;
    [typeclasses eauto|apply only_schema_requests_unchanged|].
  apply fetch_schema_only_schema_requests.
Qed.

(** ** The count of a filtered search set *)

(** C1, on the sample server, for the search set of the active patients:
    the one request [count] sends carries the page size and the count
    flag but not the filter [status], so the total it returns, the one
    the server reports, is that of the whole collection. *)
Theorem count_drops_the_filters :
  let w0 := (AidboxSearchSet.Aidbox_resources 0 "Patient" sample_world).2 in
  let w1 := (AidboxSearchSet.search 0 [("status", VStr "active")] w0).2 in
  let w2 := (AidboxSearchSet.count sample_env 1 w1).2 in
  params_of 1 w1 = Some [("status", VStr "active")] ∧
  (AidboxSearchSet.count sample_env 1 w1).1 = Ok (VInt 7) ∧
  sent w2 =
    [Request "http://h/Patient"
       (Some [("_count", VInt 1); ("_totalMethod", VStr "count")])
       "Bearer tok"].
Proof. by vm_compute. Qed.

(** ** Chaining *)

(** C2, on the sample session: [limit] returns a new search set, but it
    has written the page size into the dictionary of the original, and
    the two hold the same dictionary, so that a later [limit] on the
    original changes what the first copy will send. *)
Theorem chain_writes_into_the_original :
  let w0 := (AidboxSearchSet.Aidbox_resources 0 "Patient" sample_world).2 in
  let w1 := (AidboxSearchSet.limit 0 (VInt 5) w0).2 in
  let w2 := (AidboxSearchSet.limit 0 (VInt 10) w1).2 in
  params_of 0 w0 = Some [] ∧
  (AidboxSearchSet.limit 0 (VInt 5) w0).1 = Ok 1%nat ∧
  params_of 0 w1 = Some [("_count", VInt 5)] ∧
  params_of 1 w1 = Some [("_count", VInt 5)] ∧
  (AidboxSearchSet.limit 0 (VInt 10) w1).1 = Ok 2%nat ∧
  params_of 1 w2 = Some [("_count", VInt 10)] ∧
  sent (AidboxSearchSet.all sample_env 1 w2).2 !! 0%nat =
    Some (Request "http://h/Patient" (Some [("_count", VInt 10)])
            "Bearer tok").
Proof. by vm_compute. Qed.

(** ** Wrapping the records of a collection *)

Lemma from_payload_ok env s p w e w' :
  NoDup (dict_keys p) →
  Forall (λ kv, is_resource kv.2 = false) p →
  "data" ∉ dict_keys p → "__dict__" ∉ dict_keys p →
  from_payload env s (VDict p) w = (Ok e, w') →
  AidboxResource.__init__ env s true p w = (Ok e, w') ∧
  ("aidbox" ∉ dict_keys p) ∧ ("skip_validation" ∉ dict_keys p).
Proof.
  intros Hnd Hjson Hdata Hdict. rewrite from_payload_eq.
  destruct (decide _) as [|Hkeys]; [done|]. naive_solver.
Qed.

(** A wrapped record is a new resource, last in the heap. *)
Lemma from_payload_appends env s payload w e w' :
  json_record payload →
  from_payload env s payload w = (Ok e, w') →
  e = length (resources w) ∧ ∃ d, resources w' = resources w ++ [d].
Proof.
  intros Hjson. rewrite from_payload_eq.
  destruct payload as [| | | | |p| | |]; try done.
  destruct (decide _); [done|].
  rewrite (resource_init_eq env s true p w (Hjson p eq_refl)).
  match goal with
  | |- context [Aidbox._fetch_schema env s ?t ?w0] =>
      pose proof (fetch_schema_same_objects env s t w0) as (_ & _ & Hres & _);
      destruct (Aidbox._fetch_schema env s t w0) as [[attrs|e0] w1]; [|done]
  end.
  cbv zeta. simpl in Hres.
  destruct (init_loop_of _ _ _ _) as [[[]|e0] d]; [|done].
  simpl. intros [= <- <-]. split; [done|]. exists d. simpl.
  by rewrite Hres, insert_app_last.
Qed.

Lemma root_attrs_of_cache_le w w' d attrs :
  cache_le w w' → root_attrs_of (sessions w) d = Ok attrs → attrs ≠ ∅ →
  root_attrs_of (sessions w') d = Ok attrs.
Proof.
  intros Hle. unfold root_attrs_of.
  destruct (attr "aidbox" d) as [| | | | | |s| |]; try done.
  destruct (sessions w !! s) as [a|] eqn:Ha; simpl; [|done].
  destruct (Hle s a Ha) as (a' & -> & _ & _ & Hs). simpl.
  destruct (to_key _) as [k|]; simpl; [|done].
  destruct (schema a !! k) as [attrs'|] eqn:Hk; simpl; [|done].
  intros [= ->] Hne. by rewrite (Hs k attrs Hk Hne).
Qed.

Lemma getattr_of_sessions ss ss' k d :
  root_attrs_of ss' d = root_attrs_of ss d →
  getattr_of ss' k d = getattr_of ss k d.
Proof.
  intros E. unfold getattr_of, getattr_hook_of. by rewrite E.
Qed.

Lemma mapM_from_payload_cache_le env s records w :
  cache_le w (mapM (from_payload env s) records w).2.
Proof.
  apply (respects_mapM cache_step (from_payload env s) records
           (from_payload_cache_step env s) w).
Qed.

(** The resources [all] returns for the records of a collection: one new
    instance per record, in the order of the records, each reading back
    the fields of its record that the schema knows. *)
Lemma wrap_records env s records : ∀ w es w',
  Forall json_record records →
  mapM (from_payload env s) records w = (Ok es, w') →
  es = seq (length (resources w)) (length records) ∧
  ∃ ds, resources w' = resources w ++ ds ∧ length ds = length records ∧
    ∀ i p d, records !! i = Some (VDict p) → ds !! i = Some d →
      NoDup (dict_keys p) → "data" ∉ dict_keys p → "__dict__" ∉ dict_keys p →
      ∃ attrs, root_attrs_of (sessions w') d = Ok attrs ∧
        ∀ k v, dict_get k p = Some v → k ∈ attrs →
               getattr_of (sessions w') k d = Ok v.
Proof.
  induction records as [|payload records IH]; intros w es w' Hjson.
  { intros [= <- <-]. split; [done|]. exists []. rewrite app_nil_r.
    split; [done|]. split; [done|]. intros i p d Hi. by destruct i. }
  apply Forall_cons in Hjson as [Hj Hjson].
  cbn [mapM]. unfold mbind at 1, M_bind.
  destruct (from_payload env s payload w) as [[e|?] w1] eqn:Hhead; [|done].
  unfold mbind at 1, M_bind.
  pose proof (mapM_from_payload_cache_le env s records w1) as Hle.
  destruct (mapM (from_payload env s) records w1) as [[es'|?] w2] eqn:Htail;
    [|done].
  intros [= <- <-].
  destruct (from_payload_appends _ _ _ _ _ _ Hj Hhead) as (-> & d0 & Hres1).
  destruct (IH _ _ _ Hjson Htail) as (-> & ds & Hres2 & Hlen & Hds).
  split.
  { simpl. f_equal. rewrite Hres1, length_app. simpl.
    by rewrite Nat.add_1_r. }
  exists (d0 :: ds). split; [by rewrite Hres2, Hres1, <- app_assoc|].
  split; [simpl; by rewrite Hlen|].
  intros [|i] p d Hi Hd Hnd Hdata Hdict; simpl in Hi, Hd; [|by eapply Hds].
  injection Hi as ->. injection Hd as <-.
  destruct (from_payload_ok _ _ _ _ _ _ Hnd (Hj p eq_refl) Hdata Hdict Hhead)
    as (Hinit & Haid & _).
  apply resource_init_ok in Hinit
    as (_ & d' & attrs & Hres & _ & Hroot & Hne & _ & _ & Hget & _);
    [|done|by apply Hj|done..].
  assert (d' = d0) as ->.
  { rewrite Hres in Hres1. by apply app_inv_head in Hres1 as [= ->]. }
  simpl in Hle.
  pose proof (root_attrs_of_cache_le _ _ _ _ Hle Hroot Hne) as Hroot2.
  exists attrs. split; [done|]. intros k v Hv Hin.
  rewrite (getattr_of_sessions (sessions w1)) by congruence. eauto.
Qed.

(** ** The Jane query *)

(** The chain of C5 sends nothing and leaves a search set that holds the
    three parameters, in the order they were given. *)
Lemma jane_query_eq s t w :
  ∃ b w1,
    jane_query s t w = (Ok b, w1) ∧
    params_of b w1 = Some jane_params ∧
    (∃ p, searchsets w1 !! b = Some (SearchSetObj s t p)) ∧
    sent w1 = sent w ∧ sessions w1 = sessions w ∧
    resources w1 = resources w.
Proof.
  set (ss := SearchSetObj s t (length (dicts w))).
  set (w0 := set_searchsets (λ h, h ++ [ss]) (set_dicts (λ h, h ++ [[]]) w)).
  assert (searchsets w0 !! length (searchsets w) = Some ss) as Hss0.
  { simpl. by rewrite lookup_app_r, Nat.sub_diag. }
  assert (dicts w0 !! ss_params ss = Some []) as Hd0.
  { simpl. by rewrite lookup_app_r, Nat.sub_diag. }
  unfold jane_query.
  rewrite (bind_ok _ _ w (length (searchsets w)) w0) by done.
  erewrite bind_ok; [|by apply (search_eq _ _ _ ss [])].
  destruct (chain_post w0 ss []
              (dict_update [] [("name", VStr "Jane")]) Hd0)
    as (Hss1 & Hd1 & _).
  erewrite bind_ok; [|by eapply limit_eq].
  match type of Hd1 with
  | dicts ?w1 !! _ = Some ?d1 =>
      destruct (chain_post w1 ss d1 (dict_set "_count" (VInt 5) d1) Hd1)
        as (Hss2 & Hd2 & _)
  end.
  erewrite sort_eq; [|exact Hss2|exact Hd2|reflexivity].
  match type of Hd2 with
  | dicts ?w2 !! _ = Some ?d2 =>
      destruct (chain_post w2 ss d2
                  (dict_set "_sort" (VStr "-birth_date,name") d2) Hd2)
        as (Hss3 & Hd3 & Hp3)
  end.
  eexists _, _. split; [reflexivity|]. split; [exact Hp3|].
  split; [by eexists|]. done.
Qed.

Lemma from_payload_warm env s a v w :
  sessions w !! s = Some a → warm_record a v →
  ∃ w', from_payload env s v w = (Ok (length (resources w)), w') ∧
        sent w' = sent w ∧ sessions w' = sessions w.
Proof.
  intros Ha (p & k & attrs & -> & Hnd & Hjson & Hkeys & Hk & Hs & Hne).
  set (w0 := set_resources
               (λ h, h ++ [[("data", VDict []); ("aidbox", VSession s);
                            ("resource_type", attr "resource_type" p)]]) w).
  assert (Aidbox._fetch_schema env s (attr "resource_type" p) w0 =
            (Ok attrs, w0)) as Hfetch
    by (by eapply fetch_schema_hit).
  destruct (from_payload_returns env s p w attrs w0 Hnd Hjson Hkeys Hfetch)
    as [w' Hcall].
  exists w'. split; [done|].
  rewrite from_payload_eq in Hcall.
  destruct (decide _); [done|].
  rewrite (resource_init_eq env s true p w Hjson) in Hcall.
  fold w0 in Hcall. rewrite Hfetch in Hcall. cbv zeta in Hcall.
  by injection Hcall as _ <-.
Qed.

Lemma wrap_records_warm env s a records : ∀ w,
  sessions w !! s = Some a → Forall (warm_record a) records →
  ∃ es w', mapM (from_payload env s) records w = (Ok es, w') ∧
           sent w' = sent w ∧ sessions w' = sessions w.
Proof.
  induction records as [|v records IH]; intros w Ha Hwarm.
  { by eexists [], w. }
  apply Forall_cons in Hwarm as [Hv Hwarm].
  destruct (from_payload_warm env s a v w Ha Hv) as (w1 & Hhead & Hs1 & Hss1).
  destruct (IH w1) as (es & w' & Htail & Hs2 & Hss2); [congruence|done|].
  exists (length (resources w) :: es), w'. cbn [mapM].
  rewrite (bind_ok _ _ _ _ _ Hhead), (bind_ok _ _ _ _ _ Htail).
  split; [done|]. split; congruence.
Qed.

Lemma mapM_length {A B} (f : A → M B) l : ∀ w bs w',
  mapM f l w = (Ok bs, w') → length bs = length l.
Proof.
  induction l as [|x l IH]; intros w bs w'; [by intros [= <- _]|].
  cbn [mapM]. unfold mbind at 1, M_bind.
  destruct (f x w) as [[y|?] w1]; [|done].
  unfold mbind at 1, M_bind.
  destruct (mapM f l w1) as [[ys|?] w2] eqn:E; [|done].
  intros [= <- _]. simpl. f_equal. by eapply IH.
Qed.

(** C5. The chain [search(name="Jane").limit(5).sort(["-birth_date",
    "name"])] on a new search set sends nothing.  [all] then sends the
    collection request with the parameters
    [{name: "Jane", _count: 5, _sort: "-birth_date,name"}]; whatever else
    it sends is an attribute query of the schema resolver, and nothing
    at all when the schemas of the records are in the cache, in which
    case it returns.  The resources it returns are new instances, one per
    record in the order of the answer, and each reads back the fields of
    its record. *)
Theorem jane_query_all env w s a t :
  sessions w !! s = Some a →
  ∃ b w1,
    jane_query s t w = (Ok b, w1) ∧ sent w1 = sent w ∧
    params_of b w1 = Some jane_params ∧
    let q := fetch_request a t (Some jane_params) in
    let answer := fetch_result env (requests_get env (sent w) q)
                    ≫= records_of in
    ∀ r w2, AidboxSearchSet.all env b w1 = (r, w2) →
      (∃ rest, sent w2 = sent w ++ q :: rest ∧
               Forall is_schema_request rest) ∧
      (∀ records, answer = Ok records → Forall (warm_record a) records →
         sent w2 = sent w ++ [q] ∧ ∃ es, r = Ok es) ∧
      (∀ es, r = Ok es →
         ∃ records,
           answer = Ok records ∧ length es = length records ∧
           (Forall json_record records →
            es = seq (length (resources w)) (length records) ∧
            ∀ i e p, es !! i = Some e → records !! i = Some (VDict p) →
              NoDup (dict_keys p) →
              "data" ∉ dict_keys p → "__dict__" ∉ dict_keys p →
              ∃ attrs,
                AidboxResource.root_attrs e w2 = (Ok attrs, w2) ∧
                ∀ k v, dict_get k p = Some v → k ∈ attrs →
                       AidboxResource.getattr e k w2 = (Ok v, w2))).
Proof.
  intros Ha.
  destruct (jane_query_eq s t w)
    as (b & w1 & Hq & Hp & (p & Hb) & Hsent & Hsess & Hres).
  exists b, w1. split; [done|]. split; [done|]. split; [done|].
  intros q answer r w2.
  assert (dicts w1 !! p = Some jane_params) as Hd.
  { unfold params_of in Hp. by rewrite Hb in Hp. }
  rewrite (all_eq env b w1 _ _ a Hb Hd) by (simpl; congruence).
  simpl ss_resource_type. simpl ss_aidbox. rewrite Hsent. fold q answer.
  set (wq := set_sent (λ s0, s0 ++ [q]) w1).
  destruct answer as [records|e] eqn:Hans.
  2:{ intros [= <- <-]. split; [|split; [done|done]].
      exists []. simpl. rewrite Hsent. split; [done|constructor]. }
  intros Hall.
  pose proof (respects_mapM only_schema_requests (from_payload env s) records
                (from_payload_only_schema_requests env s) wq) as Hreq.
  rewrite Hall in Hreq. destruct Hreq as (rest & Hrest & Hschema).
  simpl in Hrest. rewrite Hsent in Hrest.
  split; [|split].
  - exists rest. split; [by rewrite Hrest, <- app_assoc|done].
  - intros ? [= <-] Hwarm.
    destruct (wrap_records_warm env s a records wq) as (es & w' & E & Hs' & _);
      [simpl; congruence|done|].
    rewrite E in Hall. injection Hall as <- <-.
    split; [|by eexists]. rewrite Hs'. simpl. by rewrite Hsent.
  - intros es ->. exists records. split; [done|].
    split; [by eapply mapM_length|]. intros Hjson.
    assert (resources wq = resources w) as Hwq by done.
    destruct (wrap_records env s records wq es w2 Hjson Hall)
      as (-> & ds & Hds & Hlen & Hrec).
    rewrite Hwq in Hds |- *. split; [done|].
    intros i e p0 Hi Hp0 Hnd Hdata Hdict.
    apply lookup_seq in Hi as [-> Hi].
    destruct (lookup_lt_is_Some_2 ds i) as [d Hd']; [lia|].
    destruct (Hrec i p0 d Hp0 Hd' Hnd Hdata Hdict) as (attrs & Hroot & Hget).
    assert (resources w2 !! (length (resources w) + i)%nat = Some d) as He.
    { rewrite Hds, lookup_app_r by lia.
      by replace (length (resources w) + i - length (resources w))%nat
        with i by lia. }
    exists attrs. split.
    + by rewrite (root_attrs_eq _ _ _ He), Hroot.
    + intros k v Hv Hin. rewrite (getattr_eq _ _ _ _ He). by erewrite Hget.
Qed.

Lemma jane_query_all_witness :
  ∃ b w1,
    jane_query 0 "Patient" sample_world = (Ok b, w1) ∧
    sent w1 = sent sample_world ∧
    params_of b w1 = Some jane_params ∧
    let q := fetch_request (AidboxObj "http://h" "tok" ∅) "Patient"
               (Some jane_params) in
    let answer :=
      fetch_result sample_env (requests_get sample_env (sent sample_world) q)
        ≫= records_of in
    ∀ r w2, AidboxSearchSet.all sample_env b w1 = (r, w2) →
      (∃ rest, sent w2 = sent sample_world ++ q :: rest ∧
               Forall is_schema_request rest) ∧
      (∀ records, answer = Ok records →
         Forall (warm_record (AidboxObj "http://h" "tok" ∅)) records →
         sent w2 = sent sample_world ++ [q] ∧ ∃ es, r = Ok es) ∧
      (∀ es, r = Ok es →
         ∃ records,
           answer = Ok records ∧ length es = length records ∧
           (Forall json_record records →
            es = seq (length (resources sample_world)) (length records) ∧
            ∀ i e p, es !! i = Some e → records !! i = Some (VDict p) →
              NoDup (dict_keys p) →
              "data" ∉ dict_keys p → "__dict__" ∉ dict_keys p →
              ∃ attrs,
                AidboxResource.root_attrs e w2 = (Ok attrs, w2) ∧
                ∀ k v, dict_get k p = Some v → k ∈ attrs →
                       AidboxResource.getattr e k w2 = (Ok v, w2))).
Proof.
  apply (jane_query_all sample_env sample_world 0%nat
           (AidboxObj "http://h" "tok" ∅) "Patient").
  reflexivity.
Defined.

(** ** What a computation can raise *)

Section RaisesOnly.
Context (P : exn → Prop).

Lemma raises_only_ret {A} (a : A) : raises_only P (mret a).
Proof. by intros w e w'. Qed.

Lemma raises_only_raise {A} e : P e → raises_only P (@raise A e).
Proof. by intros He w e' w' [= <- _]. Qed.

Lemma raises_only_lift {A} (r : result A) :
  (∀ e, r = Raise e → P e) → raises_only P (lift r).
Proof. intros Hr w e w' [= -> _]. by apply Hr. Qed.

Lemma raises_only_deref {A} (heap : world → list A) l :
  P Unmodelled → raises_only P (deref heap l).
Proof.
  intros HP w e w'. unfold deref. destruct (heap w !! l); [done|].
  by intros [= <- _].
Qed.

Lemma raises_only_bind {A B} (m : M A) (f : A → M B) :
  raises_only P m → (∀ a, raises_only P (f a)) → raises_only P (m ≫= f).
Proof.
  intros Hm Hf w e w'. unfold mbind, M_bind.
  destruct (m w) as [[a|e0] w1] eqn:E.
  - apply Hf.
  - intros [= <- <-]. by eapply Hm.
Qed.

Lemma raises_only_catch {A} (m : M A) h :
  (∀ w e w', m w = (Raise e, w') → h e = None → P e) →
  (∀ e handler, h e = Some handler → raises_only P handler) →
  raises_only P (catch m h).
Proof.
  intros Hm Hh w e w'. unfold catch.
  destruct (m w) as [[a|e0] w1] eqn:E; [done|].
  destruct (h e0) as [handler|] eqn:E'.
  - by eapply Hh.
  - intros [= <- <-]. by eapply Hm.
Qed.

Lemma raises_only_for_each {A} (f : A → M ()) l :
  (∀ x, raises_only P (f x)) → raises_only P (for_each f l).
Proof.
  intros Hf. induction l as [|x l IH]; simpl.
  - apply raises_only_ret.
  - apply raises_only_bind; auto.
Qed.
End RaisesOnly.

(** Nothing but [_fetch_resource] raises the errors of a fetch. *)
Ltac not_fetch_error :=
  unfold fetch_error; intros [?|[?|[?|?]]]; discriminate.

Ltac raises_step :=
  first
    [ assumption
    | solve [auto with raises]
    | by intros ? ? ?
    | apply raises_only_raise; not_fetch_error
    | apply raises_only_deref; not_fetch_error
    | apply raises_only_lift; intros ? [= <-]; not_fetch_error
    | apply raises_only_bind; [|intros ?]
    | apply raises_only_for_each; intros ?
    | match goal with
      | |- raises_only _ (match ?x with _ => _ end) => destruct x
      | |- raises_only _ (if ?x then _ else _) => destruct x
      end ].

Create HintDb raises discriminated.

Lemma root_attrs_raises self :
  raises_only (λ e, ¬ fetch_error e) (AidboxResource.root_attrs self).
Proof.
  unfold AidboxResource.root_attrs. repeat raises_step.
  - apply raises_only_lift. intros e. destruct (to_key _); [done|].
    intros [= <-]. not_fetch_error.
  - apply raises_only_lift. intros e. destruct (_ !! _); [done|].
    intros [= <-]. not_fetch_error.
Qed.
#[export] Hint Resolve root_attrs_raises : raises.

Lemma getattr_hook_raises self key :
  raises_only (λ e, ¬ fetch_error e) (AidboxResource.__getattr__ self key).
Proof. unfold AidboxResource.__getattr__. repeat raises_step. Qed.
#[export] Hint Resolve getattr_hook_raises : raises.

Lemma getattr_raises self key :
  raises_only (λ e, ¬ fetch_error e) (AidboxResource.getattr self key).
Proof. unfold AidboxResource.getattr. repeat raises_step. Qed.
#[export] Hint Resolve getattr_raises : raises.

Lemma reference_raises self :
  raises_only (λ e, ¬ fetch_error e) (AidboxResource.reference self).
Proof.
  unfold AidboxResource.reference, AidboxReference.__init__.
  repeat raises_step.
Qed.
#[export] Hint Resolve reference_raises : raises.

Lemma setattr_raises self key v :
  raises_only (λ e, ¬ fetch_error e) (AidboxResource.__setattr__ self key v).
Proof.
  unfold AidboxResource.__setattr__, AidboxResource.object_setattr,
    AidboxResource.dir.
  repeat raises_step.
Qed.
#[export] Hint Resolve setattr_raises : raises.

(** A construction raises an error of a fetch only when the attribute
    query of its schema was answered with it. *)
Lemma resource_init_fetch_error env s a skip kwargs w e w' :
  sessions w !! s = Some a →
  AidboxResource.__init__ env s skip kwargs w = (Raise e, w') →
  fetch_error e →
  fetch_result env
    (requests_get env (sent w)
       (schema_request a (attr "resource_type" kwargs))) = Raise e.
Proof.
  intros Ha Hcall He.
  destruct (resource_init_prefix env s skip kwargs w) as [Heq _].
  rewrite Heq in Hcall. clear Heq.
  destruct (Aidbox._fetch_schema _ _ _ _) as [[attrs|e0] w1] eqn:Hfetch.
  - exfalso. revert He.
    eapply (raises_only_bind (λ e, ¬ fetch_error e)); [| |exact Hcall].
    + apply raises_only_for_each. intros [key v].
      apply raises_only_catch.
      * intros w0 e0 w0' Hset _. by eapply setattr_raises.
      * intros [] handler [= <-]. destruct skip; repeat raises_step.
    + intros []. repeat raises_step.
  - injection Hcall as -> _.
    apply fetch_schema_raise in Hfetch as [->|[Hl|(a' & Ha' & e' & He' & ->)]].
    + revert He. not_fetch_error.
    + destruct Hl as [-> | [-> | ->]]; revert He; not_fetch_error.
    + simpl in Ha'. by assert (a' = a) as -> by congruence.
Qed.

(** ** Fetching one record *)

Lemma dict_set_del_get k v (p : pydict) k0 :
  dict_get k p = Some v →
  dict_get k0 (dict_set k v (dict_del k p)) = dict_get k0 p.
Proof.
  intros Hv. destruct (decide (k0 = k)) as [->|Hne].
  - by rewrite dict_get_set_eq.
  - by rewrite dict_get_set_ne, dict_get_del_ne.
Qed.

Lemma dict_set_del_keys k v (p : pydict) k0 :
  dict_get k p = Some v →
  k0 ∈ dict_keys (dict_set k v (dict_del k p)) ↔ k0 ∈ dict_keys p.
Proof.
  intros Hv. rewrite dict_keys_set, dict_keys_del.
  apply dict_get_Some_keys in Hv.
  destruct (decide (k0 = k)) as [->|]; naive_solver.
Qed.

Lemma dict_set_notin k v (d : pydict) :
  k ∉ dict_keys d → dict_set k v d = d ++ [(k, v)].
Proof.
  unfold dict_keys. induction d as [|[k' v'] d IH]; simpl; [done|].
  rewrite not_elem_of_cons. intros [Hne Hd].
  rewrite decide_False by done. by rewrite IH.
Qed.

Lemma dict_set_del_NoDup k v (p : pydict) :
  NoDup (dict_keys p) → NoDup (dict_keys (dict_set k v (dict_del k p))).
Proof.
  intros Hnd.
  assert (k ∉ dict_keys (dict_del k p)) as Hk
    by (rewrite dict_keys_del; naive_solver).
  rewrite dict_set_notin by done.
  unfold dict_keys in *. rewrite fmap_app. apply NoDup_app.
  split; [by apply dict_del_NoDup|]. split; [|apply NoDup_singleton].
  intros k0 Hin. simpl. rewrite list_elem_of_singleton. by intros ->.
Qed.

Lemma dict_set_del_Forall (P : string * value → Prop) k v (p : pydict) :
  dict_get k p = Some v → Forall P p →
  Forall P (dict_set k v (dict_del k p)).
Proof.
  intros Hv HP.
  assert (k ∉ dict_keys (dict_del k p)) as Hk
    by (rewrite dict_keys_del; naive_solver).
  rewrite dict_set_notin by done. apply Forall_app.
  split; [by apply Forall_dict_del|]. apply Forall_singleton.
  clear Hk. induction HP as [|[k' v'] p Hx Hp IH]; simpl in Hv; [done|].
  destruct (decide (k = k')) as [->|]; [by injection Hv as <-|auto].
Qed.

(** The keywords [get] passes on: [aidbox.resource] takes
    [resource_type] out and puts it back last. *)
Lemma get_wrap_eq env s p w :
  (kw ← lift (star_kwargs [("skip_validation", VBool true)] (VDict p));
   AidboxResource.call_Aidbox_resource env s kw) w =
    if decide ("skip_validation" ∈ dict_keys p ∨ "self" ∈ dict_keys p ∨
               "aidbox" ∈ dict_keys p)
    then (Raise TypeError, w)
    else match dict_get "resource_type" p with
         | Some t =>
             AidboxResource.__init__ env s true
               (dict_set "resource_type" t (dict_del "resource_type" p)) w
         | None => (Raise TypeError, w)
         end.
Proof.
  unfold star_kwargs.
  destruct (decide (Exists _ _)) as [Hex|Hex].
  { rewrite decide_True; [done|]. left.
    apply Exists_cons in Hex as [Hex|Hex]; [done|by apply Exists_nil in Hex]. }
  assert ("skip_validation" ∉ dict_keys p) as Hskip.
  { intros Hin. apply Hex. by apply Exists_cons_hd. }
  unfold mbind, M_bind, lift. simpl.
  unfold AidboxResource.call_Aidbox_resource.
  assert (∀ k l, k ≠ "skip_validation" →
            k ∈ dict_keys (("skip_validation", VBool true) :: l) ↔
            k ∈ dict_keys l) as Hkeys.
  { intros k l Hk. unfold dict_keys. simpl. rewrite elem_of_cons.
    naive_solver. }
  destruct (decide ("self" ∈ dict_keys p)) as [Hself|Hself].
  { rewrite decide_True by (by apply Hkeys).
    rewrite decide_True; [done|auto]. }
  rewrite decide_False by (by rewrite Hkeys).
  simpl. destruct (dict_get "resource_type" p) as [t|] eqn:Ht;
    [|by destruct (decide _)].
  unfold AidboxResource.Aidbox_resource, AidboxResource.new. simpl.
  destruct (decide ("aidbox" ∈ dict_keys p)) as [Haid|Haid].
  { rewrite decide_True; [|right; apply Hkeys; [done|];
                           by apply (dict_set_del_keys _ _ _ _ Ht)].
    rewrite decide_True; [done|auto]. }
  rewrite decide_False.
  2:{ rewrite !elem_of_cons, !(dict_set_del_keys _ _ _ _ Ht).
      naive_solver. }
  rewrite decide_False by naive_solver.
  simpl. rewrite dict_del_notin; [done|].
  rewrite (dict_set_del_keys _ _ _ _ Ht). done.
Qed.

Lemma get_eq env self id w ss a :
  searchsets w !! self = Some ss → sessions w !! ss_aidbox ss = Some a →
  let q := fetch_request a (ss_resource_type ss +:+ "/" +:+ id) None in
  AidboxSearchSet.get env self id w =
    match fetch_result env (requests_get env (sent w) q) with
    | Ok res_data =>
        (kw ← lift (star_kwargs [("skip_validation", VBool true)] res_data);
         AidboxResource.call_Aidbox_resource env (ss_aidbox ss) kw)
          (set_sent (λ s, s ++ [q]) w)
    | Raise e => (Raise e, set_sent (λ s, s ++ [q]) w)
    end.
Proof.
  intros Hss Ha q. unfold AidboxSearchSet.get.
  rewrite (bind_ok _ _ _ _ _ (deref_some searchsets _ _ _ Hss)).
  unfold mbind at 1, M_bind. rewrite (fetch_resource_eq _ _ _ _ _ _ Ha).
  fold q. by destruct (fetch_result _ _).
Qed.

(** The resolver does not look at the resources. *)
Lemma fetch_schema_set_resources env s t f w :
  Aidbox._fetch_schema env s t (set_resources f w) =
    ((Aidbox._fetch_schema env s t w).1,
     set_resources f (Aidbox._fetch_schema env s t w).2).
Proof.
  destruct (sessions w !! s) as [a|] eqn:Ha; cycle 1.
  { unfold Aidbox._fetch_schema.
    rewrite (bind_raise _ _ w Unmodelled w) by (by apply deref_none).
    by rewrite (bind_raise _ _ (set_resources f w) Unmodelled
                  (set_resources f w)) by (by apply deref_none). }
  destruct (to_key t) as [k|] eqn:Hk; cycle 1.
  { unfold Aidbox._fetch_schema.
    rewrite (bind_ok _ _ w a w) by (by apply deref_some).
    rewrite (bind_ok _ _ (set_resources f w) a (set_resources f w))
      by (by apply deref_some).
    by rewrite Hk. }
  destruct (schema a !! k) as [attrs|] eqn:Hs;
    [destruct (decide (attrs = ∅)) as [->|Hne]|].
  2:{ rewrite (fetch_schema_hit _ _ _ w _ _ _ Ha Hk Hs Hne).
      by rewrite (fetch_schema_hit _ _ _ (set_resources f w) _ _ _
                    Ha Hk Hs Hne). }
  all: rewrite (fetch_schema_miss _ _ _ w _ _ Ha Hk) by auto.
  all: rewrite (fetch_schema_miss _ _ _ (set_resources f w) _ _ Ha Hk)
         by auto.
  all: simpl; by destruct (fetch_result _ _ ≫= _).
Qed.

(** In skip-validation mode [__init__] returns as soon as the schema of
    the type resolves, when the keywords are JSON values and none names
    a descriptor, [data] or [aidbox]. *)
Lemma resource_init_returns env s p w attrs :
  NoDup (dict_keys p) →
  Forall (λ kv, is_resource kv.2 = false) p →
  (∀ k, k ∈ dict_keys p →
        (k ∉ AidboxResource.descriptors) ∧ k ≠ "data" ∧ k ≠ "aidbox") →
  (Aidbox._fetch_schema env s (attr "resource_type" p) w).1 = Ok attrs →
  ∃ w', AidboxResource.__init__ env s true p w =
          (Ok (length (resources w)), w').
Proof.
  intros Hnd Hjson Hkeys Hfetch.
  rewrite (resource_init_eq env s true p w Hjson).
  rewrite fetch_schema_set_resources, Hfetch.
  destruct (Aidbox._fetch_schema env s (attr "resource_type" p) w)
    as [r w1] eqn:Hcall.
  simpl in Hfetch. subst r.
  apply fetch_schema_ok in Hcall as (a1 & k0 & Ha1 & Hk0 & Hs1 & _).
  cbv zeta. simpl sessions. simpl snd.
  edestruct (init_loop_of_skip_total (sessions w1) (dict_del "meta" p))
    as [d' ->]; [| | | |by eexists].
  - unfold root_attrs_of.
    change (attr "aidbox" _) with (VSession s).
    change (attr "resource_type" (_ ++ _)) with (attr "resource_type" p).
    simpl. rewrite Ha1. simpl. rewrite Hk0. simpl. by rewrite Hs1.
  - reflexivity.
  - intros k Hk. apply dict_keys_del in Hk as [_ Hk]. by apply Hkeys.
  - intros v Hv.
    change (attr "resource_type" (_ ++ _)) with (attr "resource_type" p).
    assert (dict_get "resource_type" p = Some v) as E;
      [|unfold attr; by rewrite E].
    clear -Hv Hnd. unfold dict_keys in Hnd.
    induction p as [|[k' v'] p IH]; simpl in *; [by apply elem_of_nil in Hv|].
    apply NoDup_cons in Hnd as [Hk' Hnd].
    destruct (decide ("meta" = k')) as [<-|Hm].
    + rewrite decide_False by done. auto.
    + apply elem_of_cons in Hv as [[= <- <-]|Hv].
      * by rewrite decide_True.
      * destruct (decide ("resource_type" = k')) as [<-|]; [|auto].
        destruct Hk'. clear -Hv.
        induction p as [|[k0 v0] p IH]; simpl in *;
          [by apply elem_of_nil in Hv|].
        destruct (decide ("meta" = k0)); [set_solver|].
        apply elem_of_cons in Hv as [[= <- <-]|Hv]; set_solver.
Qed.

(** ** What a call leaves alone *)

Global Instance kept_preorder {X} (f : world → X) : PreOrder (kept f).
Proof.
  split.
  - by intros w.
  - intros w1 w2 w3 H1 H2. unfold kept in *. congruence.
Qed.

Ltac kept_leaf :=
  let w := fresh "w" in intros w; reflexivity.

Ltac unfold_methods :=
  unfold AidboxSearchSet.get, AidboxSearchSet.all, AidboxSearchSet.count,
    AidboxSearchSet.__iter__,
    AidboxResource.call_Aidbox_resource, AidboxResource.Aidbox_resource,
    AidboxResource.new, AidboxResource.__init__, AidboxResource.__setattr__,
    AidboxResource.object_setattr, AidboxResource.dir,
    AidboxResource.reference, AidboxReference.__init__,
    AidboxResource.getattr, AidboxResource.__getattr__,
    AidboxResource.root_attrs,
    Aidbox._fetch_schema, Aidbox._fetch_resource.

Lemma setattr_kept_dicts self key v :
  respects (kept dicts) (AidboxResource.__setattr__ self key v).
Proof. unfold_methods. repeat respects_step kept_leaf. Qed.

Lemma setattr_kept_searchsets self key v :
  respects (kept searchsets) (AidboxResource.__setattr__ self key v).
Proof. unfold_methods. repeat respects_step kept_leaf. Qed.

Lemma fetch_schema_kept_dicts env s t :
  respects (kept dicts) (Aidbox._fetch_schema env s t).
Proof. unfold_methods. repeat respects_step kept_leaf. Qed.

Lemma fetch_schema_kept_searchsets env s t :
  respects (kept searchsets) (Aidbox._fetch_schema env s t).
Proof. unfold_methods. repeat respects_step kept_leaf. Qed.

#[export] Hint Resolve setattr_kept_dicts setattr_kept_searchsets
  fetch_schema_kept_dicts fetch_schema_kept_searchsets : respects.

Lemma resource_new_kept_dicts env s kw :
  respects (kept dicts) (AidboxResource.new env s kw).
Proof.
  unfold AidboxResource.new, AidboxResource.__init__.
  repeat respects_step kept_leaf.
Qed.

Lemma resource_new_kept_searchsets env s kw :
  respects (kept searchsets) (AidboxResource.new env s kw).
Proof.
  unfold AidboxResource.new, AidboxResource.__init__.
  repeat respects_step kept_leaf.
Qed.

#[export] Hint Resolve resource_new_kept_dicts resource_new_kept_searchsets
  : respects.

(** ** Fetching one record: what [get] does *)

Lemma resource_init_skip_never_unknown env s p w k t :
  (AidboxResource.__init__ env s true p w).1 ≠
    Raise (AidboxResourceFieldDoesNotExist k t).
Proof.
  destruct (resource_init_prefix env s true p w) as [Heq _].
  rewrite Heq. clear Heq.
  destruct (Aidbox._fetch_schema _ _ _ _) as [[attrs|e] w1] eqn:Hfetch.
  - unfold mbind, M_bind.
    pose proof (skip_loop_never_unknown (length (resources w))
                  (dict_del "meta" p)
                  (set_resources
                     <[length (resources w) :=
                         [("data", VDict []); ("aidbox", VSession s);
                          ("resource_type", attr "resource_type" p)] ++
                         [("meta", default (VDict []) (dict_get "meta" p))]]>
                     w1) k t) as Hloop.
    revert Hloop. destruct (for_each _ _ _) as [[[]|e] w2]; simpl;
      [by intros _ [=]|intros H [= ->]; by apply H].
  - simpl. intros [= ->].
    apply fetch_schema_raise in Hfetch as [|[Hl|(a & _ & e' & He' & ?)]];
      [done|destruct Hl as [|[|]]; done|].
    subst e'. apply fetch_result_raise in He'. naive_solver.
Qed.

Lemma call_Aidbox_resource_only_schema_requests env s kw :
  respects only_schema_requests
    (AidboxResource.call_Aidbox_resource env s kw).
Proof.
  apply call_Aidbox_resource_respects;
    [typeclasses eauto|apply only_schema_requests_unchanged
    |apply fetch_schema_only_schema_requests].
Qed.

Lemma get_kept_dicts env b id :
  respects (kept dicts) (AidboxSearchSet.get env b id).
Proof.
  unfold AidboxSearchSet.get, AidboxResource.call_Aidbox_resource,
    AidboxResource.Aidbox_resource, Aidbox._fetch_resource, send.
  repeat respects_step kept_leaf.
Qed.

Lemma get_kept_searchsets env b id :
  respects (kept searchsets) (AidboxSearchSet.get env b id).
Proof.
  unfold AidboxSearchSet.get, AidboxResource.call_Aidbox_resource,
    AidboxResource.Aidbox_resource, Aidbox._fetch_resource, send.
  repeat respects_step kept_leaf.
Qed.

(** X1. [get] sends one request for the record, to [host/type/id], with
    the session's token and without parameters: what the search set has
    accumulated is not sent.  Anything sent after it is an attribute
    query of the schema resolver.  An answer 404 raises the not-found
    error and any status other than 200 and 404 the authorization error,
    in both cases before anything else is done.  The parameter
    dictionaries and the search sets are left as they were. *)
Theorem get_sends_one_record_request env w b ss a id r w' :
  searchsets w !! b = Some ss → sessions w !! ss_aidbox ss = Some a →
  AidboxSearchSet.get env b id w = (r, w') →
  let q := Request (host a +:+ "/" +:+ (ss_resource_type ss +:+ "/" +:+ id))
                   None ("Bearer " +:+ token a) in
  (∃ rest, sent w' = sent w ++ q :: rest ∧ Forall is_schema_request rest) ∧
  dicts w' = dicts w ∧ searchsets w' = searchsets w ∧
  ∀ resp, requests_get env (sent w) q = Some resp →
    (status_code resp = 404 →
       r = Raise AidboxResourceNotFound ∧ w' = set_sent (λ s, s ++ [q]) w) ∧
    (status_code resp ≠ 404 → status_code resp ≠ 200 →
       r = Raise AidboxAuthorizationError ∧
       w' = set_sent (λ s, s ++ [q]) w).
Proof.
  intros Hss Ha Hcall q.
  pose proof (get_kept_dicts env b id w) as Hd.
  pose proof (get_kept_searchsets env b id w) as Hs.
  rewrite Hcall in Hd, Hs. unfold kept in Hd, Hs. simpl in Hd, Hs.
  rewrite (get_eq _ _ _ _ _ _ Hss Ha) in Hcall.
  change (fetch_request a (ss_resource_type ss +:+ "/" +:+ id) None)
    with q in Hcall.
  split; [|split; [done|split; [done|]]].
  - destruct (fetch_result _ _) as [res_data|e].
    + assert (only_schema_requests (set_sent (λ s, s ++ [q]) w) w')
        as (rest & Hrest & Hall).
      { assert (respects only_schema_requests
                  (kw ← lift (star_kwargs [("skip_validation", VBool true)]
                                res_data);
                   AidboxResource.call_Aidbox_resource env (ss_aidbox ss) kw))
          as H.
        { apply respects_bind; [typeclasses eauto|apply respects_lift;
                                typeclasses eauto|].
          intros kw. apply call_Aidbox_resource_only_schema_requests. }
        specialize (H (set_sent (λ s, s ++ [q]) w)). by rewrite Hcall in H. }
      exists rest. split; [|done]. rewrite Hrest. simpl.
      by rewrite <- app_assoc.
    + injection Hcall as _ <-. by exists [].
  - intros resp Hresp. rewrite Hresp in Hcall. unfold fetch_result in Hcall.
    simpl in Hcall. split.
    + intros H404. rewrite H404 in Hcall. simpl in Hcall.
      by injection Hcall as <- <-.
    + intros H404 H200.
      apply Z.eqb_neq in H404, H200. rewrite H404, H200 in Hcall.
      by injection Hcall as <- <-.
Qed.

Lemma get_sends_one_record_request_witness :
  let w := (AidboxSearchSet.Aidbox_resources 0 "Patient" sample_world).2 in
  let q := Request "http://h/Patient/3" None "Bearer tok" in
  AidboxSearchSet.get sample_env 0 "3" w =
    (Raise AidboxAuthorizationError, set_sent (λ s, s ++ [q]) w).
Proof.
  intros w q.
  destruct (AidboxSearchSet.get sample_env 0 "3" w) as [r w'] eqn:E.
  destruct (get_sends_one_record_request sample_env w 0%nat
              (SearchSetObj 0 "Patient" 0) (AidboxObj "http://h" "tok" ∅) "3"
              r w' eq_refl eq_refl E) as (_ & _ & _ & H).
  destruct (H (Response 500 None) eq_refl) as [_ H500].
  by destruct H500 as [-> ->].
Defined.

(** What [get] does with a record the server delivered. *)
Lemma get_delivered env self id w ss a p :
  searchsets w !! self = Some ss → sessions w !! ss_aidbox ss = Some a →
  let q := fetch_request a (ss_resource_type ss +:+ "/" +:+ id) None in
  fetch_result env (requests_get env (sent w) q) = Ok (VDict p) →
  AidboxSearchSet.get env self id w =
    if decide ("skip_validation" ∈ dict_keys p ∨ "self" ∈ dict_keys p ∨
               "aidbox" ∈ dict_keys p)
    then (Raise TypeError, set_sent (λ s, s ++ [q]) w)
    else match dict_get "resource_type" p with
         | Some t =>
             AidboxResource.__init__ env (ss_aidbox ss) true
               (dict_set "resource_type" t (dict_del "resource_type" p))
               (set_sent (λ s, s ++ [q]) w)
         | None => (Raise TypeError, set_sent (λ s, s ++ [q]) w)
         end.
Proof.
  intros Hss Ha q Hres. rewrite (get_eq _ _ _ _ _ _ Hss Ha).
  fold q. rewrite Hres. apply get_wrap_eq.
Qed.

(** X2. [get] never raises the unknown-field error.  When it raises the
    not-found error, the server answered 404 either to the request for
    the record or, the record delivered, to the attribute query for the
    type the record names: the error does not tell which. *)
Theorem get_not_found_is_ambiguous env w b ss a id r w' :
  searchsets w !! b = Some ss → sessions w !! ss_aidbox ss = Some a →
  AidboxSearchSet.get env b id w = (r, w') →
  let q := fetch_request a (ss_resource_type ss +:+ "/" +:+ id) None in
  (∀ k t, r ≠ Raise (AidboxResourceFieldDoesNotExist k t)) ∧
  (r = Raise AidboxResourceNotFound →
   (∃ resp, requests_get env (sent w) q = Some resp ∧
            status_code resp = 404) ∨
   (∃ p t resp,
      fetch_result env (requests_get env (sent w) q) = Ok (VDict p) ∧
      dict_get "resource_type" p = Some t ∧
      requests_get env (sent w ++ [q]) (schema_request a t) = Some resp ∧
      status_code resp = 404)).
Proof.
  intros Hss Ha Hcall q. split.
  - intros k t ->. rewrite (get_eq _ _ _ _ _ _ Hss Ha) in Hcall. fold q in Hcall.
    destruct (fetch_result _ _) as [res_data|e] eqn:Hres.
    + destruct res_data as [| | | | |p| | |]; try done.
      rewrite get_wrap_eq in Hcall.
      destruct (decide _); [done|].
      destruct (dict_get "resource_type" p) as [t0|]; [|done].
      eapply resource_init_skip_never_unknown. by rewrite Hcall.
    + injection Hcall as -> _.
      apply fetch_result_raise in Hres. naive_solver.
  - intros ->. rewrite (get_eq _ _ _ _ _ _ Hss Ha) in Hcall. fold q in Hcall.
    destruct (fetch_result _ _) as [res_data|e] eqn:Hres.
    + right. destruct res_data as [| | | | |p| | |]; try done.
      rewrite get_wrap_eq in Hcall.
      destruct (decide _); [done|].
      destruct (dict_get "resource_type" p) as [t0|] eqn:Ht; [|done].
      eapply (resource_init_fetch_error _ _ a) in Hcall;
        [|done|unfold fetch_error; auto].
      rewrite attr_set_eq in Hcall.
      apply fetch_result_raise in Hcall
        as [[? _]|(resp & Hresp & [[_ H404]|[[? _]|[? _]]])]; try done.
      by exists p, t0, resp.
    + left. injection Hcall as -> _.
      apply fetch_result_raise in Hres
        as [[? _]|(resp & Hresp & [[_ H404]|[[? _]|[? _]]])]; try done.
      by exists resp.
Qed.

Lemma get_not_found_is_ambiguous_witness :
  let w := (AidboxSearchSet.Aidbox_resources 0 "Patient" sample_world).2 in
  (AidboxSearchSet.get sample_env 0 "2" w).1 = Raise AidboxResourceNotFound ∧
  ∃ resp, sample_get (sent w) (Request "http://h/Patient/2" None "Bearer tok")
            = Some resp ∧ status_code resp = 404.
Proof.
  intros w.
  destruct (AidboxSearchSet.get sample_env 0 "2" w) as [r w'] eqn:E.
  assert (r = Raise AidboxResourceNotFound) as Hr.
  { assert ((AidboxSearchSet.get sample_env 0 "2" w).1 =
              Raise AidboxResourceNotFound) as H by (by vm_compute).
    by rewrite E in H. }
  split; [exact Hr|].
  destruct (get_not_found_is_ambiguous sample_env w 0%nat
              (SearchSetObj 0 "Patient" 0) (AidboxObj "http://h" "tok" ∅) "2"
              r w' eq_refl eq_refl E) as [_ H].
  destruct (H Hr) as [Hrec|(p & t & resp & Hp & _)]; [exact Hrec|].
  exfalso. by vm_compute in Hp.
Defined.

(** X3. The resource [get] returns is a new instance that wraps the record
    the server delivered, not the id that was asked for: every field of
    the record that the schema of its type knows reads back as
    delivered, and in a session whose cache entries all contain [id]
    (every reachable one) so does the record's own [id]. *)
Theorem get_wraps_the_delivered_record env w b ss a id p e w' :
  searchsets w !! b = Some ss → sessions w !! ss_aidbox ss = Some a →
  schema_inv w →
  fetch_result env
    (requests_get env (sent w)
       (fetch_request a (ss_resource_type ss +:+ "/" +:+ id) None))
    = Ok (VDict p) →
  NoDup (dict_keys p) → Forall (λ kv, is_resource kv.2 = false) p →
  "data" ∉ dict_keys p → "__dict__" ∉ dict_keys p →
  AidboxSearchSet.get env b id w = (Ok e, w') →
  e = length (resources w) ∧
  ∃ attrs,
    AidboxResource.root_attrs e w' = (Ok attrs, w') ∧
    (∀ k v, dict_get k p = Some v → k ∈ attrs →
            AidboxResource.getattr e k w' = (Ok v, w')) ∧
    (∀ v, dict_get "id" p = Some v →
          AidboxResource.getattr e "id" w' = (Ok v, w')).
Proof.
  intros Hss Ha Hinv Hres Hnd Hjson Hdata Hdict Hcall.
  assert (schema_inv w') as Hinv'.
  { pose proof (exec_cache_step env (CallGet b id) w) as [_ H].
    simpl in H. rewrite Hcall in H. auto. }
  rewrite (get_delivered _ _ _ _ _ _ _ Hss Ha Hres) in Hcall.
  destruct (decide _) as [|Hkeys]; [done|].
  destruct (dict_get "resource_type" p) as [t|] eqn:Ht; [|done].
  apply resource_init_ok in Hcall
    as (-> & d' & attrs & Hd' & _ & Hroot & _ & Haid & _ & Hget & _).
  2:{ by apply dict_set_del_NoDup. }
  2:{ by eapply dict_set_del_Forall. }
  2,3,4: rewrite (dict_set_del_keys _ _ _ _ Ht); naive_solver.
  cbn [resources set_sent] in *. split; [done|].
  assert (resources w' !! length (resources w) = Some d') as He.
  { rewrite Hd'. by rewrite lookup_app_r, Nat.sub_diag. }
  assert ("id" ∈ attrs) as Hid.
  { unfold root_attrs_of in Hroot. rewrite Haid in Hroot.
    destruct (sessions w' !! ss_aidbox ss) as [a'|] eqn:Ha'; [|done].
    simpl in Hroot. destruct (to_key _) as [k0|]; [|done]. simpl in Hroot.
    destruct (schema a' !! k0) as [attrs'|] eqn:Hs; [|done].
    injection Hroot as <-. by eapply Hinv'. }
  exists attrs. split; [|split].
  - by rewrite (root_attrs_eq _ _ _ He), Hroot.
  - intros k v Hv Hin. rewrite (getattr_eq _ _ _ _ He).
    erewrite Hget; [done| |done]. by rewrite (dict_set_del_get _ _ _ _ Ht).
  - intros v Hv. rewrite (getattr_eq _ _ _ _ He).
    erewrite Hget; [done| |done]. by rewrite (dict_set_del_get _ _ _ _ Ht).
Qed.

Lemma get_wraps_the_delivered_record_witness :
  let w := (AidboxSearchSet.Aidbox_resources 0 "Patient" sample_world).2 in
  let w' := (AidboxSearchSet.get sample_env 0 "1" w).2 in
  AidboxResource.getattr 0 "id" w' = (Ok (VStr "1"), w') ∧
  AidboxResource.getattr 0 "name" w' = (Ok (VStr "Jane"), w').
Proof.
  intros w w'.
  destruct (get_wraps_the_delivered_record sample_env w 0%nat
              (SearchSetObj 0 "Patient" 0) (AidboxObj "http://h" "tok" ∅) "1"
              [("resource_type", VStr "Patient"); ("id", VStr "1");
               ("name", VStr "Jane"); ("unknown_field", VStr "x")]
              0%nat w')
    as (_ & attrs & Hroot & Hget & Hid).
  - reflexivity.
  - reflexivity.
  - intros s a k attrs Ha Hk.
    destruct s; [|done]. injection Ha as <-. done.
  - reflexivity.
  - closed_name.
  - repeat constructor.
  - closed_name.
  - closed_name.
  - by vm_compute.
  - split; [by apply Hid|].
    assert (attrs = {["name"; "birth_date"]} ∪ {["id"]}) as ->.
    { assert (AidboxResource.root_attrs 0 w' =
                (Ok ({["name"; "birth_date"]} ∪ {["id"]}), w')) as E
        by (by vm_compute).
      congruence. }
    apply Hget; [reflexivity|closed_name].
Defined.

(** X4. [get] returns whenever the server delivers a record that names a
    type whose schema the session has in its cache, its fields being
    JSON values that leave the names of the instance's machinery alone:
    the entity is the next new instance, and no request but the one for
    the record is sent. *)
Theorem get_returns_on_a_cached_type env w b ss a id p :
  searchsets w !! b = Some ss → sessions w !! ss_aidbox ss = Some a →
  let q := fetch_request a (ss_resource_type ss +:+ "/" +:+ id) None in
  fetch_result env (requests_get env (sent w) q) = Ok (VDict p) →
  warm_record a (VDict p) → "resource_type" ∈ dict_keys p →
  ∃ w', AidboxSearchSet.get env b id w = (Ok (length (resources w)), w') ∧
        sent w' = sent w ++ [q] ∧ sessions w' = sessions w.
Proof.
  intros Hss Ha q Hres (p0 & k & attrs & [= <-] & Hnd & Hjson & Hkeys & Hk &
                        Hs & Hne) Hin.
  rewrite (get_delivered _ _ _ _ _ _ _ Hss Ha Hres). fold q.
  rewrite decide_False.
  2:{ intros [H|[H|H]]; apply Hkeys in H as [_ H]; apply H; set_solver. }
  destruct (dict_get "resource_type" p) as [t|] eqn:Ht;
    [|by apply dict_get_None in Ht].
  assert (attr "resource_type" p = t) as Hattr by (unfold attr; by rewrite Ht).
  set (p' := dict_set "resource_type" t (dict_del "resource_type" p)).
  assert (∀ k0, k0 ∈ dict_keys p' ↔ k0 ∈ dict_keys p) as Hp'
    by (intros k0; apply (dict_set_del_keys _ _ _ _ Ht)).
  assert (warm_record a (VDict p')) as Hwarm.
  { exists p', k, attrs. split; [done|]. split; [by apply dict_set_del_NoDup|].
    split; [by eapply dict_set_del_Forall|].
    split; [intros k0 Hk0; apply Hkeys; by apply Hp'|].
    unfold p'. rewrite attr_set_eq.
    unfold attr in Hk. by rewrite Ht in Hk. }
  destruct (from_payload_warm env (ss_aidbox ss) a (VDict p')
              (set_sent (λ s, s ++ [q]) w) Ha Hwarm) as (w' & Hw' & Hsent & Hsess).
  rewrite from_payload_eq in Hw'. rewrite decide_False in Hw'.
  2:{ rewrite !Hp'. intros [H|[H|H]]; apply Hkeys in H as [_ H]; apply H;
        set_solver. }
  by exists w'.
Qed.

Lemma get_returns_on_a_cached_type_witness :
  let w := (AidboxSearchSet.Aidbox_resources 0 "Patient"
              (exec sample_env (CallFetchSchema 0 (VStr "Patient"))
                 sample_world)).2 in
  ∃ w', AidboxSearchSet.get sample_env 0 "1" w = (Ok 0%nat, w') ∧
        sent w' = sent w ++ [Request "http://h/Patient/1" None "Bearer tok"].
Proof.
  intros w.
  destruct (get_returns_on_a_cached_type sample_env w 0%nat
              (SearchSetObj 0 "Patient" 0)
              (AidboxObj "http://h" "tok"
                 {[KStr "Patient" := {["name"; "birth_date"]} ∪ {["id"]}]})
              "1"
              [("resource_type", VStr "Patient"); ("id", VStr "1");
               ("name", VStr "Jane"); ("unknown_field", VStr "x")])
    as (w' & Hw' & Hsent & _).
  - reflexivity.
  - by vm_compute.
  - reflexivity.
  - eexists _, (KStr "Patient"), _. split; [reflexivity|].
    split; [closed_name|]. split; [repeat constructor|].
    split; [|split; [reflexivity|split; [by vm_compute|set_solver]]].
    intros key Hkey. unfold dict_keys in Hkey. simpl in Hkey.
    rewrite !elem_of_cons, elem_of_nil in Hkey.
    destruct Hkey as [-> | [-> | [-> | [-> | []]]]]; split; closed_name.
  - closed_name.
  - exists w'. by split.
Defined.


(** ** Assignments *)

Lemma dir_eq self w d :
  resources w !! self = Some d →
  AidboxResource.dir self w = (Ok (AidboxResource.class_names ++ dict_keys d), w).
Proof.
  intros Hd. unfold AidboxResource.dir.
  by rewrite (bind_ok _ _ _ _ _ (deref_some resources _ _ _ Hd)).
Qed.

Lemma reference_eq self w d :
  resources w !! self = Some d →
  AidboxResource.reference self w =
    match getattr_of (sessions w) "id" d with
    | Ok id =>
        (Ok (length (references w)),
         set_references
           (λ h, h ++ [ReferenceObj (attr "aidbox" d) (attr "resource_type" d)
                         id]) w)
    | Raise e => (Raise e, w)
    end.
Proof.
  intros Hd. unfold AidboxResource.reference.
  rewrite (bind_ok _ _ _ _ _ (deref_some resources _ _ _ Hd)).
  unfold mbind, M_bind. rewrite (getattr_eq _ _ _ _ Hd).
  by destruct (getattr_of _ _ _).
Qed.

Lemma setattr_resource_eq self key e w d de attrs data id :
  resources w !! self = Some d → resources w !! e = Some de →
  key ∉ AidboxResource.class_names ++ dict_keys d →
  root_attrs_of (sessions w) d = Ok attrs → key ∈ attrs →
  attr "data" d = VDict data →
  dict_get "reference" de = None →
  getattr_of (sessions w) "id" de = Ok id →
  AidboxResource.__setattr__ self key (VResource e) w =
    (Ok (),
     set_resources
       (<[self := dict_set "data"
                    (VDict (dict_set key (VReference (length (references w)))
                              data)) d]>)
       (set_references
          (λ h, h ++ [ReferenceObj (attr "aidbox" de)
                        (attr "resource_type" de) id]) w)).
Proof.
  intros Hd Hde Hkey Hroot Hin Hdata Href Hid.
  unfold AidboxResource.__setattr__.
  rewrite (bind_ok _ _ _ _ _ (dir_eq _ _ _ Hd)).
  rewrite decide_False by done.
  unfold mbind at 1, M_bind at 1. rewrite (root_attrs_eq _ _ _ Hd), Hroot.
  rewrite decide_True by done.
  unfold mbind at 1, M_bind at 1.
  rewrite (bind_ok _ _ _ _ _ (deref_some resources _ _ _ Hde)).
  rewrite Href.
  unfold mbind at 1, M_bind at 1. rewrite (reference_eq _ _ _ Hde), Hid.
  unfold mret at 1, M_ret at 1.
  rewrite (bind_ok _ _ _ d _) by (apply deref_some; exact Hd).
  by rewrite Hdata.
Qed.

(** X5. Assigning a resource to a field of the schema stores a reference
    to it, not the resource: a new [AidboxReference] is created with the
    session, the type and the id the assigned resource has at that
    moment, and the field reads back as that reference.  No other
    resource changes, nothing is sent and no cache is touched. *)
Theorem assigning_a_resource_stores_a_reference
    self key e w names attrs d data de id :
  AidboxResource.dir self w = (Ok names, w) → key ∉ names →
  AidboxResource.root_attrs self w = (Ok attrs, w) → key ∈ attrs →
  resources w !! self = Some d → attr "data" d = VDict data →
  resources w !! e = Some de → "reference" ∉ dict_keys de →
  AidboxResource.getattr e "id" w = (Ok id, w) →
  ∃ w',
    AidboxResource.__setattr__ self key (VResource e) w = (Ok (), w') ∧
    AidboxResource.getattr self key w' =
      (Ok (VReference (length (references w))), w') ∧
    references w' =
      references w ++
        [ReferenceObj (attr "aidbox" de) (attr "resource_type" de) id] ∧
    (∀ l, l ≠ self → resources w' !! l = resources w !! l) ∧
    sent w' = sent w ∧ sessions w' = sessions w ∧ dicts w' = dicts w.
Proof.
  intros Hdir Hkey Hroot Hin Hd Hdata Hde Href Hid.
  rewrite (dir_eq _ _ _ Hd) in Hdir.
  assert (names = AidboxResource.class_names ++ dict_keys d) as ->
    by congruence.
  clear Hdir. rewrite (root_attrs_eq _ _ _ Hd) in Hroot.
  assert (root_attrs_of (sessions w) d = Ok attrs) as Hroot'
    by (by injection Hroot).
  rewrite (getattr_eq _ _ _ _ Hde) in Hid.
  assert (dict_get "reference" de = None) as Hnone by (by apply dict_get_None).
  assert (getattr_of (sessions w) "id" de = Ok id) as Hid' by (by injection Hid).
  eexists. split.
  { by apply (setattr_resource_eq self key e w d de attrs data id). }
  assert (key ≠ "data") as Hkd.
  { intros ->. apply Hkey. apply elem_of_app. left. closed_name. }
  assert ((key ∉ AidboxResource.class_names) ∧ key ∉ dict_keys d)
    as [Hcls Hkeys].
  { split; intros ?; apply Hkey; apply elem_of_app; auto. }
  split; [|split; [done|split; [|done]]].
  - erewrite getattr_eq; [|simpl; by rewrite list_lookup_insert_eq
                                   by (by eapply lookup_lt_Some)].
    simpl. unfold getattr_of.
    rewrite decide_False
      by (intros ?; by apply Hcls, descriptors_class_names).
    rewrite dict_get_set_ne by done.
    assert (dict_get key d = None) as -> by (by apply dict_get_None).
    rewrite decide_False
      by (intros ?; by apply Hcls, class_attributes_class_names).
    rewrite decide_False by done.
    unfold getattr_hook_of.
    rewrite (root_attrs_of_ext _ d)
      by (rewrite attr_set_ne; [done|closed_name || done]).
    rewrite Hroot'. simpl. rewrite decide_True by done.
    by rewrite attr_set_eq, dict_get_set_eq.
  - intros l Hl. simpl. by rewrite list_lookup_insert_ne.
Qed.

Lemma assigning_a_resource_stores_a_reference_witness :
  let w := (from_payload sample_env 0 jane sample_world).2 in
  ∃ w',
    AidboxResource.__setattr__ 0 "name" (VResource 0) w = (Ok (), w') ∧
    AidboxResource.getattr 0 "name" w' = (Ok (VReference 0), w') ∧
    references w' = [ReferenceObj (VSession 0) (VStr "Patient") (VStr "1")].
Proof.
  intros w.
  destruct (assigning_a_resource_stores_a_reference 0%nat "name" 0%nat w
              (AidboxResource.class_names ++
                 ["data"; "aidbox"; "resource_type"; "meta"])
              ({["name"; "birth_date"]} ∪ {["id"]})
              [("data", VDict [("id", VStr "1"); ("name", VStr "Jane")]);
               ("aidbox", VSession 0); ("resource_type", VStr "Patient");
               ("meta", VDict [])]
              [("id", VStr "1"); ("name", VStr "Jane")]
              [("data", VDict [("id", VStr "1"); ("name", VStr "Jane")]);
               ("aidbox", VSession 0); ("resource_type", VStr "Patient");
               ("meta", VDict [])]
              (VStr "1"))
    as (w' & Hset & Hget & Href & _).
  - by vm_compute.
  - closed_name.
  - by vm_compute.
  - closed_name.
  - by vm_compute.
  - reflexivity.
  - by vm_compute.
  - closed_name.
  - by vm_compute.
  - exists w'. by split; [|split].
Defined.

(** X6. An assignment of a value that is not a resource either succeeds or
    leaves the world exactly as it was.  It raises the unknown-field
    error precisely when the name is neither listed by [dir] nor in the
    schema of the type; the error then carries that name and the
    resource type of the instance. *)
Theorem assignment_rejects_exactly_unknown_fields self key v w d r w' :
  resources w !! self = Some d → is_resource v = false →
  AidboxResource.__setattr__ self key v w = (r, w') →
  (∀ e, r = Raise e → w' = w) ∧
  (∀ k t, r = Raise (AidboxResourceFieldDoesNotExist k t) ↔
     k = key ∧ t = attr "resource_type" d ∧
     (key ∉ AidboxResource.class_names ++ dict_keys d) ∧
     ∃ attrs, AidboxResource.root_attrs self w = (Ok attrs, w) ∧
              key ∉ attrs).
Proof.
  intros Hd Hv Hcall. rewrite (setattr_eq _ _ _ _ _ Hd) in Hcall by auto.
  split.
  - intros e ->. destruct (setattr_of _ _ _ _); by injection Hcall.
  - intros k t. rewrite (root_attrs_eq _ _ _ Hd). split.
    + intros ->.
      destruct (setattr_of _ _ _ _) as [|e] eqn:Hset; [done|].
      injection Hcall as -> _.
      apply setattr_of_unknown in Hset as (-> & -> & Hnames & attrs & Hroot & Hin).
      repeat split; [done|]. exists attrs. by rewrite Hroot.
    + intros (-> & -> & Hnames & attrs & Hroot & Hin).
      erewrite setattr_of_reject in Hcall; [|done| |done].
      * by injection Hcall as <- _.
      * by injection Hroot.
Qed.

Lemma assignment_rejects_exactly_unknown_fields_witness :
  let w := (from_payload sample_env 0 jane sample_world).2 in
  AidboxResource.__setattr__ 0 "weight" (VInt 70) w =
    (Raise (AidboxResourceFieldDoesNotExist "weight" (VStr "Patient")), w).
Proof.
  intros w.
  destruct (AidboxResource.__setattr__ 0 "weight" (VInt 70) w)
    as [r w'] eqn:E.
  destruct (assignment_rejects_exactly_unknown_fields 0%nat "weight" (VInt 70)
              w
              [("data", VDict [("id", VStr "1"); ("name", VStr "Jane")]);
               ("aidbox", VSession 0); ("resource_type", VStr "Patient");
               ("meta", VDict [])] r w')
    as [Hsame Hiff].
  - by vm_compute.
  - reflexivity.
  - exact E.
  - assert (r = Raise (AidboxResourceFieldDoesNotExist "weight"
                         (VStr "Patient"))) as Hr.
    { apply Hiff. split; [done|]. split; [done|]. split; [closed_name|].
      exists ({["name"; "birth_date"]} ∪ {["id"]}).
      split; [by vm_compute|closed_name]. }
    by rewrite (Hsame _ Hr), Hr.
Defined.

(** X7. A name that [dir] lists for the class (its attributes [aidbox],
    [resource_type], [data], [meta], and its methods), and that is not a
    data descriptor, bypasses the schema: the value is stored in the
    instance as it is, a resource as the resource itself and not as a
    reference, whatever the schema says, and reads back. *)
Theorem class_names_bypass_the_schema self key v w d :
  resources w !! self = Some d →
  key ∈ AidboxResource.class_names → key ∉ AidboxResource.descriptors →
  ∃ w',
    AidboxResource.__setattr__ self key v w = (Ok (), w') ∧
    w' = set_resources (<[self := dict_set key v d]>) w ∧
    AidboxResource.getattr self key w' = (Ok v, w').
Proof.
  intros Hd Hcls Hdesc. eexists. split; [|split; [reflexivity|]].
  - unfold AidboxResource.__setattr__.
    rewrite (bind_ok _ _ _ _ _ (dir_eq _ _ _ Hd)).
    rewrite decide_True by (apply elem_of_app; auto).
    rewrite (object_setattr_eq _ _ _ _ _ Hd).
    unfold object_setattr_of.
    rewrite !decide_False; [done|intros ->; apply Hdesc; closed_name..].
  - erewrite getattr_eq; [|by eapply lookup_set_resources].
    unfold getattr_of. rewrite decide_False by done.
    by rewrite dict_get_set_eq.
Qed.

Lemma class_names_bypass_the_schema_witness :
  let w := (from_payload sample_env 0 jane sample_world).2 in
  ∃ w', AidboxResource.__setattr__ 0 "meta" (VResource 0) w = (Ok (), w') ∧
        AidboxResource.getattr 0 "meta" w' = (Ok (VResource 0), w').
Proof.
  intros w.
  destruct (class_names_bypass_the_schema 0%nat "meta" (VResource 0) w
              [("data", VDict [("id", VStr "1"); ("name", VStr "Jane")]);
               ("aidbox", VSession 0); ("resource_type", VStr "Patient");
               ("meta", VDict [])])
    as (w' & Hset & _ & Hget).
  - by vm_compute.
  - closed_name.
  - closed_name.
  - by exists w'.
Defined.

(** X8. Assigning a dictionary to [data] replaces the whole mapping of
    fields at once and without validation: afterwards every field of
    the schema reads what the new dictionary holds for it, [None] when
    it holds nothing. *)
Theorem assigning_data_replaces_the_fields self new w d names attrs :
  resources w !! self = Some d →
  AidboxResource.root_attrs self w = (Ok attrs, w) →
  AidboxResource.dir self w = (Ok names, w) →
  ∃ w',
    AidboxResource.__setattr__ self "data" (VDict new) w = (Ok (), w') ∧
    AidboxResource.root_attrs self w' = (Ok attrs, w') ∧
    ∀ k, k ∈ attrs → k ∉ names →
      AidboxResource.getattr self k w' =
        (Ok (default VNone (dict_get k new)), w').
Proof.
  intros Hd Hroot Hdir.
  rewrite (dir_eq _ _ _ Hd) in Hdir.
  assert (names = AidboxResource.class_names ++ dict_keys d) as ->
    by congruence.
  clear Hdir. rewrite (root_attrs_eq _ _ _ Hd) in Hroot.
  assert (root_attrs_of (sessions w) d = Ok attrs) as Hroot'
    by (by injection Hroot).
  set (d' := dict_set "data" (VDict new) d).
  assert (root_attrs_of (sessions w) d' = Ok attrs) as Hroot2.
  { rewrite <- Hroot'. apply root_attrs_of_ext; by apply attr_set_ne. }
  exists (set_resources (<[self := d']>) w).
  assert (resources (set_resources (<[self := d']>) w) !! self = Some d')
    as Hd' by (by eapply lookup_set_resources).
  split; [|split].
  - rewrite (setattr_eq _ _ _ _ _ Hd) by auto.
    by rewrite setattr_of_own
      by (first [apply elem_of_app; left; closed_name|closed_name]).
  - by rewrite (root_attrs_eq _ _ _ Hd'), <- Hroot2.
  - intros k Hin Hk.
    apply not_elem_of_app in Hk as [Hcls Hkeys].
    rewrite (getattr_eq _ _ _ _ Hd'). simpl. unfold getattr_of.
    rewrite decide_False
      by (intros ?; by apply Hcls, descriptors_class_names).
    assert (k ≠ "data") as Hkd by (intros ->; apply Hcls; closed_name).
    unfold d' at 1. rewrite dict_get_set_ne by done.
    assert (dict_get k d = None) as -> by (by apply dict_get_None).
    rewrite decide_False
      by (intros ?; by apply Hcls, class_attributes_class_names).
    rewrite decide_False by done.
    unfold getattr_hook_of. rewrite Hroot2. simpl.
    rewrite decide_True by done. unfold d'. by rewrite attr_set_eq.
Qed.

Lemma assigning_data_replaces_the_fields_witness :
  let w := (from_payload sample_env 0 jane sample_world).2 in
  ∃ w',
    AidboxResource.__setattr__ 0 "data" (VDict [("colour", VStr "red")]) w =
      (Ok (), w') ∧
    AidboxResource.getattr 0 "name" w' = (Ok VNone, w').
Proof.
  intros w.
  destruct (assigning_data_replaces_the_fields 0%nat
              [("colour", VStr "red")] w
              [("data", VDict [("id", VStr "1"); ("name", VStr "Jane")]);
               ("aidbox", VSession 0); ("resource_type", VStr "Patient");
               ("meta", VDict [])]
              (AidboxResource.class_names ++
                 ["data"; "aidbox"; "resource_type"; "meta"])
              ({["name"; "birth_date"]} ∪ {["id"]}))
    as (w' & Hset & _ & Hget).
  - by vm_compute.
  - by vm_compute.
  - by vm_compute.
  - exists w'. split; [exact Hset|]. apply Hget; closed_name.
Defined.

(** ** Construction *)

Lemma dict_del_app k (l1 l2 : pydict) :
  dict_del k (l1 ++ l2) = dict_del k l1 ++ dict_del k l2.
Proof.
  induction l1 as [|[k' v'] l1 IH]; simpl; [done|].
  destruct (decide (k = k')); [done|]. by rewrite IH.
Qed.

Lemma Forall_keys_dict_del (P : string → Prop) k (l : pydict) :
  Forall P (dict_keys l) → Forall P (dict_keys (dict_del k l)).
Proof.
  rewrite !Forall_forall. intros H x Hx.
  apply dict_keys_del in Hx as [_ Hx]. auto.
Qed.

(** The strict loop of [__init__] on an instance whose own attributes
    are names of the class: it comes to its end when every keyword is a
    name of the class or a field of the schema, and stops at the first
    keyword that is neither. *)
Lemma init_loop_of_strict ss attrs l : ∀ d data,
  root_attrs_of ss d = Ok attrs → attr "data" d = VDict data →
  (∀ k, k ∈ dict_keys d → k ∈ AidboxResource.class_names) →
  (∀ k, k ∈ dict_keys l →
        (k ∉ AidboxResource.descriptors) ∧ k ≠ "data" ∧ k ≠ "aidbox") →
  (∀ v, ("resource_type", v) ∈ l → v = attr "resource_type" d) →
  (Forall (λ k, k ∈ AidboxResource.class_names ∨ k ∈ attrs) (dict_keys l) →
   ∃ d', init_loop_of ss false d l = (Ok (), d')) ∧
  (∀ l1 k v l2,
     l = l1 ++ (k, v) :: l2 →
     Forall (λ k, k ∈ AidboxResource.class_names ∨ k ∈ attrs)
       (dict_keys l1) →
     k ∉ AidboxResource.class_names → k ∉ attrs →
     ∃ d', init_loop_of ss false d l =
             (Raise (AidboxResourceFieldDoesNotExist k
                       (attr "resource_type" d)), d')).
Proof.
  induction l as [|[key v] l IH];
    intros d data Hroot Hdata Hown Hkeys Htype.
  { split; [by eexists|]. intros [|] ? ? ? ?; done. }
  destruct (Hkeys key) as (Hdesc & Hnd & Hna); [by left|].
  assert (∀ k, k ∈ dict_keys l →
            (k ∉ AidboxResource.descriptors) ∧ k ≠ "data" ∧ k ≠ "aidbox")
    as Hkeys' by (intros k Hk; apply Hkeys; by right).
  assert (∀ d1, attr "resource_type" d1 = attr "resource_type" d →
            ∀ v0, ("resource_type", v0) ∈ l →
                  v0 = attr "resource_type" d1) as Htype'.
  { intros d1 -> v0 Hv0. apply Htype. by right. }
  cbn [init_loop_of].
  destruct (decide (key ∈ AidboxResource.class_names ++ dict_keys d))
    as [Hdir|Hdir].
  - assert (key ∈ AidboxResource.class_names) as Hcls.
    { apply elem_of_app in Hdir as [|]; auto. }
    rewrite setattr_of_own by done.
    assert (attr "resource_type" (dict_set key v d) = attr "resource_type" d)
      as Ht.
    { destruct (decide (key = "resource_type")) as [->|].
      - rewrite attr_set_eq. apply Htype. by left.
      - by rewrite attr_set_ne. }
    destruct (IH (dict_set key v d) data) as [IH1 IH2].
    { rewrite <- Hroot. apply root_attrs_of_ext; [by rewrite attr_set_ne|done]. }
    { by rewrite attr_set_ne. }
    { intros k Hk. apply dict_keys_set in Hk as [->|Hk]; auto. }
    { done. }
    { by apply Htype'. }
    split.
    + intros Hall. apply IH1. by apply Forall_cons in Hall as [_ Hall].
    + intros [|[k1 v1] l1] k v0 l2 Heq Hall Hk Hka.
      * injection Heq as <- <- <-. done.
      * injection Heq as <- <- ->. rewrite <- Ht.
        eapply IH2; [done| |done..].
        by apply Forall_cons in Hall as [_ Hall].
  - destruct (decide (key ∈ attrs)) as [Hin|Hin].
    + erewrite setattr_of_store by done.
      destruct (IH (dict_set "data" (VDict (dict_set key v data)) d)
                  (dict_set key v data)) as [IH1 IH2].
      { rewrite <- Hroot. by apply root_attrs_of_ext; rewrite attr_set_ne. }
      { by rewrite attr_set_eq. }
      { intros k Hk. apply dict_keys_set in Hk as [->|Hk]; [closed_name|auto]. }
      { done. }
      { apply Htype'. by rewrite attr_set_ne. }
      split.
      * intros Hall. apply IH1. by apply Forall_cons in Hall as [_ Hall].
      * intros [|[k1 v1] l1] k v0 l2 Heq Hall Hk Hka.
        -- injection Heq as <- <- <-. done.
        -- injection Heq as <- <- ->.
           rewrite <- (attr_set_ne "resource_type" "data"
                         (VDict (dict_set key v data)) d) by done.
           eapply IH2; [done| |done..].
           by apply Forall_cons in Hall as [_ Hall].
    + erewrite setattr_of_reject by done. split.
      * intros Hall. apply Forall_cons in Hall as [[Hk|Hk] _]; [|done].
        destruct Hdir. apply elem_of_app. auto.
      * intros [|[k1 v1] l1] k v0 l2 Heq Hall Hk Hka.
        -- injection Heq as <- <- <-. by eexists.
        -- injection Heq as <- <- ->.
           apply Forall_cons in Hall as [[Hk1|Hk1] _]; [|done].
           destruct Hdir. apply elem_of_app. auto.
Qed.

(** X9. Strict construction (no [skip_validation]) validates the keywords
    in their order.  Once the schema of the type resolves, it returns
    the new instance when every keyword is a field of the schema or a
    name of the class, and otherwise raises the unknown-field error for
    the first keyword that is neither, with the resource type asked
    for.  (Keywords are JSON values and none of them names a data
    descriptor, [data] or [aidbox].) *)
Theorem strict_construction_stops_at_the_first_unknown_keyword
    env s p w attrs :
  NoDup (dict_keys p) → Forall (λ kv, is_resource kv.2 = false) p →
  (∀ k, k ∈ dict_keys p →
        (k ∉ AidboxResource.descriptors) ∧ k ≠ "data" ∧ k ≠ "aidbox") →
  (Aidbox._fetch_schema env s (attr "resource_type" p) w).1 = Ok attrs →
  (Forall (λ k, k ∈ AidboxResource.class_names ∨ k ∈ attrs) (dict_keys p) →
   (AidboxResource.__init__ env s false p w).1 =
     Ok (length (resources w))) ∧
  (∀ l1 k v l2,
     p = l1 ++ (k, v) :: l2 →
     Forall (λ k, k ∈ AidboxResource.class_names ∨ k ∈ attrs)
       (dict_keys l1) →
     k ∉ AidboxResource.class_names → k ∉ attrs →
     (AidboxResource.__init__ env s false p w).1 =
       Raise (AidboxResourceFieldDoesNotExist k (attr "resource_type" p))).
Proof.
  intros Hnd Hjson Hkeys Hfetch.
  rewrite (resource_init_eq env s false p w Hjson).
  rewrite fetch_schema_set_resources, Hfetch.
  destruct (Aidbox._fetch_schema env s (attr "resource_type" p) w)
    as [r w1] eqn:Hcall.
  simpl in Hfetch. subst r.
  apply fetch_schema_ok in Hcall as (a1 & k0 & Ha1 & Hk0 & Hs1 & _).
  cbv zeta. simpl sessions. simpl snd.
  set (d0 := [("data", VDict []); ("aidbox", VSession s);
              ("resource_type", attr "resource_type" p)] ++
             [("meta", default (VDict []) (dict_get "meta" p))]).
  destruct (init_loop_of_strict (sessions w1) attrs (dict_del "meta" p) d0 [])
    as [Hok Hraise].
  - unfold root_attrs_of.
    change (attr "aidbox" d0) with (VSession s).
    change (attr "resource_type" d0) with (attr "resource_type" p).
    simpl. rewrite Ha1. simpl. rewrite Hk0. simpl. by rewrite Hs1.
  - reflexivity.
  - intros k Hk. unfold d0, dict_keys in Hk. simpl in Hk.
    rewrite !elem_of_cons, elem_of_nil in Hk.
    destruct Hk as [-> | [-> | [-> | [-> | []]]]]; closed_name.
  - intros k Hk. apply dict_keys_del in Hk as [_ Hk]. by apply Hkeys.
  - intros v Hv.
    change (attr "resource_type" d0) with (attr "resource_type" p).
    assert ("resource_type" ∈ dict_keys (dict_del "meta" p)) as Hin.
    { unfold dict_keys. apply list_elem_of_fmap. by exists ("resource_type", v). }
    assert (dict_get "resource_type" (dict_del "meta" p) = Some v) as E.
    { pose proof (dict_del_NoDup "meta" p Hnd) as Hnd'.
      clear -Hv Hnd'. unfold dict_keys in Hnd'.
      induction (dict_del "meta" p) as [|[k' v'] l IH]; simpl in *;
        [by apply elem_of_nil in Hv|].
      apply NoDup_cons in Hnd' as [Hk' Hnd'].
      apply elem_of_cons in Hv as [[= <- <-]|Hv]; [by rewrite decide_True|].
      destruct (decide ("resource_type" = k')) as [<-|]; [|auto].
      destruct Hk'. apply list_elem_of_fmap. by exists ("resource_type", v). }
    rewrite dict_get_del_ne in E by done. unfold attr. by rewrite E.
  - split.
    + intros Hall. destruct Hok as [d' ->]; [|done].
      by apply Forall_keys_dict_del.
    + intros l1 k v l2 -> Hall Hk Hka.
      assert (k ≠ "meta") as Hmeta by (intros ->; apply Hk; closed_name).
      destruct (Hraise (dict_del "meta" l1) k v (dict_del "meta" l2))
        as [d' ->]; [| |done..].
      * rewrite dict_del_app. simpl. by rewrite decide_False.
      * by apply Forall_keys_dict_del.
Qed.

Lemma strict_construction_stops_at_the_first_unknown_keyword_witness :
  (AidboxResource.__init__ sample_env 0 false
     [("resource_type", VStr "Patient"); ("name", VStr "Jane");
      ("weight", VInt 70); ("height", VInt 170)] sample_world).1 =
    Raise (AidboxResourceFieldDoesNotExist "weight" (VStr "Patient")) ∧
  (AidboxResource.__init__ sample_env 0 false
     [("resource_type", VStr "Patient"); ("name", VStr "Jane")]
     sample_world).1 = Ok 0%nat.
Proof.
  split.
  - destruct (strict_construction_stops_at_the_first_unknown_keyword
                sample_env 0%nat
                [("resource_type", VStr "Patient"); ("name", VStr "Jane");
                 ("weight", VInt 70); ("height", VInt 170)] sample_world
                ({["name"; "birth_date"]} ∪ {["id"]})) as [_ H].
    + closed_name.
    + repeat constructor.
    + intros key Hkey. unfold dict_keys in Hkey. simpl in Hkey.
      rewrite !elem_of_cons, elem_of_nil in Hkey.
      destruct Hkey as [-> | [-> | [-> | [-> | []]]]];
        (split; [closed_name|split; done]).
    + by vm_compute.
    + apply (H [("resource_type", VStr "Patient"); ("name", VStr "Jane")]
               "weight" (VInt 70) [("height", VInt 170)]).
      * reflexivity.
      * apply Forall_cons_2; [left; closed_name|].
        apply Forall_cons_2; [right; closed_name|]. apply Forall_nil_2.
      * closed_name.
      * closed_name.
  - destruct (strict_construction_stops_at_the_first_unknown_keyword
                sample_env 0%nat
                [("resource_type", VStr "Patient"); ("name", VStr "Jane")]
                sample_world
                ({["name"; "birth_date"]} ∪ {["id"]})) as [H _].
    + closed_name.
    + repeat constructor.
    + intros key Hkey. unfold dict_keys in Hkey. simpl in Hkey.
      rewrite !elem_of_cons, elem_of_nil in Hkey.
      destruct Hkey as [-> | [-> | []]];
        (split; [closed_name|split; done]).
    + by vm_compute.
    + apply H. apply Forall_cons_2; [left; closed_name|].
      apply Forall_cons_2; [right; closed_name|]. apply Forall_nil_2.
Defined.

(** ** Search sets: fetching *)

Lemma all_kept_dicts env b : respects (kept dicts) (AidboxSearchSet.all env b).
Proof.
  unfold AidboxSearchSet.all, Aidbox._fetch_resource, send.
  repeat respects_step kept_leaf.
Qed.

Lemma all_kept_searchsets env b :
  respects (kept searchsets) (AidboxSearchSet.all env b).
Proof.
  unfold AidboxSearchSet.all, Aidbox._fetch_resource, send.
  repeat respects_step kept_leaf.
Qed.

Lemma mapM_from_payload_only_schema_requests env s records :
  respects only_schema_requests (mapM (from_payload env s) records).
Proof.
  apply respects_mapM; [typeclasses eauto|]. intros x.
  apply from_payload_only_schema_requests.
Qed.

(** X10. [first()] is [limit(1)] followed by [all()]: it writes
    [_count = 1] into the dictionary of the search set it is called on,
    where it stays, sends the collection request with these parameters,
    and returns the first of the resources [all()] builds, [None] when
    the answer has no entry.  Every record of the answer is wrapped,
    not only the one returned. *)
Theorem first_limits_to_one env w b ss d a r w' :
  searchsets w !! b = Some ss → dicts w !! ss_params ss = Some d →
  sessions w !! ss_aidbox ss = Some a →
  AidboxSearchSet.first env b w = (r, w') →
  let d1 := dict_set "_count" (VInt 1) d in
  let q := fetch_request a (ss_resource_type ss) (Some d1) in
  let answer := fetch_result env (requests_get env (sent w) q)
                  ≫= records_of in
  (∃ rest, sent w' = sent w ++ q :: rest ∧ Forall is_schema_request rest) ∧
  params_of b w' = Some d1 ∧
  (∀ e, answer = Raise e → r = Raise e) ∧
  (answer = Ok [] → r = Ok None) ∧
  (∀ records o, answer = Ok records → Forall json_record records →
     r = Ok o →
     o = head (seq (length (resources w)) (length records)) ∧
     length (resources w') = (length (resources w) + length records)%nat ∧
     ∀ p e, head records = Some (VDict p) → o = Some e →
       NoDup (dict_keys p) → "data" ∉ dict_keys p → "__dict__" ∉ dict_keys p →
       ∃ attrs,
         AidboxResource.root_attrs e w' = (Ok attrs, w') ∧
         ∀ k v, dict_get k p = Some v → k ∈ attrs →
                AidboxResource.getattr e k w' = (Ok v, w')).
Proof.
  intros Hss Hd Ha Hcall d1 q answer.
  unfold AidboxSearchSet.first in Hcall.
  rewrite (bind_ok _ _ _ _ _ (limit_eq _ (VInt 1) _ _ _ Hss Hd)) in Hcall.
  fold d1 in Hcall.
  destruct (chain_post w ss d d1 Hd) as (Hss1 & Hd1 & _).
  set (w1 := set_searchsets (λ h, h ++ [ss])
               (set_dicts (<[ss_params ss := d1]>) w)) in *.
  assert (params_of b w1 = Some d1) as Hp1.
  { unfold params_of. simpl.
    rewrite lookup_app_l by (by eapply lookup_lt_Some). by rewrite Hss. }
  pose proof (all_kept_dicts env (length (searchsets w)) w1) as Hkd.
  pose proof (all_kept_searchsets env (length (searchsets w)) w1) as Hks.
  unfold kept in Hkd, Hks.
  unfold mbind at 1, M_bind at 1 in Hcall.
  destruct (AidboxSearchSet.all env (length (searchsets w)) w1)
    as [r0 w2] eqn:Hall.
  simpl in Hkd, Hks.
  assert (w' = w2 ∧ r = head <$> r0) as [-> ->].
  { destruct r0; by injection Hcall as <- <-. }
  clear Hcall.
  rewrite (all_eq env _ w1 ss d1 a Hss1 Hd1 Ha) in Hall.
  change (sent w1) with (sent w) in Hall. fold q answer in Hall.
  split; [|split; [|split; [|split]]].
  - destruct answer as [records|e].
    + pose proof (mapM_from_payload_only_schema_requests env (ss_aidbox ss)
                    records (set_sent (λ s, s ++ [q]) w1)) as H.
      rewrite Hall in H. destruct H as (rest & Hrest & Hforall).
      cbn [snd] in Hrest. exists rest. split; [|done]. rewrite Hrest. simpl.
      by rewrite <- app_assoc.
    + injection Hall as _ <-. by exists [].
  - unfold params_of in *. by rewrite Hks, Hkd.
  - intros e He. rewrite He in Hall. by injection Hall as <- _.
  - intros He. rewrite He in Hall. by injection Hall as <- _.
  - intros records o He Hjson Ho. rewrite He in Hall.
    destruct r0 as [es|]; [|done]. injection Ho as <-.
    apply wrap_records in Hall as (-> & ds & Hds & Hlen & Hrec); [|done].
    change (resources (set_sent _ w1)) with (resources w) in *.
    split; [done|]. split; [by rewrite Hds, length_app, Hlen|].
    intros p e Hp He0 Hnd Hdata Hdict.
    destruct records as [|rec records]; [done|].
    injection Hp as ->. injection He0 as <-.
    destruct ds as [|d0 ds]; [done|].
    destruct (Hrec 0%nat p d0 eq_refl eq_refl Hnd Hdata Hdict)
      as (attrs & Hroot & Hget).
    assert (resources w2 !! length (resources w) = Some d0) as Hd0.
    { rewrite Hds. by rewrite lookup_app_r, Nat.sub_diag. }
    exists attrs. split.
    + by rewrite (root_attrs_eq _ _ _ Hd0), Hroot.
    + intros k v Hv Hin. rewrite (getattr_eq _ _ _ _ Hd0). by erewrite Hget.
Qed.

Lemma first_limits_to_one_witness :
  let w := (AidboxSearchSet.Aidbox_resources 0 "Patient" sample_world).2 in
  let w' := (AidboxSearchSet.first sample_env 0 w).2 in
  (AidboxSearchSet.first sample_env 0 w).1 = Ok (Some 0%nat) ∧
  params_of 0 w' = Some [("_count", VInt 1)] ∧
  length (resources w') = 2%nat.
Proof.
  intros w w'. subst w'.
  destruct (AidboxSearchSet.first sample_env 0 w) as [r w'] eqn:E.
  assert (r = Ok (Some 0%nat)) as Hr.
  { assert ((AidboxSearchSet.first sample_env 0 w).1 = Ok (Some 0%nat)) as H
      by (by vm_compute).
    by rewrite E in H. }
  destruct (first_limits_to_one sample_env w 0%nat
              (SearchSetObj 0 "Patient" 0) [] (AidboxObj "http://h" "tok" ∅)
              r w' eq_refl eq_refl eq_refl E) as (_ & Hp & _ & _ & Hrec).
  destruct (Hrec [jane; john] (Some 0%nat)) as (_ & Hlen & _).
  - by vm_compute.
  - apply Forall_cons_2; [|apply Forall_cons_2; [|apply Forall_nil_2]];
      intros p [= <-]; repeat constructor.
  - exact Hr.
  - by split; [|split].
Defined.

(** ** Search sets: building the query *)









Lemma str_join_strings sep names :
  str_join sep (VStr <$> names) = Ok (String.concat sep names).
Proof.
  induction names as [|s names IH]; [done|].
  destruct names as [|s' names]; [done|].
  change (str_join sep (VStr <$> s :: s' :: names))
    with (r ← str_join sep (VStr <$> s' :: names); Ok (s +:+ sep +:+ r)).
  by rewrite IH.
Qed.

Lemma str_join_ok sep l s :
  str_join sep l = Ok s → ∃ names, l = VStr <$> names.
Proof.
  revert s. induction l as [|v l IH]; intros s Hs; [by exists []|].
  destruct v as [| | |s0| | | | |]; try done.
  destruct l as [|v' l]; [by exists [s0]|].
  change (str_join sep (VStr s0 :: v' :: l))
    with (r ← str_join sep (v' :: l); Ok (s0 +:+ sep +:+ r)) in Hs.
  destruct (str_join sep (v' :: l)) as [r|] eqn:Hr; [|done].
  destruct (IH r eq_refl) as [names ->]. by exists (s0 :: names).
Qed.

Lemma str_join_raise sep l e : str_join sep l = Raise e → e = TypeError.
Proof.
  induction l as [|v l IH]; [done|].
  destruct v as [| | |s0| | | | |]; try (by intros [= <-]).
  destruct l as [|v' l]; [done|].
  change (str_join sep (VStr s0 :: v' :: l))
    with (r ← str_join sep (v' :: l); Ok (s0 +:+ sep +:+ r)).
  destruct (str_join sep (v' :: l)) as [r|]; [done|].
  intros [= <-]. by apply IH.
Qed.

(** X12. [sort(keys)]: a list of strings is joined with commas into one
    string, which becomes the parameter [_sort] (the empty list gives
    the empty string); a list with an item that is not a string raises
    TypeError before anything is written and without a new search set;
    any other value is stored as it is.  On success the parameter is in
    the dictionary of the search set the method was called on, which
    the new search set shares. *)
Theorem sort_joins_the_keys self keys w ss d :
  searchsets w !! self = Some ss → dicts w !! ss_params ss = Some d →
  let stored sort_keys w' :=
    AidboxSearchSet.sort self keys w = (Ok (length (searchsets w)), w') ∧
    params_of self w' = Some (dict_set "_sort" sort_keys d) ∧
    params_of (length (searchsets w)) w' =
      Some (dict_set "_sort" sort_keys d) in
  (∀ names, keys = VList (VStr <$> names) →
     ∃ w', stored (VStr (String.concat "," names)) w') ∧
  (∀ l, keys = VList l → (∀ names, l ≠ VStr <$> names) →
     AidboxSearchSet.sort self keys w = (Raise TypeError, w)) ∧
  ((∀ l, keys ≠ VList l) → ∃ w', stored keys w').
Proof.
  intros Hss Hd stored.
  assert (∀ sort_keys,
            match keys with
            | VList l => s ← str_join "," l; Ok (VStr s)
            | _ => Ok keys
            end = Ok sort_keys →
            ∃ w', stored sort_keys w') as Hstored.
  { intros sort_keys Hk. eexists. split; [by apply sort_eq|].
    destruct (chain_post w ss d (dict_set "_sort" sort_keys d) Hd)
      as (_ & _ & Hp).
    split; [|exact Hp].
    unfold params_of. simpl.
    rewrite lookup_app_l by (by eapply lookup_lt_Some). rewrite Hss. simpl.
    rewrite list_lookup_insert_eq; [done|by eapply lookup_lt_Some]. }
  split; [|split].
  - intros names ->. apply Hstored. by rewrite str_join_strings.
  - intros l -> Hl. unfold AidboxSearchSet.sort.
    rewrite (bind_ok _ _ _ _ _ (deref_some searchsets _ _ _ Hss)).
    destruct (str_join "," l) as [s|e] eqn:Hjoin.
    + apply str_join_ok in Hjoin as [names ->]. by destruct (Hl names).
    + apply str_join_raise in Hjoin as ->. done.
  - intros Hl. apply Hstored. destruct keys; try done. by destruct (Hl l).
Qed.

Lemma sort_joins_the_keys_witness :
  let w := (AidboxSearchSet.Aidbox_resources 0 "Patient" sample_world).2 in
  (∃ w', AidboxSearchSet.sort 0 (VList [VStr "-birth_date"; VStr "name"]) w
           = (Ok 1%nat, w') ∧
         params_of 0 w' = Some [("_sort", VStr "-birth_date,name")]) ∧
  AidboxSearchSet.sort 0 (VList [VStr "name"; VInt 1]) w =
    (Raise TypeError, w).
Proof.
  intros w. split.
  - destruct (sort_joins_the_keys 0%nat
                (VList [VStr "-birth_date"; VStr "name"]) w
                (SearchSetObj 0 "Patient" 0) [] eq_refl eq_refl)
      as (H & _ & _).
    destruct (H ["-birth_date"; "name"] eq_refl) as (w' & Hcall & Hp & _).
    by exists w'.
  - destruct (sort_joins_the_keys 0%nat (VList [VStr "name"; VInt 1]) w
                (SearchSetObj 0 "Patient" 0) [] eq_refl eq_refl)
      as (_ & H & _).
    apply (H [VStr "name"; VInt 1] eq_refl).
    intros [|s1 [|s2 [|s3 names]]]; done.
Defined.

(** What [all] sends: the collection request, then attribute queries. *)
Lemma all_sent env b w ss d a :
  searchsets w !! b = Some ss → dicts w !! ss_params ss = Some d →
  sessions w !! ss_aidbox ss = Some a →
  ∃ rest,
    sent (AidboxSearchSet.all env b w).2 =
      sent w ++ fetch_request a (ss_resource_type ss) (Some d) :: rest ∧
    Forall is_schema_request rest.
Proof.
  intros Hss Hd Ha. rewrite (all_eq env _ w ss d a Hss Hd Ha). cbv zeta.
  destruct (fetch_result _ _ ≫= records_of) as [records|e].
  - destruct (mapM_from_payload_only_schema_requests env (ss_aidbox ss)
                records
                (set_sent (λ s, s ++ [fetch_request a (ss_resource_type ss)
                                        (Some d)]) w))
      as (rest & Hrest & Hall).
    exists rest. split; [|done]. rewrite Hrest. simpl.
    by rewrite <- app_assoc.
  - exists []. by split.
Qed.

(** X13. A search set keeps no results: iterating over it calls [all()],
    and iterating a second time sends the collection request a second
    time, with the same parameters, host and token; the search set and
    its parameters are as they were. *)
Theorem iterating_fetches_again env w b ss d a r1 w1 r2 w2 :
  searchsets w !! b = Some ss → dicts w !! ss_params ss = Some d →
  sessions w !! ss_aidbox ss = Some a →
  AidboxSearchSet.__iter__ env b w = (r1, w1) →
  AidboxSearchSet.__iter__ env b w1 = (r2, w2) →
  let q := fetch_request a (ss_resource_type ss) (Some d) in
  (∃ rest1 rest2,
     sent w2 = sent w ++ q :: rest1 ++ q :: rest2 ∧
     Forall is_schema_request rest1 ∧ Forall is_schema_request rest2) ∧
  searchsets w2 !! b = Some ss ∧ params_of b w2 = Some d.
Proof.
  intros Hss Hd Ha H1 H2 q. unfold AidboxSearchSet.__iter__ in *.
  pose proof (all_kept_dicts env b w) as Hd1.
  pose proof (all_kept_searchsets env b w) as Hs1.
  pose proof (all_kept_dicts env b w1) as Hd2.
  pose proof (all_kept_searchsets env b w1) as Hs2.
  pose proof (all_cache_step env b w) as [Hle _].
  unfold kept in *. rewrite H1 in Hd1, Hs1, Hle. rewrite H2 in Hd2, Hs2.
  cbn [snd] in *.
  destruct (Hle _ _ Ha) as (a1 & Ha1 & Hhost & Htoken & _).
  assert (searchsets w1 !! b = Some ss) as Hss1 by (by rewrite Hs1).
  assert (dicts w1 !! ss_params ss = Some d) as Hdd1 by (by rewrite Hd1).
  destruct (all_sent env b w ss d a Hss Hd Ha) as (rest1 & Hsent1 & Hall1).
  destruct (all_sent env b w1 ss d a1 Hss1 Hdd1 Ha1)
    as (rest2 & Hsent2 & Hall2).
  rewrite H1 in Hsent1. rewrite H2 in Hsent2. cbn [snd] in *.
  assert (fetch_request a1 (ss_resource_type ss) (Some d) = q) as Hq.
  { unfold q, fetch_request. by rewrite Hhost, Htoken. }
  rewrite Hq in Hsent2.
  split; [|split].
  - exists rest1, rest2. split; [|done].
    rewrite Hsent2, Hsent1. by rewrite <- app_assoc.
  - by rewrite Hs2.
  - unfold params_of. rewrite Hs2, Hss1. simpl. by rewrite Hd2.
Qed.

Lemma iterating_fetches_again_witness :
  let w := (AidboxSearchSet.Aidbox_resources 0 "Patient" sample_world).2 in
  let w1 := (AidboxSearchSet.__iter__ sample_env 0 w).2 in
  let w2 := (AidboxSearchSet.__iter__ sample_env 0 w1).2 in
  let q := Request "http://h/Patient" (Some []) "Bearer tok" in
  ∃ rest1 rest2, sent w2 = q :: rest1 ++ q :: rest2.
Proof.
  intros w w1 w2 q.
  destruct (iterating_fetches_again sample_env w 0%nat
              (SearchSetObj 0 "Patient" 0) [] (AidboxObj "http://h" "tok" ∅)
              (AidboxSearchSet.__iter__ sample_env 0 w).1 w1
              (AidboxSearchSet.__iter__ sample_env 0 w1).1 w2)
    as [(rest1 & rest2 & Hsent & _) _].
  - reflexivity.
  - reflexivity.
  - reflexivity.
  - subst w1. by destruct (AidboxSearchSet.__iter__ sample_env 0 w).
  - subst w2. by destruct (AidboxSearchSet.__iter__ sample_env 0 w1).
  - by exists rest1, rest2.
Defined.

(** ** The schema resolver *)




(** X15. A resolution that fails caches nothing: the sessions are as
    they were and no object changes.  An unhashable resource type fails
    with TypeError before anything is sent; otherwise the attribute
    query was sent, and the next call of the resolver for that type
    sends it again. *)
Theorem failed_resolution_is_not_cached env s t w a e w' :
  sessions w !! s = Some a →
  Aidbox._fetch_schema env s t w = (Raise e, w') →
  sessions w' = sessions w ∧ same_objects w w' ∧
  (to_key t = None → e = TypeError ∧ w' = w) ∧
  (∀ k, to_key t = Some k →
     sent w' = sent w ++ [schema_request a t] ∧
     sent (Aidbox._fetch_schema env s t w').2 =
       sent w' ++ [schema_request a t]).
Proof.
  intros Ha Hcall.
  destruct (to_key t) as [k|] eqn:Hk.
  - destruct (schema a !! k) as [attrs|] eqn:Hs;
      [destruct (decide (attrs = ∅)) as [->|Hne]|].
    { assert (w' = set_sent (λ l, l ++ [schema_request a t]) w) as ->.
      { rewrite (fetch_schema_miss _ _ _ w _ _ Ha Hk) in Hcall by auto.
        destruct (fetch_result _ _ ≫= _); by injection Hcall. }
      split; [done|]. split; [by repeat split|]. split; [done|].
      intros k0 _. split; [done|].
      rewrite (fetch_schema_miss _ _ _ _ a k) by auto.
      by destruct (fetch_result _ _ ≫= _). }
    { by rewrite (fetch_schema_hit _ _ _ w _ _ _ Ha Hk Hs Hne) in Hcall. }
    assert (w' = set_sent (λ l, l ++ [schema_request a t]) w) as ->.
    { rewrite (fetch_schema_miss _ _ _ w _ _ Ha Hk) in Hcall by auto.
      destruct (fetch_result _ _ ≫= _); by injection Hcall. }
    split; [done|]. split; [by repeat split|]. split; [done|].
    intros k0 _. split; [done|].
    rewrite (fetch_schema_miss _ _ _ _ a k) by auto.
    by destruct (fetch_result _ _ ≫= _).
  - unfold Aidbox._fetch_schema in Hcall.
    rewrite (bind_ok _ _ _ _ _ (deref_some sessions _ _ _ Ha)) in Hcall.
    rewrite Hk in Hcall. injection Hcall as <- <-.
    split; [done|]. split; [by repeat split|]. by split.
Qed.

Lemma failed_resolution_is_not_cached_witness :
  let w' := (Aidbox._fetch_schema sample_env 0 (VStr "Nothing")
               sample_world).2 in
  (Aidbox._fetch_schema sample_env 0 (VStr "Nothing") sample_world).1 =
    Raise AidboxResourceNotFound ∧
  sessions w' = sessions sample_world ∧
  sent (Aidbox._fetch_schema sample_env 0 (VStr "Nothing") w').2 =
    [schema_request (AidboxObj "http://h" "tok" ∅) (VStr "Nothing");
     schema_request (AidboxObj "http://h" "tok" ∅) (VStr "Nothing")].
Proof.
  intros w'.
  destruct (failed_resolution_is_not_cached sample_env 0%nat (VStr "Nothing")
              sample_world (AidboxObj "http://h" "tok" ∅)
              AidboxResourceNotFound w')
    as (Hsess & _ & _ & Hretry).
  - reflexivity.
  - by vm_compute.
  - split; [by vm_compute|]. split; [exact Hsess|].
    destruct (Hretry (KStr "Nothing") eq_refl) as [Hsent ->].
    by rewrite Hsent.
Defined.

(** X16. A resolution that succeeds touches one entry of one cache: in the
    session asked, host and token stay, the entry of the type holds the
    set returned, and every other entry is as it was; the other
    sessions and all other objects are unchanged.  At most one request
    is sent, the attribute query. *)
Theorem resolution_touches_one_cache_entry env s t w a k attrs w' :
  sessions w !! s = Some a → to_key t = Some k →
  Aidbox._fetch_schema env s t w = (Ok attrs, w') →
  (∃ a', sessions w' !! s = Some a' ∧ host a' = host a ∧
         token a' = token a ∧ schema a' !! k = Some attrs ∧
         ∀ k', k' ≠ k → schema a' !! k' = schema a !! k') ∧
  (∀ s', s' ≠ s → sessions w' !! s' = sessions w !! s') ∧
  same_objects w w' ∧
  (sent w' = sent w ∨ sent w' = sent w ++ [schema_request a t]).
Proof.
  intros Ha Hk Hcall.
  pose proof (fetch_schema_same_objects env s t w) as Hsame.
  rewrite Hcall in Hsame. cbn [snd] in Hsame.
  split; [|split; [|split; [done|]]].
  - destruct (schema a !! k) as [attrs0|] eqn:Hs;
      [destruct (decide (attrs0 = ∅)) as [->|Hne]|].
    2:{ rewrite (fetch_schema_hit _ _ _ w _ _ _ Ha Hk Hs Hne) in Hcall.
        injection Hcall as <- <-. by exists a. }
    all: rewrite (fetch_schema_miss _ _ _ w _ _ Ha Hk) in Hcall by auto.
    all: destruct (fetch_result _ _ ≫= _) as [attrs1|]; [|done].
    all: injection Hcall as <- <-.
    all: eexists; split;
           [simpl; by rewrite list_lookup_alter_eq, Ha|simpl].
    all: split; [done|]; split; [done|].
    all: split; [by rewrite lookup_insert_eq|].
    all: intros k' Hk'; by rewrite lookup_insert_ne.
  - intros s' Hs'.
    destruct (schema a !! k) as [attrs0|] eqn:Hs;
      [destruct (decide (attrs0 = ∅)) as [->|Hne]|].
    2:{ rewrite (fetch_schema_hit _ _ _ w _ _ _ Ha Hk Hs Hne) in Hcall.
        by injection Hcall as <- <-. }
    all: rewrite (fetch_schema_miss _ _ _ w _ _ Ha Hk) in Hcall by auto.
    all: destruct (fetch_result _ _ ≫= _) as [attrs1|]; [|done].
    all: injection Hcall as <- <-.
    all: simpl; by rewrite list_lookup_alter_ne.
  - destruct (schema a !! k) as [attrs0|] eqn:Hs;
      [destruct (decide (attrs0 = ∅)) as [->|Hne]|].
    2:{ rewrite (fetch_schema_hit _ _ _ w _ _ _ Ha Hk Hs Hne) in Hcall.
        injection Hcall as <- <-. by left. }
    all: rewrite (fetch_schema_miss _ _ _ w _ _ Ha Hk) in Hcall by auto.
    all: destruct (fetch_result _ _ ≫= _) as [attrs1|]; [|done].
    all: injection Hcall as <- <-; by right.
Qed.

Lemma resolution_touches_one_cache_entry_witness :
  let w := exec sample_env (CallFetchSchema 0 (VStr "Basic")) sample_world in
  let w' := (Aidbox._fetch_schema sample_env 0 (VStr "Patient") w).2 in
  ∃ a', sessions w' !! 0%nat = Some a' ∧
        schema a' !! KStr "Patient" =
          Some ({["name"; "birth_date"]} ∪ {["id"]}) ∧
        schema a' !! KStr "Basic" = Some {["id"]}.
Proof.
  intros w w'.
  destruct (resolution_touches_one_cache_entry sample_env 0%nat
              (VStr "Patient") w
              (AidboxObj "http://h" "tok" {[KStr "Basic" := {["id"]}]})
              (KStr "Patient") ({["name"; "birth_date"]} ∪ {["id"]}) w')
    as ((a' & Ha' & _ & _ & Hnew & Hold) & _).
  - by vm_compute.
  - reflexivity.
  - by vm_compute.
  - exists a'. split; [exact Ha'|]. split; [exact Hnew|].
    rewrite Hold by done. by vm_compute.
Defined.

(** ** References *)

(** X17. [reference()] makes a new [AidboxReference] with the session and
    the resource type of the resource and with its [id] as the field
    mapping has it: [None] for a resource that has no id yet.  When the
    schema of the type does not know [id], the call raises the
    unknown-field error for [id] and makes nothing.  The resource
    itself is not changed. *)
Theorem reference_copies_type_and_id e w d attrs data :
  resources w !! e = Some d → "id" ∉ dict_keys d →
  AidboxResource.root_attrs e w = (Ok attrs, w) →
  attr "data" d = VDict data →
  ("id" ∈ attrs →
   AidboxResource.reference e w =
     (Ok (length (references w)),
      set_references
        (λ h, h ++ [ReferenceObj (attr "aidbox" d) (attr "resource_type" d)
                      (default VNone (dict_get "id" data))]) w)) ∧
  ("id" ∉ attrs →
   AidboxResource.reference e w =
     (Raise (AidboxResourceFieldDoesNotExist "id" (attr "resource_type" d)),
      w)).
Proof.
  intros Hd Hid Hroot Hdata.
  rewrite (root_attrs_eq _ _ _ Hd) in Hroot.
  assert (root_attrs_of (sessions w) d = Ok attrs) as Hroot'
    by (by injection Hroot).
  assert (getattr_of (sessions w) "id" d = getattr_hook_of (sessions w) "id" d)
    as Hget.
  { unfold getattr_of. rewrite decide_False by closed_name.
    assert (dict_get "id" d = None) as -> by (by apply dict_get_None).
    rewrite decide_False by closed_name. by rewrite decide_False by closed_name. }
  rewrite (reference_eq _ _ _ Hd), Hget. unfold getattr_hook_of.
  rewrite Hroot'. simpl. split; intros Hin.
  - rewrite decide_True by done. by rewrite Hdata.
  - by rewrite decide_False by done.
Qed.

Lemma reference_copies_type_and_id_witness :
  let w := (AidboxResource.__init__ sample_env 0 false
              [("resource_type", VStr "Patient"); ("name", VStr "Jane")]
              sample_world).2 in
  AidboxResource.reference 0 w =
    (Ok 0%nat,
     set_references
       (λ h, h ++ [ReferenceObj (VSession 0) (VStr "Patient") VNone]) w).
Proof.
  intros w.
  destruct (reference_copies_type_and_id 0%nat w
              [("data", VDict [("name", VStr "Jane")]);
               ("aidbox", VSession 0); ("resource_type", VStr "Patient");
               ("meta", VDict [])]
              ({["name"; "birth_date"]} ∪ {["id"]})
              [("name", VStr "Jane")]) as [H _].
  - by vm_compute.
  - closed_name.
  - by vm_compute.
  - reflexivity.
  - apply H. closed_name.
Defined.

(** ** What a new resource holds *)

(** The attributes the loop of [__init__] does not touch read as
    [__init__] set them before the loop. *)
Lemma resource_init_frame env s skip p w e w' :
  NoDup (dict_keys p) →
  Forall (λ kv, is_resource kv.2 = false) p →
  "data" ∉ dict_keys p → "__dict__" ∉ dict_keys p → "aidbox" ∉ dict_keys p →
  AidboxResource.__init__ env s skip p w = (Ok e, w') →
  ∃ d', resources w' !! e = Some d' ∧
    ∀ k, k ∉ dict_keys (dict_del "meta" p) → k ≠ "data" →
      getattr_of (sessions w') k d' =
      getattr_of (sessions w') k
        [("data", VDict []); ("aidbox", VSession s);
         ("resource_type", attr "resource_type" p);
         ("meta", default (VDict []) (dict_get "meta" p))].
Proof.
  intros Hnd Hjson Hdata Hdict Haid.
  rewrite (resource_init_eq env s skip p w Hjson).
  set (d0 := [("data", VDict []); ("aidbox", VSession s);
              ("resource_type", attr "resource_type" p)]).
  set (meta := default (VDict []) (dict_get "meta" p)).
  pose proof (fetch_schema_same_objects env s (attr "resource_type" p)
                (set_resources (λ h, h ++ [d0]) w)) as Hsame.
  destruct (Aidbox._fetch_schema _ _ _ _) as [[attrs|e0] w1] eqn:Hfetch;
    [|done].
  simpl in Hsame. destruct Hsame as (_ & _ & Hres1 & _).
  cbv zeta.
  destruct (init_loop_of _ _ _ _) as [[[]|e0] d'] eqn:Hloop; [|done].
  simpl. intros [= <- <-].
  destruct (init_loop_of_ok (sessions w1) skip (dict_del "meta" p)
              (d0 ++ [("meta", meta)]) d')
    as (_ & _ & _ & Hfr' & _);
    [by apply dict_del_NoDup|rewrite dict_keys_del; naive_solver..| |done|].
  { intros v Hv. rewrite dict_get_del_ne in Hv by done.
    change (attr "resource_type" (d0 ++ [("meta", meta)]))
      with (attr "resource_type" p).
    unfold attr. by rewrite Hv. }
  exists d'. split; [|exact Hfr'].
  simpl. rewrite Hres1. simpl.
  rewrite list_lookup_insert_eq; [done|]. rewrite length_app. simpl. lia.
Qed.

(** X18. A resource as [__init__] leaves it (keywords JSON values, none
    named [data], [__dict__] or [aidbox]): its session is the one
    given, its resource type the keyword [resource_type], its [meta]
    the keyword [meta] or else an empty dictionary; its field mapping
    holds only keywords that the schema knows; and a field of the
    schema for which no keyword was given reads [None]. *)
Theorem new_resource_holds_what_the_schema_knows env s skip p w e w' :
  NoDup (dict_keys p) →
  Forall (λ kv, is_resource kv.2 = false) p →
  "data" ∉ dict_keys p → "__dict__" ∉ dict_keys p → "aidbox" ∉ dict_keys p →
  AidboxResource.__init__ env s skip p w = (Ok e, w') →
  ∃ attrs data,
    AidboxResource.root_attrs e w' = (Ok attrs, w') ∧
    AidboxResource.getattr e "aidbox" w' = (Ok (VSession s), w') ∧
    AidboxResource.getattr e "resource_type" w' =
      (Ok (attr "resource_type" p), w') ∧
    AidboxResource.getattr e "meta" w' =
      (Ok (default (VDict []) (dict_get "meta" p)), w') ∧
    AidboxResource.getattr e "data" w' = (Ok (VDict data), w') ∧
    (∀ k, k ∈ dict_keys data → k ∈ dict_keys p ∧ k ∈ attrs) ∧
    (∀ k, k ∈ attrs → k ∉ dict_keys p → k ∉ AidboxResource.class_names →
          AidboxResource.getattr e k w' = (Ok VNone, w')).
Proof.
  intros Hnd Hjson Hdata Hdict Haid Hcall.
  destruct (resource_init_frame env s skip p w e w' Hnd Hjson Hdata Hdict
              Haid Hcall) as (d' & Hd' & Hframe).
  apply resource_init_ok in Hcall
    as (-> & d'' & attrs & Hres & _ & Hroot & _ & Haidbox & Htype & _ & _ &
        (data & Hdata' & Hkeys) & _); [|done..].
  assert (d'' = d') as ->.
  { rewrite Hres in Hd'. rewrite lookup_app_r, Nat.sub_diag in Hd' by done.
    by injection Hd'. }
  assert (∀ k v, attr k d' = v → v ≠ VNone →
                 k ∉ AidboxResource.descriptors →
                 getattr_of (sessions w') k d' = Ok v) as Hattr.
  { intros k v Hk Hv Hdesc. unfold getattr_of.
    rewrite decide_False by done. unfold attr in Hk.
    destruct (dict_get k d'); simpl in Hk; by subst. }
  exists attrs, data. rewrite (root_attrs_eq _ _ _ Hd').
  rewrite !(getattr_eq _ _ _ _ Hd').
  split; [by rewrite Hroot|]. split; [|split; [|split; [|split; [|split]]]].
  - by rewrite (Hattr _ _ Haidbox) by (done || closed_name).
  - unfold getattr_of. rewrite decide_False by closed_name.
    rewrite <- Htype. unfold attr.
    destruct (dict_get "resource_type" d'); [done|].
    by rewrite decide_True by closed_name.
  - rewrite Hframe; [done| |done]. rewrite dict_keys_del. naive_solver.
  - by rewrite (Hattr _ _ Hdata') by (done || closed_name).
  - done.
  - intros k Hin Hp Hcls. rewrite (getattr_eq _ _ _ _ Hd').
    rewrite Hframe.
    2:{ rewrite dict_keys_del. naive_solver. }
    2:{ intros ->. apply Hcls. closed_name. }
    unfold getattr_of.
    rewrite decide_False
      by (intros ?; by apply Hcls, descriptors_class_names).
    assert (dict_get k
              [("data", VDict []); ("aidbox", VSession s);
               ("resource_type", attr "resource_type" p);
               ("meta", default (VDict []) (dict_get "meta" p))] = None)
      as ->.
    { apply dict_get_None. unfold dict_keys. simpl.
      rewrite !not_elem_of_cons. repeat split;
        try (intros ->; apply Hcls; closed_name).
      apply not_elem_of_nil. }
    rewrite decide_False
      by (intros ?; by apply Hcls, class_attributes_class_names).
    rewrite decide_False by done.
    unfold getattr_hook_of.
    rewrite (root_attrs_of_ext _ d') by (by rewrite ?Haidbox, ?Htype).
    rewrite Hroot. simpl. by rewrite decide_True by done.
Qed.

Lemma new_resource_holds_what_the_schema_knows_witness :
  let p := [("resource_type", VStr "Patient"); ("name", VStr "Jane");
            ("meta", VDict [("version", VInt 2)])] in
  let w' := (AidboxResource.__init__ sample_env 0 false p sample_world).2 in
  AidboxResource.getattr 0 "birth_date" w' = (Ok VNone, w') ∧
  AidboxResource.getattr 0 "meta" w' =
    (Ok (VDict [("version", VInt 2)]), w').
Proof.
  intros p w'. subst w'.
  destruct (AidboxResource.__init__ sample_env 0 false p sample_world)
    as [r w'] eqn:E.
  assert (r = Ok 0%nat) as ->.
  { assert ((AidboxResource.__init__ sample_env 0 false p sample_world).1 =
              Ok 0%nat) as H by (by vm_compute).
    by rewrite E in H. }
  assert (w' = (AidboxResource.__init__ sample_env 0 false p sample_world).2)
    as Hw' by (by rewrite E).
  destruct (new_resource_holds_what_the_schema_knows sample_env 0%nat false p
              sample_world 0%nat w')
    as (attrs & data & Hroot & _ & _ & Hmeta & _ & _ & Hnone).
  - closed_name.
  - repeat constructor.
  - closed_name.
  - closed_name.
  - closed_name.
  - exact E.
  - split; [|exact Hmeta].
    assert (attrs = {["name"; "birth_date"]} ∪ {["id"]}) as ->.
    { assert (AidboxResource.root_attrs 0 w' =
                (Ok ({["name"; "birth_date"]} ∪ {["id"]}), w')) as E'
        by (rewrite Hw'; by vm_compute).
      congruence. }
    apply Hnone; closed_name.
Defined.

(** ** Search sets from the session *)

Lemma Aidbox_resources_eq s t w :
  AidboxSearchSet.Aidbox_resources s t w =
    (Ok (length (searchsets w)),
     set_searchsets (λ h, h ++ [SearchSetObj s t (length (dicts w))])
       (set_dicts (λ h, h ++ [[]]) w)).
Proof. reflexivity. Qed.

(** X19. [aidbox.resources(type)] gives a search set without parameters
    and with a dictionary of its own, sends nothing and checks nothing
    (neither the session nor the type).  Search sets from separate
    calls are independent: what a chain method writes through one of
    them does not show in the other. *)
Theorem resources_gives_independent_search_sets s1 t1 s2 t2 v w :
  let b1 := length (searchsets w) in
  let b2 := S (length (searchsets w)) in
  ∃ w1 w2,
    AidboxSearchSet.Aidbox_resources s1 t1 w = (Ok b1, w1) ∧
    AidboxSearchSet.Aidbox_resources s2 t2 w1 = (Ok b2, w2) ∧
    params_of b1 w2 = Some [] ∧ params_of b2 w2 = Some [] ∧
    sent w2 = sent w ∧ sessions w2 = sessions w ∧
    resources w2 = resources w ∧
    params_of b1 (AidboxSearchSet.limit b1 v w2).2 = Some [("_count", v)] ∧
    params_of b2 (AidboxSearchSet.limit b1 v w2).2 = Some [].
Proof.
  intros b1 b2.
  set (ss1 := SearchSetObj s1 t1 (length (dicts w))).
  set (ss2 := SearchSetObj s2 t2 (S (length (dicts w)))).
  set (w1 := set_searchsets (λ h, h ++ [ss1]) (set_dicts (λ h, h ++ [[]]) w)).
  set (w2 := set_searchsets (λ h, h ++ [ss2])
               (set_dicts (λ h, h ++ [[]]) w1)).
  assert (length (searchsets w1) = b2) as Hlen1
    by (simpl; rewrite length_app; simpl; unfold b2; lia).
  assert (length (dicts w1) = S (length (dicts w))) as Hlen2
    by (simpl; rewrite length_app; simpl; lia).
  exists w1, w2.
  split; [apply Aidbox_resources_eq|].
  split; [by rewrite Aidbox_resources_eq, Hlen1, Hlen2|].
  assert (searchsets w2 !! b1 = Some ss1) as Hb1.
  { simpl. rewrite lookup_app_l by (rewrite length_app; simpl; unfold b1; lia).
    by rewrite lookup_app_r, Nat.sub_diag. }
  assert (searchsets w2 !! b2 = Some ss2) as Hb2.
  { simpl. rewrite lookup_app_r by (rewrite length_app; simpl; unfold b2; lia).
    rewrite length_app. simpl. unfold b2.
    by replace (S (length (searchsets w)) - (length (searchsets w) + 1))%nat
      with 0%nat by lia. }
  assert (dicts w2 !! length (dicts w) = Some []) as Hd1.
  { simpl. rewrite lookup_app_l by (rewrite length_app; simpl; lia).
    by rewrite lookup_app_r, Nat.sub_diag. }
  assert (dicts w2 !! S (length (dicts w)) = Some []) as Hd2.
  { simpl. rewrite lookup_app_r by (rewrite length_app; simpl; lia).
    rewrite length_app. simpl.
    by replace (S (length (dicts w)) - (length (dicts w) + 1))%nat
      with 0%nat by lia. }
  split; [unfold params_of; by rewrite Hb1|].
  split; [unfold params_of; by rewrite Hb2|].
  split; [done|]. split; [done|]. split; [done|].
  rewrite (limit_eq _ v w2 ss1 [] Hb1 Hd1).
  destruct (chain_post w2 ss1 [] (dict_set "_count" v []) Hd1)
    as (_ & _ & Hp).
  unfold params_of. cbn [snd searchsets set_searchsets set_dicts].
  rewrite !lookup_app_l by (by eapply lookup_lt_Some).
  rewrite Hb1, Hb2. simpl. split.
  - apply list_lookup_insert_eq. by eapply lookup_lt_Some.
  - rewrite list_lookup_insert_ne by lia. exact Hd2.
Qed.
